(** * LLM Council: a shallow embedding of the backend and its properties

    The development follows the Python sources of the backend:
    - [backend/config.py]     the process-wide constants ([Config]);
    - [backend/pricing.py]    the cost estimator ([Pricing]);
    - [backend/main.py]       the estimate-cost endpoint ([Main]), the
                              streaming coordinator [event_generator]
                              ([Stream]), the prompt formatter and the
                              conversation endpoints ([Endpoints]);
    - [backend/openrouter.py] the model gateway [query_model] and the
                              fan-out dispatcher [query_models_parallel]
                              ([Openrouter]);
    - [backend/storage.py]    the conversation and project store
                              ([Storage]).
    The aggregation engine of [backend/council.py] is modelled from its
    contract ([Council]).

    Python numbers (int and float alike) are embedded as exact rationals
    [Q]; dictionaries are [gmap]s with string keys; a Python exception (an
    instance of [Exception]) is a value of the type [exn] carried by the
    error monad [result]; the generator is a state monad over the trace of
    its effects; the store is a state and error monad over the files, a
    file being named by the location that its path resolves to. The first
    part holds the definitions, the second part the properties. *)

From Stdlib Require Import ZArith QArith Qround Lqa Lia List.
From stdpp Require Import gmap strings pretty list fin_maps sorting.

Open Scope Z_scope.

(** ** Python exceptions and the error monad *)

Inductive exn : Type :=
  | ZeroDivisionError
  | KeyError (key : string)
  | IndexError
  | TypeError
  | AttributeError
  | JSONDecodeError
  | HTTPStatusError (status : Z)
  | TransportError
  | HTTPException (status : Z)
  | RuntimeError (msg : string)
  | OverflowError
  | ValueError.

(** [except ValueError]: [json.JSONDecodeError] is a subclass of it. *)
Definition is_value_error (e : exn) : bool :=
  match e with
  | ValueError | JSONDecodeError => true
  | _ => false
  end.

Inductive result (A : Type) : Type :=
  | Ok (a : A)
  | Raise (e : exn).
Arguments Ok {A} a.
Arguments Raise {A} e.

Definition rbind {A B} (r : result A) (k : A → result B) : result B :=
  match r with
  | Ok a => k a
  | Raise e => Raise e
  end.

Declare Scope result_scope.
Delimit Scope result_scope with result.
Notation "'try!' x ':=' r 'in' k" := (rbind r (fun x => k))
  (at level 10, x name, r at level 100, k at level 200) : result_scope.

(** The outcome of an [await]: a value, an exception (an instance of
    [Exception]), or the cancellation of the task
    ([asyncio.CancelledError], which is a [BaseException] and not an
    [Exception]). *)
Inductive outcome (A : Type) : Type :=
  | Returned (a : A)
  | Raised (e : exn)
  | Cancelled.
Arguments Returned {A} a.
Arguments Raised {A} e.
Arguments Cancelled {A}.

Definition obind {A B} (o : outcome A) (k : A → outcome B) : outcome B :=
  match o with
  | Returned a => k a
  | Raised e => Raised e
  | Cancelled => Cancelled
  end.

(** A computation that does not wait: it returns or raises. *)
Definition sync {A} (r : result A) : outcome A :=
  match r with
  | Ok a => Returned a
  | Raise e => Raised e
  end.

Declare Scope outcome_scope.
Delimit Scope outcome_scope with outcome.
Notation "'await!' x ':=' o 'in' k" := (obind o (fun x => k))
  (at level 10, x name, o at level 100, k at level 200) : outcome_scope.

(** ** Python arithmetic on exact rationals *)

Module PyNum.

(** [a / b]: true division raises on a zero divisor. *)
Definition truediv (a b : Q) : result Q :=
  if Qeq_bool b 0 then Raise ZeroDivisionError else Ok (a / b)%Q.

(** [max(a, b)]: the first argument wins unless the second is larger. *)
Definition max (a b : Q) : Q :=
  if Qle_bool b a then a else b.

(** [math.ceil(x)], as a number again. *)
Definition ceil (x : Q) : Q := inject_Z (Qceiling x).

(** [int(x)]: truncation towards zero. *)
Definition int (x : Q) : Q := inject_Z (Z.quot (Qnum x) (Zpos (Qden x))).

(** [sum(xs)]: left fold from the integer 0. *)
Definition sum (xs : list Q) : Q := foldl Qplus 0%Q xs.

End PyNum.

(** ** backend/config.py *)

Module Config.

Definition COUNCIL_MODELS : list string :=
  [ "openai/gpt-5.1"; "google/gemini-3-pro-preview";
    "deepseek/deepseek-v3.2"; "x-ai/grok-4" ]%string.

Definition CHAIRMAN_MODEL : string := "anthropic/claude-sonnet-4.5".

Definition rates (i o : Q) : gmap string (option Q) :=
  <["input_per_million" := Some i]> (<["output_per_million" := Some o]> ∅).

Definition MODEL_PRICING : gmap string (gmap string (option Q)) :=
  <["openai/gpt-5.1" := rates (125#100) 10]>
  (<["google/gemini-3-pro-preview" := rates 2 12]>
  (<["deepseek/deepseek-v3.2" := rates (25#100) (38#100)]>
  (<["x-ai/grok-4" := rates 3 15]>
  (<["anthropic/claude-sonnet-4.5" := rates 3 15]> ∅)))).

End Config.

(** ** backend/pricing.py *)

Module Pricing.

Local Open Scope result_scope.

Definition DEFAULT_CHARS_PER_TOKEN : Q := 4.

Definition DEFAULT_ASSUMPTIONS : gmap string Q :=
  <["chars_per_token" := DEFAULT_CHARS_PER_TOKEN]>
  (<["min_stage1_tokens" := 512%Q]>
  (<["min_stage2_tokens" := 256%Q]>
  (<["min_stage3_tokens" := 256%Q]>
  (<["stage1_output_ratio" := (9#10)%Q]>
  (<["stage2_output_ratio" := (35#100)%Q]>
  (<["stage3_output_ratio" := (8#10)%Q]> ∅)))))).

(** [tokens_from_chars(char_count, chars_per_token)] *)
Definition tokens_from_chars (char_count : Z) (chars_per_token : Q)
  : result Z :=
  if char_count <=? 0 then Ok 0
  else
    try! q := PyNum.truediv (inject_Z char_count)
                (PyNum.max chars_per_token (1 # 1000000)) in
    Ok (Qceiling q).

Record ModelCost : Type := {
  mc_model : string;
  mc_input_tokens : Q;
  mc_output_tokens : Q;
  mc_input_rate_per_million : Q;
  mc_output_rate_per_million : Q;
  mc_cost_input : Q;
  mc_cost_output : Q;
  mc_cost_total : Q;
  mc_pricing_missing : bool
}.

(** [float(d.get(key, 0.0) or 0.0)]: an absent key, [None] and zero all
    give [0.0]. *)
Definition rate_of (model_pricing : gmap string (option Q)) (key : string)
  : Q :=
  match model_pricing !! key with
  | Some (Some r) => if Qeq_bool r 0 then 0%Q else r
  | Some None => 0%Q
  | None => 0%Q
  end.

(** [estimate_model_cost(model_id, input_tokens, output_tokens, pricing)] *)
Definition estimate_model_cost (model_id : string)
    (input_tokens output_tokens : Q)
    (pricing : gmap string (gmap string (option Q))) : ModelCost :=
  let model_pricing :=
    if bool_decide (pricing ≠ ∅) then default ∅ (pricing !! model_id)
    else ∅ in
  let input_rate := rate_of model_pricing "input_per_million" in
  let output_rate := rate_of model_pricing "output_per_million" in
  let cost_input := ((input_tokens / 1000000) * input_rate)%Q in
  let cost_output := ((output_tokens / 1000000) * output_rate)%Q in
  {| mc_model := model_id;
     mc_input_tokens := input_tokens;
     mc_output_tokens := output_tokens;
     mc_input_rate_per_million := input_rate;
     mc_output_rate_per_million := output_rate;
     mc_cost_input := cost_input;
     mc_cost_output := cost_output;
     mc_cost_total := (cost_input + cost_output)%Q;
     mc_pricing_missing :=
       Qeq_bool input_rate 0 && Qeq_bool output_rate 0 |}.

(** [d.get(key, dflt)] *)
Definition get (d : gmap string Q) (key : string) (dflt : Q) : Q :=
  default dflt (d !! key).

(** [d[key]] *)
Definition subscript (d : gmap string Q) (key : string) : result Q :=
  match d !! key with
  | Some v => Ok v
  | None => Raise (KeyError key)
  end.

(** The local variables of [estimate_council_cost] that hold token
    counts (lines 66 to 98 of the source). *)
Record StageTokens : Type := {
  st_base_tokens : Q;
  st_stage1_input_tokens_per_model : Q;
  st_stage1_output_tokens_per_model : Q;
  st_stage2_input_tokens_per_model : Q;
  st_stage2_output_tokens_per_model : Q;
  st_stage3_input_tokens : Q;
  st_stage3_output_tokens : Q
}.

Record StageCost : Type := {
  sc_per_model : list ModelCost;
  sc_cost_total : Q
}.

Record ChairmanCost : Type := {
  sc_chairman : ModelCost;
  sc3_cost_total : Q
}.

Record CouncilCost : Type := {
  cc_char_count : Z;
  cc_base_tokens : Q;
  cc_assumptions : gmap string Q;
  cc_stage1 : StageCost;
  cc_stage2 : StageCost;
  cc_stage3 : ChairmanCost;
  cc_cost_total : Q
}.

(** The three ratio look-ups with their legacy fall-backs. *)
Definition stage1_output_ratio_of (params : gmap string Q) : Q :=
  get params "stage1_output_ratio" (get params "stage1_output_multiplier" (9#10)).
Definition stage2_output_ratio_of (params : gmap string Q) : Q :=
  get params "stage2_output_ratio" (get params "stage2_output_multiplier" (35#100)).
Definition stage3_output_ratio_of (params : gmap string Q) : Q :=
  get params "stage3_output_ratio" (get params "stage3_output_multiplier" (8#10)).

(** Token counts of one run: the body of [estimate_council_cost] from
    [base_tokens] to [stage3_output_tokens]. *)
Definition stage_tokens (total_chars : Z) (num_models : Q)
    (params : gmap string Q) : result StageTokens :=
  let stage1_output_ratio := stage1_output_ratio_of params in
  let stage2_output_ratio := stage2_output_ratio_of params in
  let stage3_output_ratio := stage3_output_ratio_of params in
  try! cpt := subscript params "chars_per_token" in
  try! t := tokens_from_chars total_chars cpt in
  let base_tokens := PyNum.max (inject_Z t) (get params "min_stage1_tokens" 0) in
  let stage1_input_tokens_per_model := base_tokens in
  let stage1_output_tokens_per_model :=
    PyNum.max (PyNum.ceil (base_tokens * stage1_output_ratio))
              (PyNum.int (get params "min_stage1_tokens" 0 * (1#2))) in
  let stage1_total_output_tokens :=
    (stage1_output_tokens_per_model * num_models)%Q in
  let stage2_input_tokens_per_model :=
    PyNum.max (PyNum.ceil (base_tokens + stage1_total_output_tokens))
              (get params "min_stage2_tokens" 0) in
  let stage2_output_tokens_per_model :=
    PyNum.max (PyNum.ceil (base_tokens * stage2_output_ratio))
              (get params "min_stage2_tokens" 0) in
  let stage2_total_output_tokens :=
    (stage2_output_tokens_per_model * num_models)%Q in
  let stage3_input_tokens :=
    PyNum.max (PyNum.ceil (base_tokens + stage1_total_output_tokens
                           + stage2_total_output_tokens))
              (get params "min_stage3_tokens" 0) in
  let stage3_output_tokens :=
    PyNum.max (PyNum.ceil (base_tokens * stage3_output_ratio))
              (get params "min_stage3_tokens" 0) in
  Ok {| st_base_tokens := base_tokens;
        st_stage1_input_tokens_per_model := stage1_input_tokens_per_model;
        st_stage1_output_tokens_per_model := stage1_output_tokens_per_model;
        st_stage2_input_tokens_per_model := stage2_input_tokens_per_model;
        st_stage2_output_tokens_per_model := stage2_output_tokens_per_model;
        st_stage3_input_tokens := stage3_input_tokens;
        st_stage3_output_tokens := stage3_output_tokens |}.

(** [estimate_council_cost(total_chars, models, chairman_model, pricing,
    assumptions)]; [assumptions] is [None] or a dictionary. *)
Definition estimate_council_cost (total_chars : Z) (models : list string)
    (chairman_model : string)
    (pricing : gmap string (gmap string (option Q)))
    (assumptions : option (gmap string Q)) : result CouncilCost :=
  let params := default ∅ assumptions ∪ DEFAULT_ASSUMPTIONS in
  let num_models := inject_Z (Z.of_nat (length models)) in
  try! st := stage_tokens total_chars num_models params in
  let stage1_estimates :=
    map (λ m, estimate_model_cost m (st_stage1_input_tokens_per_model st)
                (st_stage1_output_tokens_per_model st) pricing) models in
  let stage2_estimates :=
    map (λ m, estimate_model_cost m (st_stage2_input_tokens_per_model st)
                (st_stage2_output_tokens_per_model st) pricing) models in
  let chairman_estimate :=
    estimate_model_cost chairman_model (st_stage3_input_tokens st)
      (st_stage3_output_tokens st) pricing in
  let stage1_total := PyNum.sum (map mc_cost_total stage1_estimates) in
  let stage2_total := PyNum.sum (map mc_cost_total stage2_estimates) in
  let stage3_total := mc_cost_total chairman_estimate in
  Ok {| cc_char_count := total_chars;
        cc_base_tokens := st_base_tokens st;
        cc_assumptions :=
          <["stage1_output_ratio" := stage1_output_ratio_of params]>
          (<["stage2_output_ratio" := stage2_output_ratio_of params]>
          (<["stage3_output_ratio" := stage3_output_ratio_of params]>
          (<["stage1_input_tokens_per_model" := st_stage1_input_tokens_per_model st]>
          (<["stage1_output_tokens_per_model" := st_stage1_output_tokens_per_model st]>
          (<["stage2_input_tokens_per_model" := st_stage2_input_tokens_per_model st]>
          (<["stage2_output_tokens_per_model" := st_stage2_output_tokens_per_model st]>
          (<["stage3_input_tokens" := st_stage3_input_tokens st]>
          (<["stage3_output_tokens" := st_stage3_output_tokens st]>
          (<["num_models" := num_models]> params)))))))));
        cc_stage1 := {| sc_per_model := stage1_estimates;
                        sc_cost_total := stage1_total |};
        cc_stage2 := {| sc_per_model := stage2_estimates;
                        sc_cost_total := stage2_total |};
        cc_stage3 := {| sc_chairman := chairman_estimate;
                        sc3_cost_total := stage3_total |};
        cc_cost_total := (stage1_total + stage2_total + stage3_total)%Q |}.

End Pricing.

(** ** backend/main.py: the estimate-cost endpoint *)

Module Main.

Import Pricing.

Record EstimateCostRequest : Type := {
  message_length_chars : Z;
  attachment_length_chars : option Z;
  chars_per_token : option Q;
  stage1_output_multiplier : option Q;
  stage2_input_multiplier : option Q;
  stage2_output_multiplier : option Q;
  stage3_input_multiplier : option Q;
  stage3_output_multiplier : option Q;
  models : option (list string);
  chairman_model : option string
}.

(** One round of the loop over the request's keys: a value that is not
    [None] is copied into the override dictionary. *)
Definition set_override (key : string) (value : option Q)
    (assumptions_override : gmap string Q) : gmap string Q :=
  match value with
  | Some v => <[key := v]> assumptions_override
  | None => assumptions_override
  end.

Definition assumptions_override_of (request : EstimateCostRequest)
  : gmap string Q :=
  set_override "stage3_output_multiplier" (stage3_output_multiplier request)
  (set_override "stage3_input_multiplier" (stage3_input_multiplier request)
  (set_override "stage2_output_multiplier" (stage2_output_multiplier request)
  (set_override "stage2_input_multiplier" (stage2_input_multiplier request)
  (set_override "stage1_output_multiplier" (stage1_output_multiplier request)
  (set_override "chars_per_token" (chars_per_token request) ∅))))).

(** [x or dflt] on an optional integer, list and string. *)
Definition or_Z (x : option Z) (dflt : Z) : Z :=
  match x with
  | Some v => if v =? 0 then dflt else v
  | None => dflt
  end.
Definition or_list {A} (x : option (list A)) (dflt : list A) : list A :=
  match x with
  | Some ((_ :: _) as v) => v
  | _ => dflt
  end.
Definition or_string (x : option string) (dflt : string) : string :=
  match x with
  | Some v => if String.eqb v "" then dflt else v
  | None => dflt
  end.

(** [estimate_cost(request)], the handler of [POST /api/estimate_cost]. *)
Definition estimate_cost (request : EstimateCostRequest)
  : result CouncilCost :=
  if (message_length_chars request <? 0)
     || (or_Z (attachment_length_chars request) 0 <? 0)
  then Raise (HTTPException 400)
  else
    let assumptions_override := assumptions_override_of request in
    let total_chars :=
      message_length_chars request
      + or_Z (attachment_length_chars request) 0 in
    let models := or_list (models request) Config.COUNCIL_MODELS in
    let chair_model :=
      or_string (chairman_model request) Config.CHAIRMAN_MODEL in
    estimate_council_cost total_chars models chair_model
      Config.MODEL_PRICING
      (Some (assumptions_override ∪ DEFAULT_ASSUMPTIONS)).

End Main.

(** ** Vocabulary of the cost-estimator properties *)

Module PricingSpec.

Import Pricing.



(** The keys under which the estimate reports its derived token
    counts. *)
Definition token_keys : list string :=
  [ "stage1_input_tokens_per_model"; "stage1_output_tokens_per_model";
    "stage2_input_tokens_per_model"; "stage2_output_tokens_per_model";
    "stage3_input_tokens"; "stage3_output_tokens" ]%string.

(** The legacy names of the three output ratios. *)
Definition legacy_keys : list string :=
  [ "stage1_output_multiplier"; "stage2_output_multiplier";
    "stage3_output_multiplier" ]%string.

(** Two estimates report the same figures: the same token counts and the
    same costs. Only the echo of the caller's own assumption keys may
    differ. *)
Definition same_figures (r r' : CouncilCost) : Prop :=
  cc_char_count r' = cc_char_count r
  ∧ cc_base_tokens r' = cc_base_tokens r
  ∧ (∀ key, key ∉ legacy_keys →
       cc_assumptions r' !! key = cc_assumptions r !! key)
  ∧ cc_stage1 r' = cc_stage1 r
  ∧ cc_stage2 r' = cc_stage2 r
  ∧ cc_stage3 r' = cc_stage3 r
  ∧ cc_cost_total r' = cc_cost_total r.

(** The estimate reports the number [x] under [key]. *)
Definition reports (r : CouncilCost) (key : string) (x : Q) : Prop :=
  ∃ v, cc_assumptions r !! key = Some v ∧ (v == x)%Q.

(** Every derived token count sits at the minimum configured for its
    stage. *)
Definition all_at_minimum (r : CouncilCost) : Prop :=
  ∃ m1 m2 m3 : Q,
    reports r "min_stage1_tokens" m1
    ∧ reports r "min_stage2_tokens" m2
    ∧ reports r "min_stage3_tokens" m3
    ∧ (cc_base_tokens r == m1)%Q
    ∧ reports r "stage1_input_tokens_per_model" m1
    ∧ reports r "stage1_output_tokens_per_model" m1
    ∧ reports r "stage2_input_tokens_per_model" m2
    ∧ reports r "stage2_output_tokens_per_model" m2
    ∧ reports r "stage3_input_tokens" m3
    ∧ reports r "stage3_output_tokens" m3.

(** No derived token count is zero (all are positive). *)
Definition no_zero_count (r : CouncilCost) : Prop :=
  (0 < cc_base_tokens r)%Q
  ∧ Forall (λ key, ∃ v, cc_assumptions r !! key = Some v ∧ (0 < v)%Q)
      token_keys.







(** [x'] is exactly twice [x]. *)
Definition twice (x x' : Q) : Prop := (x' == 2 * x)%Q.



End PricingSpec.

(** ** backend/openrouter.py *)

Module Openrouter.

Local Open Scope result_scope.
Local Open Scope outcome_scope.

(** A decoded JSON document, as [response.json()] returns it. *)
#[warnings="-register-all"]
Inductive json : Type :=
  | JNull
  | JBool (b : bool)
  | JNum (q : Q)
  | JStr (s : string)
  | JArr (items : list json)
  | JObj (fields : gmap string json).

(** [v[key]] for a string key: only a dictionary can be indexed that way. *)
Definition getitem (v : json) (key : string) : result json :=
  match v with
  | JObj fields =>
      match fields !! key with
      | Some x => Ok x
      | None => Raise (KeyError key)
      end
  | _ => Raise TypeError
  end.

(** [v[0]]: the first element of a list, the first character of a string;
    a JSON dictionary has no integer key. *)
Definition getitem0 (v : json) : result json :=
  match v with
  | JArr (x :: _) => Ok x
  | JArr [] => Raise IndexError
  | JStr (String c _) => Ok (JStr (String c EmptyString))
  | JStr EmptyString => Raise IndexError
  | JObj _ => Raise (KeyError "0")
  | _ => Raise TypeError
  end.

(** [v.get(key)]: a method of dictionaries only; an absent key gives
    [None]. *)
Definition get (v : json) (key : string) : result json :=
  match v with
  | JObj fields => Ok (default JNull (fields !! key))
  | _ => Raise AttributeError
  end.

Record Message : Type := { role : string; content : string }.

(** The HTTP response of the endpoint: its status and its body, [None]
    when the body is not JSON. *)
Record Response : Type := { status_code : Z; body : option json }.

(** [response.raise_for_status()] of httpx: any status outside 2xx
    raises. *)
Definition raise_for_status (response : Response) : result unit :=
  if (200 <=? status_code response) && (status_code response <? 300)
  then Ok tt
  else Raise (HTTPStatusError (status_code response)).

(** [response.json()] *)
Definition response_json (response : Response) : result json :=
  match body response with
  | Some data => Ok data
  | None => Raise JSONDecodeError
  end.

(** The FastAPI request, as far as the gateway uses it: the outcome of
    [await request.is_disconnected()]. *)
Record Request : Type := { is_disconnected : outcome bool }.

(** What [query_model] returns on success. *)
Record Reply : Type := { reply_content : json; reasoning_details : json }.

(** The network: the outcome of [await client.post(OPENROUTER_API_URL, ...)]
    for a model and a message list: a response, a transport error, or the
    cancellation of the task while it waits. *)
Definition Network : Type := string → list Message → outcome Response.

(** The body of the [try] block of [query_model]. It waits twice, for the
    disconnect check and for the response. *)
Definition query_model_try (post : Network) (model : string)
    (messages : list Message) (request : option Request)
  : outcome (option Reply) :=
  await! disconnected :=
    match request with
    | Some rq => is_disconnected rq
    | None => Returned false
    end in
  if disconnected then Returned None
  else
    await! response := post model messages in
    sync (try! _ := raise_for_status response in
          try! data := response_json response in
          try! choices := getitem data "choices" in
          try! choice := getitem0 choices in
          try! message := getitem choice "message" in
          try! c := get message "content" in
          try! r := get message "reasoning_details" in
          Ok (Some {| reply_content := c; reasoning_details := r |})).

(** [query_model(model, messages, timeout, request)]: the [except
    Exception] clause turns every [Exception] of the block into [None];
    [asyncio.CancelledErrorInstance] is not an [Exception] and passes through. *)
Definition query_model (post : Network) (model : string)
    (messages : list Message) (request : option Request)
  : outcome (option Reply) :=
  match query_model_try post model messages request with
  | Returned reply => Returned reply
  | Raised e => Returned None
  | Cancelled => Cancelled
  end.

(** One entry of the list that [asyncio.gather(..., return_exceptions=True)]
    returns: the value of the task, the exception it raised, or the
    [CancelledErrorInstance] of a task that was cancelled. *)
Inductive settled (A : Type) : Type :=
  | Value (a : A)
  | Exc (e : exn)
  | CancelledExc.
Arguments Value {A} a.
Arguments Exc {A} e.
Arguments CancelledExc {A}.

(** [isinstance(response, Exception)] *)
Definition isinstance_Exception {A} (response : settled A) : bool :=
  match response with
  | Exc _ => true
  | Value _ | CancelledExc => false
  end.

(** [await asyncio.gather(..., return_exceptions=True)]. When the task
    that waits is itself cancelled ([cancelled]), the [await] raises
    [CancelledErrorInstance]; otherwise it returns the settled outcomes in the order
    of the tasks. *)
Definition gather_return_exceptions {A} (cancelled : bool)
    (tasks : list (outcome A)) : outcome (list (settled A)) :=
  if cancelled then Cancelled
  else Returned (map (λ t, match t with
                           | Returned a => Value a
                           | Raised e => Exc e
                           | Cancelled => CancelledExc
                           end) tasks).

(** The type of the gateway coroutine that the dispatcher calls. *)
Definition Gateway : Type :=
  string → list Message → option Request → outcome (option Reply).

(** A value of the dictionary that the dispatcher returns: the response of
    [query_model] (a reply or [None]), or the [CancelledErrorInstance] instance that
    line 94 stores as it is. *)
Inductive entry : Type :=
  | Stored (response : option Reply)
  | CancelledErrorInstance.

(** [query_models_parallel(models, messages, request)]. The coroutine
    called for each model is the parameter [gateway], which is
    [query_model] in the source; [cancelled] tells whether the task that
    runs the dispatcher is cancelled while it waits for [gather]. *)
Definition query_models_parallel (gateway : Gateway) (cancelled : bool)
    (models : list string) (messages : list Message)
    (request : option Request)
  : outcome (gmap string entry) :=
  let tasks := map (λ model, gateway model messages request) models in
  await! responses := gather_return_exceptions cancelled tasks in
  Returned
    (foldl (λ result mr,
              if isinstance_Exception mr.2 then <[mr.1 := Stored None]> result
              else
                match mr.2 with
                | Value response => <[mr.1 := Stored response]> result
                | _ => <[mr.1 := CancelledErrorInstance]> result
                end)
           ∅ (zip models responses)).

End Openrouter.

(** ** Vocabulary of the gateway and dispatcher properties *)

Module OpenrouterSpec.

Import Openrouter.

(** The payload has the shape [{"choices": [{"message": {...}}, ...]}],
    with [fields] the message dictionary. *)
Definition well_formed (data : json) (fields : gmap string json) : Prop :=
  ∃ top choice rest inner,
    data = JObj top
    ∧ top !! "choices" = Some (JArr (choice :: rest))
    ∧ choice = JObj inner
    ∧ inner !! "message" = Some (JObj fields).

(** The extraction of the reply from a response, the part of the block
    that does not wait. *)
Definition extraction (response : Response) : result (option Reply) :=
  rbind (raise_for_status response) (λ _,
  rbind (response_json response) (λ data,
  rbind (getitem data "choices") (λ choices,
  rbind (getitem0 choices) (λ choice,
  rbind (getitem choice "message") (λ message,
  rbind (get message "content") (λ c,
  rbind (get message "reasoning_details") (λ r,
    Ok (Some {| reply_content := c; reasoning_details := r |})))))))).

(** The disconnect check lets the call through. *)
Definition connected (request : option Request) : Prop :=
  request = None
  ∨ ∃ rq, request = Some rq ∧ is_disconnected rq = Returned false.

(** The causes of failure of one gateway call. *)
Inductive failure_cause (post : Network) (model : string)
    (messages : list Message) (request : option Request) : Prop :=
  | disconnect_check_raises (rq : Request) (e : exn) :
      request = Some rq → is_disconnected rq = Raised e →
      failure_cause post model messages request
  | cancelled_before_sending (rq : Request) :
      request = Some rq → is_disconnected rq = Returned true →
      failure_cause post model messages request
  | network_error (e : exn) :
      post model messages = Raised e →
      failure_cause post model messages request
  | bad_status (response : Response) :
      post model messages = Returned response →
      ¬ (200 ≤ status_code response < 300) →
      failure_cause post model messages request
  | body_not_json (response : Response) :
      post model messages = Returned response →
      body response = None →
      failure_cause post model messages request
  | malformed_payload (response : Response) (data : json) :
      post model messages = Returned response →
      body response = Some data →
      (∀ fields, ¬ well_formed data fields) →
      failure_cause post model messages request.

(** The task of the call is cancelled at one of its two waits: during the
    disconnect check, or, the check having let the call through, while the
    response is awaited. *)
Definition cancelled_while_waiting (post : Network) (model : string)
    (messages : list Message) (request : option Request) : Prop :=
  (∃ rq, request = Some rq ∧ is_disconnected rq = Cancelled)
  ∨ (connected request ∧ post model messages = Cancelled).



(** The entry that a gateway outcome leaves in the dispatcher's mapping. *)
Definition entry_of (outcome : outcome (option Reply)) : entry :=
  match outcome with
  | Returned reply => Stored reply
  | Raised _ => Stored None
  | Cancelled => CancelledErrorInstance
  end.

(** The mapping from each member to the entry of its own call. *)
Definition mapping (gateway : Gateway) (messages : list Message)
    (request : option Request) (models : list string) : gmap string entry :=
  foldl (λ result m, <[m := entry_of (gateway m messages request)]> result)
        ∅ models.



End OpenrouterSpec.

(** ** backend/main.py: the streaming coordinator *)

Module Stream.

Import Openrouter.

(** The records sent to the client; the payloads are JSON documents. The
    [error] event carries the exception whose [str(e)] is its message. *)
Inductive event : Type :=
  | stage1_start
  | stage1_complete (data : json)
  | stage2_start
  | stage2_complete (data label_to_model aggregate_rankings : json)
  | stage3_start
  | stage3_complete (data : json)
  | title_complete (title : string)
  | complete
  | error (e : exn).

(** The ['type'] field of an event. *)
Definition event_type (ev : event) : string :=
  match ev with
  | stage1_start => "stage1_start"
  | stage1_complete _ => "stage1_complete"
  | stage2_start => "stage2_start"
  | stage2_complete _ _ _ => "stage2_complete"
  | stage3_start => "stage3_start"
  | stage3_complete _ => "stage3_complete"
  | title_complete _ => "title_complete"
  | complete => "complete"
  | error _ => "error"
  end.

(** What the generator does to the outside, in order: the events it
    yields and the calls it makes to the store, to the title task and to
    the three stages, which issue the gateway calls. *)
Inductive effect : Type :=
  | Yield (ev : event)
  | add_user_message
  | create_title_task
  | cancel_title_task
  | call_stage1_collect_responses
  | call_stage2_collect_rankings (stage1_results : json)
  | call_stage3_synthesize_final (stage1_results stage2_results : json)
  | update_conversation_title (title : string)
  | add_assistant_message
      (stage1_results stage2_results stage3_result : json)
      (label_to_model aggregate_rankings : json).

(** Everything outside the generator, for one request: the answers of the
    four disconnect polls, the outcomes of the store and stage calls (the
    stages and the aggregation live in backend/council.py), of the title
    task and of [json.dumps], and whether the consumer resumes the
    generator after its [n]-th event or closes it. *)
Record World : Type := {
  disconnected_before_start : outcome bool;
  add_user_message_result : result unit;
  disconnected_before_stage1 : outcome bool;
  stage1_collect_responses : outcome json;
  disconnected_before_stage2 : outcome bool;
  stage2_collect_rankings : json → outcome (json * json);
  calculate_aggregate_rankings : json → json → result json;
  disconnected_before_stage3 : outcome bool;
  stage3_synthesize_final : json → json → outcome json;
  title_task_result : outcome string;
  update_conversation_title_result : string → result unit;
  add_assistant_message_result : result unit;
  json_dumps : event → result unit;
  consumer_resumes : nat → bool
}.

(** How a statement of the generator ends. *)
Inductive signal (A : Type) : Type :=
  | Continue (a : A)
  | Return
  | Except (e : exn)
  | CancelledError
  | GeneratorExit.
Arguments Continue {A} a.
Arguments Return {A}.
Arguments Except {A} e.
Arguments CancelledError {A}.
Arguments GeneratorExit {A}.

(** Generator code: a state monad over the trace of effects, with the
    signals that leave the normal flow. *)
Definition Gen (A : Type) : Type := list effect → list effect * signal A.

Definition pure {A} (a : A) : Gen A := λ tr, (tr, Continue a).

Definition bind {A B} (m : Gen A) (k : A → Gen B) : Gen B := λ tr,
  match m tr with
  | (tr', Continue a) => k a tr'
  | (tr', Return) => (tr', Return)
  | (tr', Except e) => (tr', Except e)
  | (tr', CancelledError) => (tr', CancelledError)
  | (tr', GeneratorExit) => (tr', GeneratorExit)
  end.

Declare Scope gen_scope.
Delimit Scope gen_scope with gen.
Notation "'let!' x ':=' m 'in' k" := (bind m (fun x => k))
  (at level 10, x name, m at level 100, k at level 200) : gen_scope.
Notation "m ';;;' k" := (bind m (fun _ => k))
  (at level 100, k at level 200, right associativity) : gen_scope.

Local Open Scope gen_scope.

(** [return] *)
Definition ret {A} : Gen A := λ tr, (tr, Return).

(** [await op] *)
Definition await {A} (o : outcome A) : Gen A := λ tr,
  match o with
  | Returned a => (tr, Continue a)
  | Raised e => (tr, Except e)
  | Cancelled => (tr, CancelledError)
  end.

(** A synchronous call: it is recorded, then it returns or raises. *)
Definition call {A} (eff : effect) (r : result A) : Gen A := λ tr,
  match r with
  | Ok a => (tr ++ [eff], Continue a)
  | Raise e => (tr ++ [eff], Except e)
  end.

(** A call that only leaves a mark in the trace. *)
Definition act (eff : effect) : Gen unit := λ tr, (tr ++ [eff], Continue tt).

(** A pure computation that may raise. *)
Definition compute {A} (r : result A) : Gen A := λ tr,
  match r with
  | Ok a => (tr, Continue a)
  | Raise e => (tr, Except e)
  end.

(** The events of a trace, in order. *)
Definition events (tr : list effect) : list event :=
  omap (λ eff, match eff with Yield ev => Some ev | _ => None end) tr.

Definition count_events (tr : list effect) : nat := length (events tr).

(** [yield f"data: {json.dumps(ev)}\n\n"]: the event is serialized, handed
    to the consumer, and the generator goes on only if the consumer asks
    for more. *)
Definition yield (w : World) (ev : event) : Gen unit := λ tr,
  match json_dumps w ev with
  | Raise e => (tr, Except e)
  | Ok _ =>
      let tr' := tr ++ [Yield ev] in
      if consumer_resumes w (count_events tr') then (tr', Continue tt)
      else (tr', GeneratorExit)
  end.

(** [if title_task: title_task.cancel()] *)
Definition cancel_title (title_task : bool) : Gen unit :=
  if title_task then act cancel_title_task else pure tt.

(** The [try] block of [event_generator]. The prompt built by
    [format_user_content], a pure concatenation of strings, is left out:
    the outcomes of the stages are fixed by the world. *)
Definition event_generator_try (w : World) (is_first_message : bool)
  : Gen unit :=
  let! d0 := await (disconnected_before_start w) in
  if d0 : bool then ret
  else
    call add_user_message (add_user_message_result w) ;;;
    let! title_task :=
      (if is_first_message then act create_title_task ;;; pure true
       else pure false) in
    let! d1 := await (disconnected_before_stage1 w) in
    if d1 : bool then cancel_title title_task ;;; ret
    else
      yield w stage1_start ;;;
      act call_stage1_collect_responses ;;;
      let! stage1_results := await (stage1_collect_responses w) in
      yield w (stage1_complete stage1_results) ;;;
      let! d2 := await (disconnected_before_stage2 w) in
      if d2 : bool then cancel_title title_task ;;; ret
      else
        yield w stage2_start ;;;
        act (call_stage2_collect_rankings stage1_results) ;;;
        let! s2 := await (stage2_collect_rankings w stage1_results) in
        let stage2_results := s2.1 in
        let label_to_model := s2.2 in
        let! aggregate_rankings :=
          compute (calculate_aggregate_rankings w stage2_results
                     label_to_model) in
        yield w (stage2_complete stage2_results label_to_model
                   aggregate_rankings) ;;;
        let! d3 := await (disconnected_before_stage3 w) in
        if d3 : bool then cancel_title title_task ;;; ret
        else
          yield w stage3_start ;;;
          act (call_stage3_synthesize_final stage1_results stage2_results) ;;;
          let! stage3_result :=
            await (stage3_synthesize_final w stage1_results stage2_results) in
          yield w (stage3_complete stage3_result) ;;;
          (if title_task : bool then
             let! title := await (title_task_result w) in
             call (update_conversation_title title)
               (update_conversation_title_result w title) ;;;
             yield w (title_complete title)
           else pure tt) ;;;
          call (add_assistant_message stage1_results stage2_results
                  stage3_result label_to_model aggregate_rankings)
            (add_assistant_message_result w) ;;;
          yield w complete.

(** How a run of the generator ends. *)
Inductive ending : Type :=
  | Completed
  | StoppedOnDisconnect
  | ErrorReported
  | TaskCancelled
  | ClosedByConsumer.

#[global] Instance ending_eq_dec : EqDecision ending.
Proof. solve_decision. Defined.

(** [event_generator()]: the [try] block with its two handlers. An
    [Exception] is reported as an [error] event, which is the last
    statement; [asyncio.CancelledError] returns silently; the
    [GeneratorExit] of a closed generator is not caught. *)
Definition event_generator (w : World) (is_first_message : bool)
  : list effect * ending :=
  match event_generator_try w is_first_message [] with
  | (tr, Continue _) => (tr, Completed)
  | (tr, Return) => (tr, StoppedOnDisconnect)
  | (tr, Except e) => (tr ++ [Yield (error e)], ErrorReported)
  | (tr, CancelledError) => (tr, TaskCancelled)
  | (tr, GeneratorExit) => (tr, ClosedByConsumer)
  end.

End Stream.

(** ** Vocabulary of the streaming properties *)

Module StreamSpec.

Import Openrouter Stream.





(** The event types of a run. *)
Definition event_types (run : list effect * ending) : list string :=
  event_type <$> events run.1.



(** The effects that issue gateway calls or write the assistant's turn. *)
Definition further_work (eff : effect) : bool :=
  match eff with
  | call_stage2_collect_rankings _ => true
  | call_stage3_synthesize_final _ _ => true
  | add_assistant_message _ _ _ _ _ => true
  | _ => false
  end.

(** A world in which every call succeeds and the client disconnects
    right after the first stage. *)
Definition disconnect_after_stage1 : World :=
  {| disconnected_before_start := Returned false;
     add_user_message_result := Ok tt;
     disconnected_before_stage1 := Returned false;
     stage1_collect_responses := Returned (JArr []);
     disconnected_before_stage2 := Returned true;
     stage2_collect_rankings := λ _, Returned (JArr [], JObj ∅);
     calculate_aggregate_rankings := λ _ _, Ok (JArr []);
     disconnected_before_stage3 := Returned false;
     stage3_synthesize_final := λ _ _, Returned JNull;
     title_task_result := Returned "Title"%string;
     update_conversation_title_result := λ _, Ok tt;
     add_assistant_message_result := Ok tt;
     json_dumps := λ _, Ok tt;
     consumer_resumes := λ _, true |}.

(** A world in which every call succeeds and the client stays
    connected. *)
Definition all_succeed : World :=
  {| disconnected_before_start := Returned false;
     add_user_message_result := Ok tt;
     disconnected_before_stage1 := Returned false;
     stage1_collect_responses := Returned (JArr []);
     disconnected_before_stage2 := Returned false;
     stage2_collect_rankings := λ _, Returned (JArr [], JObj ∅);
     calculate_aggregate_rankings := λ _ _, Ok (JArr []);
     disconnected_before_stage3 := Returned false;
     stage3_synthesize_final := λ _ _, Returned JNull;
     title_task_result := Returned "Title"%string;
     update_conversation_title_result := λ _, Ok tt;
     add_assistant_message_result := Ok tt;
     json_dumps := λ _, Ok tt;
     consumer_resumes := λ _, true |}.

End StreamSpec.

(** ** The aggregation engine *)

Module Council.

(** One member's ranking: the labels it ordered, best first. *)
Record Ranking : Type := {
  ranking_member : string;
  ranking_labels : list string
}.

(** The positional scores of a label sequence: with [n] labels, the first
    scores [n], the next [n - 1], and so on down to 1. *)
Fixpoint positional_scores (labels : list string) : list (string * Z) :=
  match labels with
  | [] => []
  | label :: rest =>
      (label, Z.of_nat (length labels)) :: positional_scores rest
  end.

Definition sum_scores (scores : list Z) : Z := foldr Z.add 0 scores.

(** What one ranking gives to a member: the scores of the labels that the
    mapping sends to that member. *)
Definition ranking_score (label_to_member : gmap string string)
    (member : string) (r : Ranking) : Z :=
  sum_scores
    (filter (λ ls, label_to_member !! ls.1 = Some member)
       (positional_scores (ranking_labels r))).*2.

(** The total score of a member over all rankings. *)
Definition member_score (rankings : list Ranking)
    (label_to_member : gmap string string) (member : string) : Z :=
  sum_scores (ranking_score label_to_member member <$> rankings).

(** Insertion into a list sorted by descending score: the new entry passes
    the entries with a strictly larger score only, so that it stays ahead
    of the entries it ties with. *)
Fixpoint insert_by_score (x : string * Z) (sorted : list (string * Z))
  : list (string * Z) :=
  match sorted with
  | [] => [x]
  | y :: rest =>
      if x.2 <? y.2 then y :: insert_by_score x rest else x :: y :: rest
  end.

(** Stable sort by descending score. *)
Definition sort_by_score (entries : list (string * Z)) : list (string * Z) :=
  foldr insert_by_score [] entries.

(** Modelled from the spec: the contract of the Aggregation Engine,
    [aggregate(rankings, labelToMember, allMembers)], which turns each
    ranking into positional scores, sums each member's scores over the
    rankings that mention it through the label mapping, and sorts by
    descending total with a stable sort, so that ties keep the dispatch
    order and members that no ranking mentions, with the minimum score,
    come last. *)
Definition aggregate (rankings : list Ranking)
    (label_to_member : gmap string string) (all_members : list string)
  : list (string * Z) :=
  sort_by_score
    ((λ m, (m, member_score rankings label_to_member m)) <$> all_members).

(** The members that a label mapping names, in the order of their labels.
    The mapping is a Python dictionary, which keeps the order in which the
    labels were given out: the dispatch order of the drafts that were
    labelled. *)
Definition labelled_members (label_to_model : list (string * string))
  : list string :=
  label_to_model.*2.

(** Modelled from the spec: [calculate_aggregate_rankings] is defined in
    backend/council.py, which is not among the sources; backend/main.py
    calls it at line 498 with two arguments, the stage-2 results and the
    label mapping. The function is the spec's [aggregate], over the only
    members that the call makes known: those that the mapping names. *)
Definition calculate_aggregate_rankings (stage2_results : list Ranking)
    (label_to_model : list (string * string)) : list (string * Z) :=
  aggregate stage2_results (list_to_map label_to_model)
    (labelled_members label_to_model).





End Council.

(** ** A round of four members, one of which failed *)

Module CouncilExample.

Import Council.

(** Three drafts were labelled; the draft of the fourth member that was
    dispatched failed, and that member has no label. *)
Definition label_to_model : list (string * string) :=
  [ ("Response A", "openai/gpt-5.1");
    ("Response B", "google/gemini-3-pro-preview");
    ("Response C", "deepseek/deepseek-v3.2") ]%string.

Definition rankings : list Ranking :=
  [ {| ranking_member := "openai/gpt-5.1";
       ranking_labels := ["Response B"; "Response A"; "Response C"] |};
    {| ranking_member := "google/gemini-3-pro-preview";
       ranking_labels := ["Response A"; "Response B"; "Response C"] |} ]%string.


End CouncilExample.

(** ** Vocabulary of further cost-estimator properties *)

Module PricingMore.

Import Pricing PricingSpec.





End PricingMore.

(** ** Vocabulary of further streaming properties *)

Module StreamMore.

Import Openrouter Stream StreamSpec.

(** What the trace wrote as the assistant's turn, and what it streamed
    for each stage. *)
Definition stored_assistant (tr : list effect)
  : list (json * json * json * json * json) :=
  omap (λ eff, match eff with
               | add_assistant_message s1 s2 s3 l a => Some (s1, s2, s3, l, a)
               | _ => None
               end) tr.

Definition stage1_data (tr : list effect) : list json :=
  omap (λ eff, match eff with
               | Yield (stage1_complete d) => Some d
               | _ => None
               end) tr.

Definition stage2_data (tr : list effect) : list (json * json * json) :=
  omap (λ eff, match eff with
               | Yield (stage2_complete d l a) => Some (d, l, a)
               | _ => None
               end) tr.

Definition stage3_data (tr : list effect) : list json :=
  omap (λ eff, match eff with
               | Yield (stage3_complete d) => Some d
               | _ => None
               end) tr.

(** The titles stored and the titles streamed. *)
Definition titles_stored (tr : list effect) : list string :=
  omap (λ eff, match eff with
               | update_conversation_title t => Some t
               | _ => None
               end) tr.

Definition titles_streamed (tr : list effect) : list string :=
  omap (λ eff, match eff with
               | Yield (title_complete t) => Some t
               | _ => None
               end) tr.

Definition is_user_write (eff : effect) : bool :=
  match eff with add_user_message => true | _ => false end.
Definition is_assistant_write (eff : effect) : bool :=
  match eff with add_assistant_message _ _ _ _ _ => true | _ => false end.
Definition is_stage1_call (eff : effect) : bool :=
  match eff with call_stage1_collect_responses => true | _ => false end.
Definition is_stage2_call (eff : effect) : bool :=
  match eff with call_stage2_collect_rankings _ => true | _ => false end.
Definition is_stage3_call (eff : effect) : bool :=
  match eff with call_stage3_synthesize_final _ _ => true | _ => false end.
Definition is_title_create (eff : effect) : bool :=
  match eff with create_title_task => true | _ => false end.
Definition is_title_cancel (eff : effect) : bool :=
  match eff with cancel_title_task => true | _ => false end.

(** How many effects of a kind the trace holds. *)
Definition count (kind : effect → bool) (tr : list effect) : nat :=
  length (List.filter kind tr).

End StreamMore.

(** ** backend/storage.py: the conversation store *)

Module Storage.

Import Openrouter.

Local Open Scope string_scope.

(** What a store operation raises: a [ValueError] with its message, an
    [OSError] of the file system, or one of the exceptions of [exn]. *)
Inductive error : Type :=
  | ValueError (msg : string)
  | OSError
  | Builtin (e : exn).

(** [except ValueError]: [json.JSONDecodeError] is a subclass of it. *)
Definition is_ValueError (e : error) : bool :=
  match e with
  | ValueError _ => true
  | Builtin e => is_value_error e
  | OSError => false
  end.

Inductive completion (A : Type) : Type :=
  | Returns (a : A)
  | Raises (e : error).
Arguments Returns {A} a.
Arguments Raises {A} e.

(** A file holds the JSON document that [json.dump] wrote, or a text that
    [json.load] cannot decode. *)
Inductive file : Type :=
  | Document (doc : json)
  | Garbage.

(** What the operating system decides: the location a path names (two
    paths may name one file), whether [mkdir], [open] for reading, [open]
    for writing and [os.remove] succeed, whether writing to the file that
    [open] has truncated fails and what the file then holds, how [str]
    prints a JSON value that is not a string, and the clock. *)
Record OS : Type := {
  realpath : string → string;
  mkdir_ok : bool;
  readable : string → bool;
  writable : string → bool;
  write_fails : string → option file;
  removable : string → bool;
  str_of : json → string;
  utcnow_isoformat : string
}.

(** A store operation: from the files, by the location a path resolves
    to, to the files and a completion. *)
Definition Store (A : Type) : Type :=
  gmap string file → gmap string file * completion A.

Definition ret {A} (a : A) : Store A := λ fs, (fs, Returns a).

Definition raise {A} (e : error) : Store A := λ fs, (fs, Raises e).

Definition bind {A B} (m : Store A) (k : A → Store B) : Store B := λ fs,
  match m fs with
  | (fs', Returns a) => k a fs'
  | (fs', Raises e) => (fs', Raises e)
  end.

(** A computation without effect on the files. *)
Definition lift {A} (r : result A) : Store A :=
  match r with
  | Ok a => ret a
  | Raise e => raise (Builtin e)
  end.

(** [try: m except ValueError: handler]. *)
Definition except_ValueError {A} (m handler : Store A) : Store A := λ fs,
  match m fs with
  | (fs', Raises e) =>
      if is_ValueError e then handler fs' else (fs', Raises e)
  | done => done
  end.

Declare Scope store_scope.
Delimit Scope store_scope with store.
Notation "'let!' x ':=' m 'in' k" := (bind m (fun x => k))
  (at level 10, x name, m at level 100, k at level 200) : store_scope.
Notation "m ';;;' k" := (bind m (fun _ => k))
  (at level 100, k at level 200, right associativity) : store_scope.

Local Open Scope store_scope.

(** *** Python on JSON values *)

(** [bool(v)]. *)
Definition truthy (v : json) : bool :=
  match v with
  | JNull => false
  | JBool b => b
  | JNum q => negb (Qeq_bool q 0)
  | JStr s => negb (String.eqb s "")
  | JArr items => match items with [] => false | _ => true end
  | JObj fields => negb (bool_decide (fields = ∅))
  end.

(** [a or b]. *)
Definition or_else (a b : json) : json := if truthy a then a else b.

(** [v[key] = x] for a string key: dictionaries only. *)
Definition setitem (v : json) (key : string) (x : json) : result json :=
  match v with
  | JObj fields => Ok (JObj (<[key := x]> fields))
  | _ => Raise TypeError
  end.

(** [v.append(x)]: lists only. *)
Definition append (v x : json) : result json :=
  match v with
  | JArr items => Ok (JArr (items ++ [x]))
  | _ => Raise AttributeError
  end.

(** [v["messages"].append(message)]: the list inside the dictionary is
    extended in place. *)
Definition append_message (v message : json) : result json :=
  (try! messages := getitem v "messages" in
   try! messages := append messages message in
   setitem v "messages" messages)%result.

(** [v == s] for a string [s]. *)
Definition eq_str (v : json) (s : string) : bool :=
  match v with
  | JStr t => String.eqb t s
  | _ => false
  end.

(** The characters of a string, one string each. *)
Fixpoint characters (s : string) : list json :=
  match s with
  | EmptyString => []
  | String c rest => JStr (String c EmptyString) :: characters rest
  end.

(** [for x in v]: the elements of a list, the characters of a string, the
    keys of a dictionary (in the order of the map, which does not record
    the order of insertion). *)
Definition iter (v : json) : result (list json) :=
  match v with
  | JArr items => Ok items
  | JStr s => Ok (characters s)
  | JObj fields => Ok (JStr <$> (map_to_list fields).*1)
  | _ => Raise TypeError
  end.

(** *** Paths *)

(** [DATA_DIR] of backend/config.py. *)
Definition DATA_DIR : string := "data/conversations".

Fixpoint endswith_sep (s : string) : bool :=
  match s with
  | EmptyString => false
  | String _ EmptyString => String.eqb s "/"
  | String _ rest => endswith_sep rest
  end.

(** [os.path.join(a, b)] (posixpath). *)
Definition path_join (a b : string) : string :=
  if String.prefix "/" b then b
  else if String.eqb a "" || endswith_sep a then a ++ b
  else a ++ "/" ++ b.

Section Operations.

Variable os : OS.

(** [f"{v}"]. *)
Definition format (v : json) : string :=
  match v with
  | JStr s => s
  | _ => str_of os v
  end.

(** *** The file system *)

(** [Path(DATA_DIR).mkdir(parents=True, exist_ok=True)]: directories are
    not part of the store. *)
Definition ensure_data_dir : Store unit :=
  if mkdir_ok os then ret tt else raise OSError.

(** [os.path.exists(path)]. *)
Definition exists_ (path : string) : Store bool := λ fs,
  (fs, Returns (bool_decide (is_Some (fs !! realpath os path)))).

(** [with open(path, 'r') as f: json.load(f)]. *)
Definition load (path : string) : Store json := λ fs,
  if readable os path then
    match fs !! realpath os path with
    | Some (Document doc) => (fs, Returns doc)
    | Some Garbage => (fs, Raises (Builtin JSONDecodeError))
    | None => (fs, Raises OSError)
    end
  else (fs, Raises OSError).

(** [with open(path, 'w') as f: json.dump(doc, f, indent=2)]: when [open]
    fails the file is as it was; once [open] has succeeded the former
    content is gone, and the file holds the document, or, when the writing
    fails, what the failure left of it. *)
Definition dump (doc : json) (path : string) : Store unit := λ fs,
  if writable os path then
    match write_fails os path with
    | None => (<[realpath os path := Document doc]> fs, Returns tt)
    | Some remains => (<[realpath os path := remains]> fs, Raises OSError)
    end
  else (fs, Raises OSError).

(** [os.remove(path)]. *)
Definition remove (path : string) : Store unit := λ fs,
  if removable os path then
    match fs !! realpath os path with
    | Some _ => (delete (realpath os path) fs, Returns tt)
    | None => (fs, Raises OSError)
    end
  else (fs, Raises OSError).

(** *** Conversations *)

Definition get_conversation_path (conversation_id : json) : string :=
  path_join DATA_DIR (format conversation_id ++ ".json").

Definition create_conversation (conversation_id : string) : Store json :=
  ensure_data_dir ;;;
  let conversation :=
    JObj (<["id" := JStr conversation_id]>
          (<["created_at" := JStr (utcnow_isoformat os)]>
          (<["title" := JStr "New Conversation"]>
          (<["messages" := JArr []]>
          (<["project_id" := JNull]>
          (<["work_mode" := JNull]> ∅)))))) in
  let path := get_conversation_path (JStr conversation_id) in
  dump conversation path ;;;
  ret conversation.

(** [None] is [JNull]. *)
Definition get_conversation (conversation_id : string) : Store json :=
  let path := get_conversation_path (JStr conversation_id) in
  let! present := exists_ path in
  if negb present then ret JNull
  else load path.

Definition save_conversation (conversation : json) : Store unit :=
  ensure_data_dir ;;;
  let! id := lift (getitem conversation "id") in
  let path := get_conversation_path id in
  dump conversation path.

Definition not_found (conversation_id : string) : error :=
  ValueError ("Conversation " ++ conversation_id ++ " not found").

Definition update_conversation_work_mode (conversation_id : string)
    (work_mode : option string) : Store unit :=
  let! conversation := get_conversation conversation_id in
  match conversation with
  | JNull => raise (not_found conversation_id)
  | _ =>
      match work_mode with
      | Some mode =>
          if negb (bool_decide (mode ∈ ["case-study"; "meeting-minutes"]))
          then raise (ValueError ("Invalid work_mode: " ++ mode))
          else
            let! conversation :=
              lift (setitem conversation "work_mode" (JStr mode)) in
            save_conversation conversation
      | None =>
          let! conversation :=
            lift (setitem conversation "work_mode" JNull) in
          save_conversation conversation
      end
  end.

(** The message that [add_user_message] appends. *)
Definition user_message (content attachments case_settings : json) : json :=
  JObj (<["role" := JStr "user"]>
        (<["content" := content]>
        (<["attachments" := or_else attachments (JArr [])]>
        (<["case_settings" := or_else case_settings (JObj ∅)]> ∅)))).

Definition add_user_message (conversation_id : string)
    (content attachments case_settings : json) : Store unit :=
  let! conversation := get_conversation conversation_id in
  match conversation with
  | JNull => raise (not_found conversation_id)
  | _ =>
      let! conversation :=
        lift (append_message conversation
                (user_message content attachments case_settings)) in
      save_conversation conversation
  end.

(** The message that [add_assistant_message] appends. *)
Definition assistant_message (stage1 stage2 stage3 metadata : json) : json :=
  JObj (<["role" := JStr "assistant"]>
        (<["stage1" := stage1]>
        (<["stage2" := stage2]>
        (<["stage3" := stage3]>
        (<["metadata" := or_else metadata (JObj ∅)]> ∅))))).

Definition add_assistant_message (conversation_id : string)
    (stage1 stage2 stage3 metadata : json) : Store unit :=
  let! conversation := get_conversation conversation_id in
  match conversation with
  | JNull => raise (not_found conversation_id)
  | _ =>
      let! conversation :=
        lift (append_message conversation
                (assistant_message stage1 stage2 stage3 metadata)) in
      save_conversation conversation
  end.

Definition update_conversation_title (conversation_id : string)
    (title : string) : Store unit :=
  let! conversation := get_conversation conversation_id in
  match conversation with
  | JNull => raise (not_found conversation_id)
  | _ =>
      let! conversation :=
        lift (setitem conversation "title" (JStr title)) in
      save_conversation conversation
  end.

Definition delete_conversation (conversation_id : string) : Store unit :=
  let path := get_conversation_path (JStr conversation_id) in
  let! present := exists_ path in
  if present then remove path else ret tt.

(** *** Projects *)

Definition PROJECTS_FILE : string := path_join DATA_DIR "_projects.json".

Definition ensure_projects_file : Store unit :=
  ensure_data_dir ;;;
  let! present := exists_ PROJECTS_FILE in
  if negb present then dump (JArr []) PROJECTS_FILE else ret tt.

Definition get_all_projects : Store json :=
  ensure_projects_file ;;;
  load PROJECTS_FILE.

Definition save_projects (projects : json) : Store unit :=
  ensure_projects_file ;;;
  dump projects PROJECTS_FILE.

Definition create_project (project_id : string) (name color : json)
  : Store json :=
  let! projects := get_all_projects in
  let project :=
    JObj (<["id" := JStr project_id]>
          (<["name" := name]>
          (<["color" := color]>
          (<["created_at" := JStr (utcnow_isoformat os)]> ∅)))) in
  let! projects := lift (append projects project) in
  save_projects projects ;;;
  ret project.

(** The loop of [update_project] over the elements after the ones already
    passed: the first project whose "id" equals [project_id] is changed in
    place; the answer is the changed project and the list, or [None]. *)
Fixpoint update_first (projects : list json) (project_id : string)
    (name color : json) : result (option (json * list json)) :=
  match projects with
  | [] => Ok None
  | project :: rest =>
      (try! id := getitem project "id" in
       if eq_str id project_id then
         try! project :=
           match name with
           | JNull => Ok project
           | _ => setitem project "name" name
           end in
         try! project :=
           match color with
           | JNull => Ok project
           | _ => setitem project "color" color
           end in
         Ok (Some (project, project :: rest))
       else
         try! found := update_first rest project_id name color in
         Ok (match found with
             | Some (changed, rest) => Some (changed, project :: rest)
             | None => None
             end))%result
  end.

(** [None] for [name] or [color] is [JNull]; so is the answer [None]. *)
Definition update_project (project_id : string) (name color : json)
  : Store json :=
  let! projects := get_all_projects in
  let! items := lift (iter projects) in
  let! found := lift (update_first items project_id name color) in
  match found with
  | Some (project, items) =>
      save_projects (JArr items) ;;;
      ret project
  | None => ret JNull
  end.

Definition assign_conversation_to_project (conversation_id : string)
    (project_id : json) : Store bool :=
  let! conv := get_conversation conversation_id in
  if negb (truthy conv) then ret false
  else
    let! conv := lift (setitem conv "project_id" project_id) in
    save_conversation conv ;;;
    ret true.

End Operations.

End Storage.

(** ** Vocabulary of the store properties *)

Module StorageMore.

Import Openrouter Storage.

(** The file of a conversation. *)
Definition location (os : OS) (conversation_id : string) : string :=
  realpath os (get_conversation_path os (JStr conversation_id)).

(** The operating system lets the conversation's file be read, and lets
    it be written (the data directory included). *)
Definition can_read (os : OS) (conversation_id : string) : Prop :=
  readable os (get_conversation_path os (JStr conversation_id)) = true.

Definition can_write (os : OS) (conversation_id : string) : Prop :=
  mkdir_ok os = true
  ∧ writable os (get_conversation_path os (JStr conversation_id)) = true
  ∧ write_fails os (get_conversation_path os (JStr conversation_id)) = None.

(** The files after an operation that did not succeed: as they were, or
    as one failed write left them, the file that [open] had truncated
    holding what the failure left and every other file being as it was. *)
Definition spoiled_by_write (os : OS) (fs fs' : gmap string file) : Prop :=
  ∃ path remains,
    writable os path = true
    ∧ write_fails os path = Some remains
    ∧ fs' = <[realpath os path := remains]> fs.

Definition unchanged_or_spoiled (os : OS) (fs fs' : gmap string file)
  : Prop :=
  fs' = fs ∨ spoiled_by_write os fs fs'.

(** An operation that fails leaves the files as they were, but for a
    write that failed. *)
Definition confined {A} (os : OS) (m : Store A) : Prop :=
  ∀ fs fs' e, m fs = (fs', Raises e) → unchanged_or_spoiled os fs fs'.

(** A refusal (an exception, or the answer [False]) leaves the files as
    they were, but for a write that failed. *)
Definition all_or_nothing (os : OS) (m : Store bool) : Prop :=
  ∀ fs fs' c, m fs = (fs', c) → c ≠ Returns true →
    unchanged_or_spoiled os fs fs'.

(** No write fails once [open] has succeeded. *)
Definition writes_complete (os : OS) : Prop :=
  ∀ path, write_fails os path = None.

(** The operation reads only. *)
Definition read_only {A} (m : Store A) : Prop :=
  ∀ fs, (m fs).1 = fs.

(** The files hold a dictionary under the conversation's id that carries
    this id. *)
Definition holds (os : OS) (fs : gmap string file) (conversation_id : string)
    (fields : gmap string json) : Prop :=
  fs !! location os conversation_id = Some (Document (JObj fields))
  ∧ fields !! "id"%string = Some (JStr conversation_id).

(** The projects file, and an operating system that lets it be read and
    written. *)
Definition projects_location (os : OS) : string :=
  realpath os PROJECTS_FILE.

Definition can_use_projects (os : OS) : Prop :=
  mkdir_ok os = true
  ∧ readable os PROJECTS_FILE = true
  ∧ writable os PROJECTS_FILE = true
  ∧ write_fails os PROJECTS_FILE = None.

(** The projects that the files stand for: none when the projects file
    does not exist yet, the elements of the list that it holds
    otherwise. *)
Definition projects_of (os : OS) (fs : gmap string file)
  : option (list json) :=
  match fs !! projects_location os with
  | None => Some []
  | Some (Document (JArr projects)) => Some projects
  | Some _ => None
  end.

(** A project (a dictionary with an "id") that [project_id] does not
    name. *)
Definition other_project (project_id : string) (project : json) : Prop :=
  ∃ fields id,
    project = JObj fields
    ∧ fields !! "id"%string = Some id
    ∧ eq_str id project_id = false.

(** The new value of a key where one is given, the former one where
    [None] is given. *)
Definition set_unless_None (key : string) (value : json)
    (fields : gmap string json) : gmap string json :=
  match value with
  | JNull => fields
  | _ => <[key := value]> fields
  end.

(** An operating system that permits everything and resolves a path to
    itself. *)
Definition plain_os : OS :=
  {| realpath := λ p, p;
     mkdir_ok := true;
     readable := λ _, true;
     writable := λ _, true;
     write_fails := λ _, None;
     removable := λ _, true;
     str_of := λ _, "?"%string;
     utcnow_isoformat := "2025-01-01T00:00:00"%string |}.

(** An operating system on which every write fails after [open], leaving
    an empty file. *)
Definition full_disk : OS :=
  {| realpath := λ p, p;
     mkdir_ok := true;
     readable := λ _, true;
     writable := λ _, true;
     write_fails := λ _, Some Garbage;
     removable := λ _, true;
     str_of := λ _, "?"%string;
     utcnow_isoformat := "2025-01-01T00:00:00"%string |}.

(** A stored conversation with one earlier message. *)
Definition example_fields : gmap string json :=
  <["id" := JStr "c1"]>
  (<["title" := JStr "New Conversation"]>
  (<["messages" := JArr [JStr "earlier"]]> ∅)).

Definition example_files : gmap string file :=
  <["data/conversations/c1.json"%string := Document (JObj example_fields)]> ∅.

(** The file of "c1" copied by hand to "copy.json": the copy still
    carries the id "c1". *)
Definition copied_files : gmap string file :=
  <["data/conversations/copy.json"%string :=
      Document (JObj example_fields)]> example_files.

(** Two projects that share the id "p1", and a third one. *)
Definition example_project (id name : string) : json :=
  JObj (<["id" := JStr id]> (<["name" := JStr name]> ∅)).

Definition example_projects : gmap string file :=
  <["data/conversations/_projects.json"%string :=
      Document (JArr [ example_project "p0" "Zero";
                       example_project "p1" "Alpha";
                       example_project "p1" "Duplicate" ])]> ∅.

End StorageMore.

(** ** backend/main.py: the conversation endpoints *)

Module Attachment.
Record t : Type := {
  name : string;
  url : string;
  mime_type : option string;
  size : option Z
}.
End Attachment.

Module CaseStudySettings.
Record t : Type := {
  case_context : option string;
  key_facts : option string;
  style_card : option string;
  exemplar_snippets : option string;
  length : option string;
  sections : option (list string);
  sensitivities : option string;
  mode : option string;
  output_extras : option (list string);
  existing_text : option string
}.
End CaseStudySettings.

Module SendMessageRequest.
Record t : Type := {
  content : string;
  attachments : option (list Attachment.t);
  case_settings : option CaseStudySettings.t
}.
End SendMessageRequest.

Module UpdateConversationRequest.
Record t : Type := {
  title : option string;
  work_mode : option string
}.
End UpdateConversationRequest.

Module Endpoints.

Import Openrouter Storage.

Local Open Scope string_scope.
Local Open Scope store_scope.

(** *** Pydantic's [.dict()] *)

Definition optional_str (x : option string) : json :=
  from_option JStr JNull x.

Definition optional_int (x : option Z) : json :=
  from_option (λ n, JNum (inject_Z n)) JNull x.

Definition optional_list (x : option (list string)) : json :=
  from_option (λ items, JArr (JStr <$> items)) JNull x.

Definition attachment_dict (att : Attachment.t) : json :=
  JObj (<["name" := JStr (Attachment.name att)]>
        (<["url" := JStr (Attachment.url att)]>
        (<["mime_type" := optional_str (Attachment.mime_type att)]>
        (<["size" := optional_int (Attachment.size att)]> ∅)))).

Definition case_settings_dict (cs : CaseStudySettings.t) : json :=
  JObj (<["case_context" := optional_str (CaseStudySettings.case_context cs)]>
        (<["key_facts" := optional_str (CaseStudySettings.key_facts cs)]>
        (<["style_card" := optional_str (CaseStudySettings.style_card cs)]>
        (<["exemplar_snippets" :=
            optional_str (CaseStudySettings.exemplar_snippets cs)]>
        (<["length" := optional_str (CaseStudySettings.length cs)]>
        (<["sections" := optional_list (CaseStudySettings.sections cs)]>
        (<["sensitivities" :=
            optional_str (CaseStudySettings.sensitivities cs)]>
        (<["mode" := optional_str (CaseStudySettings.mode cs)]>
        (<["output_extras" :=
            optional_list (CaseStudySettings.output_extras cs)]>
        (<["existing_text" :=
            optional_str (CaseStudySettings.existing_text cs)]>
           ∅)))))))))).

(** *** The prompt *)

Definition DEFAULT_STYLE_CARD : string :=
  "Write in a clear, confident narrative voice. Favor crisp verbs, short paragraphs, and vivid but unfussy detail. "
  +:+ "Use first-person plural when appropriate, keep jargon light, and land each section with a takeaway. "
  +:+ "Avoid hype. Keep sentences varied (mix of simple and complex) and aim for approachable business prose.".

Definition DEFAULT_SECTIONS : list string :=
  [ "Context"; "Challenge"; "Actions"; "Results"; "Lessons" ].

Definition DEFAULT_LENGTH : string := "500-700 words unless overridden.".

(** The line feed, and [sep.join(parts)]. *)
Definition LF : string := String (Ascii.ascii_of_nat 10) EmptyString.

Definition join (sep : string) (parts : list string) : string :=
  String.concat sep parts.

(** [s or dflt] on a string. *)
Definition str_or (s dflt : string) : string :=
  if String.eqb s "" then dflt else s.

(** [case_settings.field if case_settings and case_settings.field else
    dflt]. *)
Definition setting (case_settings : option CaseStudySettings.t)
    (field : CaseStudySettings.t → option string) (dflt : string) : string :=
  match case_settings with
  | Some cs => Main.or_string (field cs) dflt
  | None => dflt
  end.

(** The block that is added when the optional field is set and not
    empty. *)
Definition optional_block (case_settings : option CaseStudySettings.t)
    (field : CaseStudySettings.t → option string) (header : string)
  : list string :=
  match case_settings with
  | Some cs =>
      match field cs with
      | Some text => if String.eqb text "" then [] else [ ""; header; text ]
      | None => []
      end
  | None => []
  end.

(** One attachment's line. *)
Definition attachment_line (att : Attachment.t) : string :=
  let parts := [ "- " +:+ Attachment.name att ] in
  let parts :=
    match Attachment.mime_type att with
    | Some mime_type =>
        if String.eqb mime_type "" then parts
        else (parts ++ [ "(" +:+ mime_type +:+ ")" ])%list
    | None => parts
    end in
  let parts :=
    match Attachment.size att with
    | Some size =>
        if (size =? 0)%Z then parts
        else (parts ++ [ pretty size +:+ " bytes" ])%list
    | None => parts
    end in
  let parts := (parts ++ [ "URL: " +:+ Attachment.url att ])%list in
  join " " parts.

Definition format_user_content (content : string)
    (attachments : option (list Attachment.t))
    (case_settings : option CaseStudySettings.t) : string :=
  let sections :=
    match case_settings with
    | Some cs => Main.or_list (CaseStudySettings.sections cs) DEFAULT_SECTIONS
    | None => DEFAULT_SECTIONS
    end in
  let extras :=
    match case_settings with
    | Some cs => CaseStudySettings.output_extras cs
    | None => None
    end in
  let lines :=
    [ "CASE STUDY TASK";
      "User request: " +:+ content;
      "";
      "Case context:";
      setting case_settings CaseStudySettings.case_context "Not provided";
      "";
      "Key facts / timeline / metrics:";
      setting case_settings CaseStudySettings.key_facts "Not provided";
      "";
      "Mode:";
      setting case_settings CaseStudySettings.mode "draft (write new)" ] in
  let lines :=
    (lines ++ optional_block case_settings CaseStudySettings.existing_text
                "Existing draft to refine:")%list in
  let lines :=
    (lines ++ [ "";
                "Style card to obey:";
                setting case_settings CaseStudySettings.style_card
                  DEFAULT_STYLE_CARD ])%list in
  let lines :=
    (lines ++ optional_block case_settings CaseStudySettings.exemplar_snippets
                "Exemplar snippets (match rhythm/voice):")%list in
  let lines :=
    (lines ++ [ "";
                "Section order to enforce:";
                str_or (join LF ((λ sec, "- " +:+ sec) <$> sections))
                  "Use default: Context, Challenge, Actions, Results, Lessons";
                "";
                "Length target:";
                setting case_settings CaseStudySettings.length DEFAULT_LENGTH;
                "";
                "Sensitivities / anonymization / legal notes:";
                setting case_settings CaseStudySettings.sensitivities
                  "None provided" ])%list in
  let lines :=
    match extras with
    | Some ((_ :: _) as extras) =>
        (lines ++ [ "";
                    "Output extras requested:";
                    join LF ((λ item, "- " +:+ item) <$> extras) ])%list
    | _ => lines
    end in
  let lines :=
    (lines ++ [ "";
                "Ground rules:";
                "- Do not invent facts; mark unknowns as [TODO].";
                "- Keep voice consistent with the style card.";
                "- Use the section order above; keep headers visible." ])%list
  in
  let lines :=
    match attachments with
    | Some ((_ :: _) as attachments) =>
        ((lines ++ [ ""; "Attachment context:" ])
         ++ (attachment_line <$> attachments))%list
    | _ => lines
    end in
  join LF lines.

(** *** The council, as the endpoints see it (backend/council.py) *)

Record Council : Type := {
  generate_conversation_title : string → result string;
  run_full_council : string → result (json * json * json * json)
}.

(** [len(v)]. *)
Definition len (v : json) : result Z :=
  match v with
  | JStr s => Ok (Z.of_nat (String.length s))
  | JArr items => Ok (Z.of_nat (List.length items))
  | JObj fields => Ok (Z.of_nat (base.size fields))
  | _ => Raise TypeError
  end.

Section Handlers.

Variable os : OS.
Variable council : Council.

Definition HTTP {A} (status : Z) : Store A :=
  raise (Builtin (HTTPException status)).

(** [GET /api/conversations/{conversation_id}]. *)
Definition get_conversation (conversation_id : string) : Store json :=
  let! conversation := Storage.get_conversation os conversation_id in
  match conversation with
  | JNull => HTTP 404
  | _ => ret conversation
  end.

(** [hasattr(request, 'work_mode')]: the model declares the field. *)
Definition hasattr_work_mode (request : UpdateConversationRequest.t) : bool :=
  true.

(** [PATCH /api/conversations/{conversation_id}]. *)
Definition update_conversation (conversation_id : string)
    (request : UpdateConversationRequest.t) : Store json :=
  let! conversation := Storage.get_conversation os conversation_id in
  match conversation with
  | JNull => HTTP 404
  | _ =>
      match UpdateConversationRequest.title request with
      | Some title =>
          Storage.update_conversation_title os conversation_id title
      | None => ret tt
      end ;;;
      (if bool_decide (UpdateConversationRequest.work_mode request ≠ None)
          || hasattr_work_mode request
       then
         except_ValueError
           (Storage.update_conversation_work_mode os conversation_id
              (UpdateConversationRequest.work_mode request))
           (HTTP 400)
       else ret tt) ;;;
      Storage.get_conversation os conversation_id
  end.

(** [DELETE /api/conversations/{conversation_id}]. *)
Definition delete_conversation (conversation_id : string) : Store json :=
  let! conversation := Storage.get_conversation os conversation_id in
  match conversation with
  | JNull => HTTP 404
  | _ =>
      Storage.delete_conversation os conversation_id ;;;
      ret (JObj (<["status" := JStr "deleted"]>
                 (<["id" := JStr conversation_id]> ∅)))
  end.

(** [PUT /api/conversations/{conversation_id}/project]. *)
Definition assign_conversation_to_project (conversation_id : string)
    (request : gmap string json) : Store json :=
  let project_id := default JNull (request !! "project_id") in
  let! success :=
    Storage.assign_conversation_to_project os conversation_id project_id in
  if negb success then HTTP 404
  else
    ret (JObj (<["status" := JStr "updated"]>
               (<["conversation_id" := JStr conversation_id]>
               (<["project_id" := project_id]> ∅)))).

(** [POST /api/conversations/{conversation_id}/message]. *)
Definition send_message (conversation_id : string)
    (request : SendMessageRequest.t) : Store json :=
  let! conversation := Storage.get_conversation os conversation_id in
  match conversation with
  | JNull => HTTP 404
  | _ =>
      let! messages := lift (getitem conversation "messages") in
      let! count := lift (len messages) in
      let is_first_message := (count =? 0)%Z in
      Storage.add_user_message os conversation_id
        (JStr (SendMessageRequest.content request))
        (JArr (attachment_dict
                 <$> Main.or_list (SendMessageRequest.attachments request) []))
        (match SendMessageRequest.case_settings request with
         | Some cs => case_settings_dict cs
         | None => JObj ∅
         end) ;;;
      (if is_first_message then
         let! title :=
           lift (generate_conversation_title council
                   (SendMessageRequest.content request)) in
         Storage.update_conversation_title os conversation_id title
       else ret tt) ;;;
      let user_prompt :=
        format_user_content (SendMessageRequest.content request)
          (SendMessageRequest.attachments request)
          (SendMessageRequest.case_settings request) in
      let! results := lift (run_full_council council user_prompt) in
      let '(stage1_results, stage2_results, stage3_result, metadata) :=
        results in
      Storage.add_assistant_message os conversation_id stage1_results
        stage2_results stage3_result metadata ;;;
      ret (JObj (<["stage1" := stage1_results]>
                 (<["stage2" := stage2_results]>
                 (<["stage3" := stage3_result]>
                 (<["metadata" := metadata]> ∅)))))
  end.

End Handlers.

End Endpoints.

(** ** Vocabulary of the endpoint properties *)

Module EndpointsMore.

Import Openrouter Storage Endpoints.

(** The user message that [send_message] stores for a request. *)
Definition stored_user_message (request : SendMessageRequest.t) : json :=
  user_message (JStr (SendMessageRequest.content request))
    (JArr (attachment_dict
             <$> Main.or_list (SendMessageRequest.attachments request) []))
    (match SendMessageRequest.case_settings request with
     | Some cs => case_settings_dict cs
     | None => JObj ∅
     end).

(** The prompt that [send_message] gives to the council. *)
Definition prompt_of (request : SendMessageRequest.t) : string :=
  format_user_content (SendMessageRequest.content request)
    (SendMessageRequest.attachments request)
    (SendMessageRequest.case_settings request).

(** The title after a message: generated for the first message of a
    conversation, left alone otherwise. *)
Definition title_after (messages : list json) (title : string)
    (fields : gmap string json) : option json :=
  match messages with
  | [] => Some (JStr title)
  | _ => fields !! "title"%string
  end.

(** A request without attachments and case settings. *)
Definition plain_message (content : string) : SendMessageRequest.t :=
  {| SendMessageRequest.content := content;
     SendMessageRequest.attachments := None;
     SendMessageRequest.case_settings := None |}.

(** A council that answers, and one whose stages fail. *)
Definition answering_council : Council :=
  {| generate_conversation_title := λ _, Ok "A title"%string;
     run_full_council := λ _,
       Ok (JArr [JStr "draft"], JArr [JStr "ranking"], JStr "final",
           JObj ∅) |}.

Definition failing_council : Council :=
  {| generate_conversation_title := λ _, Ok "A title"%string;
     run_full_council := λ _, Raise (RuntimeError "stage 1 failed") |}.

End EndpointsMore.

(** * Properties *)

(** ** Tactics *)

(** A concrete key that is none of the legacy multiplier keys. *)
Ltac not_legacy :=
  let H := fresh in
  unfold PricingSpec.legacy_keys; intros H;
  repeat (apply elem_of_cons in H as [H|H]; [discriminate H|]);
  by apply elem_of_nil in H.

(** Look a concrete key up among the keys of a chain of insertions. *)
Ltac lookup_inserted :=
  repeat lazymatch goal with
         | |- <[?k := _]> _ !! ?k = _ => apply lookup_insert_eq
         | |- <[?k := _]> _ !! ?k' = _ =>
             rewrite (lookup_insert_ne _ k k') by discriminate
         end.

(** Look a concrete key up through a chain of insertions. *)
Ltac lookup_chain :=
  repeat lazymatch goal with
         | |- <[?k := _]> _ !! ?k = _ => apply lookup_insert_eq
         | |- <[?k := _]> _ !! ?k' = _ =>
             rewrite (lookup_insert_ne _ k k') by discriminate
         end;
  try (vm_compute; reflexivity).

(** Case analysis on every outcome the generator looks at, the property
    being kept folded until each case is reached. *)
Ltac atomic_scrutinee x :=
  lazymatch x with
  | context [match _ with _ => _ end] => fail
  | _ => idtac
  end.

Ltac generator_cases :=
  unfold Stream.event_generator, Stream.event_generator_try,
    Stream.cancel_title, Stream.bind, Stream.await, Stream.call, Stream.act,
    Stream.compute, Stream.yield, Stream.pure, Stream.ret;
  repeat (cbn -[String.eqb];
          match goal with
          | |- context [match ?x with _ => _ end] =>
              atomic_scrutinee x; destruct x eqn:?
          end).

Ltac for_every_run w first tac :=
  let property := fresh "property" in
  let Hproperty := fresh "Hproperty" in
  pattern (Stream.event_generator w first);
  match goal with |- ?P _ => remember P as property eqn:Hproperty end;
  destruct first; generator_cases; subst property; cbn beta; tac.

(** One case: the alternatives of the statement are tried in turn. *)
Ltac settle :=
  cbn -[String.eqb];
  repeat match goal with
         | |- _ → _ => intro
         | |- _ ∧ _ => split
         | H : _ ∧ _ |- _ => destruct H
         end;
  try discriminate;
  first [ reflexivity
        | left; settle
        | right; settle
        | eexists; settle ].

(** ** Arithmetic helpers *)

Section PyNumFacts.

Lemma truediv_pos (a b : Q) :
  (0 < b)%Q → PyNum.truediv a b = Ok (a / b)%Q.
Proof.
  intros Hb. unfold PyNum.truediv.
  destruct (Qeq_bool b 0) eqn:E; [|reflexivity].
  apply Qeq_bool_iff in E. rewrite E in Hb. exfalso. lra.
Qed.

Lemma max_lower_bound (a b : Q) : (b <= PyNum.max a b)%Q.
Proof.
  unfold PyNum.max. destruct (Qle_bool b a) eqn:E.
  - by apply Qle_bool_iff.
  - lra.
Qed.

Lemma max_first (a b : Q) : (b <= a)%Q → PyNum.max a b = a.
Proof.
  intros H. unfold PyNum.max.
  apply Qle_bool_iff in H. by rewrite H.
Qed.

Lemma max_second (a b : Q) : (a < b)%Q → PyNum.max a b = b.
Proof.
  intros H. unfold PyNum.max.
  destruct (Qle_bool b a) eqn:E; [|reflexivity].
  apply Qle_bool_iff in E. exfalso. lra.
Qed.

Lemma ceil_inject (z : Z) (x : Q) :
  (x == inject_Z z)%Q → PyNum.ceil x = inject_Z z.
Proof.
  intros H. unfold PyNum.ceil. by rewrite H, Qceiling_Z.
Qed.


End PyNumFacts.

(** ** The cost estimator *)

Section TokensFromChars.

Import Pricing.

Lemma divisor_positive (chars_per_token : Q) :
  (0 < PyNum.max chars_per_token (1 # 1000000))%Q.
Proof.
  pose proof (max_lower_bound chars_per_token (1 # 1000000)) as H.
  assert (0 < 1 # 1000000)%Q by reflexivity. lra.
Qed.

Lemma tokens_from_chars_defined (char_count : Z) (chars_per_token : Q) :
  ∃ n : Z,
    tokens_from_chars char_count chars_per_token = Ok n
    ∧ 0 ≤ n
    ∧ (char_count ≤ 0 → n = 0)
    ∧ (0 < char_count →
         ¬ (PyNum.max chars_per_token (1 # 1000000) == 0)%Q
         ∧ n = Qceiling (inject_Z char_count
                         / PyNum.max chars_per_token (1 # 1000000))).
Proof.
  unfold tokens_from_chars.
  destruct (char_count <=? 0) eqn:E.
  - apply Z.leb_le in E. exists 0. repeat split; try lia.
  - apply Z.leb_gt in E.
    pose proof (divisor_positive chars_per_token) as Hd.
    rewrite truediv_pos by done. simpl.
    eexists. split; [reflexivity|]. split; [|split; [lia|]].
    + assert (0 <= inject_Z char_count
                   / PyNum.max chars_per_token (1 # 1000000))%Q as Hq.
      { apply Qle_shift_div_l; [done|].
        rewrite Qmult_0_l. change 0%Q with (inject_Z 0).
        rewrite <- Zle_Qle. lia. }
      apply Qceiling_resp_le in Hq. exact Hq.
    + intros _. split; [|reflexivity]. intros Hz. rewrite Hz in Hd.
      by apply Qlt_irrefl in Hd.
Qed.

Example tokens_from_chars_10_4 : tokens_from_chars 10 4 = Ok 3.
Proof. reflexivity. Qed.

Example tokens_from_chars_negative : tokens_from_chars (-5) 4 = Ok 0.
Proof. reflexivity. Qed.

Example tokens_from_chars_zero_ratio :
  tokens_from_chars 10 0 = Ok 10000000.
Proof. reflexivity. Qed.


End TokensFromChars.

Section EstimateModelCost.

Import Pricing PricingSpec.





End EstimateModelCost.

Section DefaultAssumptions.

Import Pricing PricingSpec.


Lemma params_default_cpt (a : gmap string Q) :
  ∃ cpt, (a ∪ DEFAULT_ASSUMPTIONS) !! "chars_per_token" = Some cpt.
Proof.
  destruct (a !! "chars_per_token") as [v|] eqn:E.
  - exists v. by apply lookup_union_Some_l.
  - exists DEFAULT_CHARS_PER_TOKEN. by rewrite lookup_union_r.
Qed.

(** After the defaults are merged in, a ratio key is always present, so
    the legacy key behind it is never consulted. *)
Lemma get_present (params : gmap string Q) (key : string) (d d' : Q) :
  is_Some (params !! key) → get params key d = get params key d'.
Proof. unfold get. by intros [v ->]. Qed.

Lemma ratio_present (a : gmap string Q) (key : string) :
  is_Some (DEFAULT_ASSUMPTIONS !! key) →
  is_Some ((a ∪ DEFAULT_ASSUMPTIONS) !! key).
Proof.
  intros [v Hv]. destruct (a !! key) as [w|] eqn:E.
  - exists w. by apply lookup_union_Some_l.
  - exists v. by rewrite lookup_union_r.
Qed.

(** [stage_tokens] reads its parameters through seven keys only, once the
    three ratio keys are present. *)
Lemma stage_tokens_ext (total_chars : Z) (n : Q) (p p' : gmap string Q) :
  is_Some (p !! "stage1_output_ratio") →
  is_Some (p !! "stage2_output_ratio") →
  is_Some (p !! "stage3_output_ratio") →
  (∀ key, key ∉ legacy_keys → p' !! key = p !! key) →
  stage1_output_ratio_of p' = stage1_output_ratio_of p
  ∧ stage2_output_ratio_of p' = stage2_output_ratio_of p
  ∧ stage3_output_ratio_of p' = stage3_output_ratio_of p
  ∧ stage_tokens total_chars n p' = stage_tokens total_chars n p.
Proof.
  intros H1 H2 H3 Hagree.
  assert (∀ key d d', key ∉ legacy_keys → is_Some (p !! key) →
            get p' key d = get p key d') as Hget.
  { intros key d d' Hk [v Hv]. unfold get. by rewrite (Hagree key Hk), Hv. }
  assert (∀ key d, key ∉ legacy_keys → get p' key d = get p key d) as Hget'.
  { intros key d Hk. unfold get. by rewrite (Hagree key Hk). }
  assert (stage1_output_ratio_of p' = stage1_output_ratio_of p) as E1.
  { unfold stage1_output_ratio_of. apply Hget; [|done].
    not_legacy. }
  assert (stage2_output_ratio_of p' = stage2_output_ratio_of p) as E2.
  { unfold stage2_output_ratio_of. apply Hget; [|done].
    not_legacy. }
  assert (stage3_output_ratio_of p' = stage3_output_ratio_of p) as E3.
  { unfold stage3_output_ratio_of. apply Hget; [|done].
    not_legacy. }
  repeat split; try done.
  unfold stage_tokens, subscript. rewrite E1, E2, E3.
  rewrite (Hagree "chars_per_token") by not_legacy.
  rewrite !(Hget' "min_stage1_tokens") by not_legacy.
  rewrite !(Hget' "min_stage2_tokens") by not_legacy.
  rewrite !(Hget' "min_stage3_tokens") by not_legacy.
  reflexivity.
Qed.

End DefaultAssumptions.

Section LegacyKeys.

Import Pricing PricingSpec.

Lemma lookup_insert_agree (m m' : gmap string Q) (i key : string) (x : Q) :
  m' !! key = m !! key → <[i:=x]> m' !! key = <[i:=x]> m !! key.
Proof.
  intros H. rewrite !lookup_insert. by case_decide.
Qed.

Lemma default_ratios_present (a : gmap string Q) :
  is_Some ((a ∪ DEFAULT_ASSUMPTIONS) !! "stage1_output_ratio")
  ∧ is_Some ((a ∪ DEFAULT_ASSUMPTIONS) !! "stage2_output_ratio")
  ∧ is_Some ((a ∪ DEFAULT_ASSUMPTIONS) !! "stage3_output_ratio").
Proof. repeat split; by apply ratio_present. Qed.

(** The estimator never fails: the defaults supply [chars_per_token] and
    the division is safe. *)
Lemma stage_tokens_total (total_chars : Z) (n : Q) (a : gmap string Q) :
  ∃ st, stage_tokens total_chars n (a ∪ DEFAULT_ASSUMPTIONS) = Ok st.
Proof.
  destruct (params_default_cpt a) as [cpt Hcpt].
  destruct (tokens_from_chars_defined total_chars cpt) as (t & Ht & _).
  unfold stage_tokens, subscript. rewrite Hcpt. simpl. rewrite Ht. simpl.
  by eexists.
Qed.

Lemma estimate_council_cost_total (total_chars : Z) (models : list string)
    (chairman_model : string)
    (pricing : gmap string (gmap string (option Q)))
    (assumptions : option (gmap string Q)) :
  ∃ r, estimate_council_cost total_chars models chairman_model pricing
         assumptions = Ok r.
Proof.
  unfold estimate_council_cost.
  destruct (stage_tokens_total total_chars
              (inject_Z (Z.of_nat (length models)))
              (default ∅ assumptions)) as [st ->].
  simpl. by eexists.
Qed.

(** C7. A legacy multiplier key never reaches the computation: adding
    [stage1_output_multiplier], [stage2_output_multiplier] or
    [stage3_output_multiplier] (with any value) to the assumptions leaves
    every token estimate and every cost of [estimate_council_cost] as it
    was, because the merged defaults always carry the ratio key that is
    looked up first. *)
Theorem legacy_multiplier_ignored (total_chars : Z) (models : list string)
    (chairman_model : string)
    (pricing : gmap string (gmap string (option Q)))
    (a : gmap string Q) (key : string) (v : Q) :
  key ∈ legacy_keys →
  ∃ r r',
    estimate_council_cost total_chars models chairman_model pricing
      (Some a) = Ok r
    ∧ estimate_council_cost total_chars models chairman_model pricing
        (Some (<[key := v]> a)) = Ok r'
    ∧ same_figures r r'.
Proof.
  intros Hkey.
  destruct (estimate_council_cost_total total_chars models chairman_model
              pricing (Some a)) as [r Hr].
  destruct (estimate_council_cost_total total_chars models chairman_model
              pricing (Some (<[key := v]> a))) as [r' Hr'].
  exists r, r'. split; [done|]. split; [done|].
  unfold estimate_council_cost in Hr, Hr'. simpl in Hr, Hr'.
  destruct (default_ratios_present a) as (P1 & P2 & P3).
  assert (∀ k, k ∉ legacy_keys →
            (<[key:=v]> a ∪ DEFAULT_ASSUMPTIONS) !! k
            = (a ∪ DEFAULT_ASSUMPTIONS) !! k) as Hagree.
  { intros k Hk. rewrite <- insert_union_l.
    apply lookup_insert_ne. by intros ->. }
  destruct (stage_tokens_ext total_chars
              (inject_Z (Z.of_nat (length models))) _ _ P1 P2 P3 Hagree)
    as (E1 & E2 & E3 & Est).
  rewrite Est, E1, E2, E3 in Hr'.
  destruct (stage_tokens total_chars _ (a ∪ DEFAULT_ASSUMPTIONS))
    as [st|e]; [|done].
  simpl in Hr, Hr'. injection Hr as <-. injection Hr' as <-.
  unfold same_figures. simpl. repeat split; try reflexivity.
  intros k Hk. repeat apply lookup_insert_agree. by apply Hagree.
Qed.

Lemma legacy_multiplier_ignored_witness :
  ("stage1_output_multiplier" : string) ∈ legacy_keys
  ∧ ∃ r r',
      Main.estimate_cost
        {| Main.message_length_chars := 4000;
           Main.attachment_length_chars := None;
           Main.chars_per_token := None;
           Main.stage1_output_multiplier := None;
           Main.stage2_input_multiplier := None;
           Main.stage2_output_multiplier := None;
           Main.stage3_input_multiplier := None;
           Main.stage3_output_multiplier := None;
           Main.models := None;
           Main.chairman_model := None |} = Ok r
      ∧ Main.estimate_cost
          {| Main.message_length_chars := 4000;
             Main.attachment_length_chars := None;
             Main.chars_per_token := None;
             Main.stage1_output_multiplier := Some 2%Q;
             Main.stage2_input_multiplier := None;
             Main.stage2_output_multiplier := None;
             Main.stage3_input_multiplier := None;
             Main.stage3_output_multiplier := None;
             Main.models := None;
             Main.chairman_model := None |} = Ok r'
      ∧ same_figures r r'.
Proof.
  assert (("stage1_output_multiplier" : string) ∈ legacy_keys) as H
    by (unfold legacy_keys; apply elem_of_cons; by left).
  split; [exact H|].
  exact (legacy_multiplier_ignored 4000 Config.COUNCIL_MODELS
           Config.CHAIRMAN_MODEL Config.MODEL_PRICING
           (∅ ∪ DEFAULT_ASSUMPTIONS) "stage1_output_multiplier" 2%Q H).
Defined.

End LegacyKeys.

Section ZeroLength.

Import Pricing PricingSpec.

Lemma max_inject_first (x m : Z) :
  m ≤ x → PyNum.max (inject_Z x) (inject_Z m) = inject_Z x.
Proof. intros H. apply max_first. by rewrite <- Zle_Qle. Qed.

(** The token counts for an empty prompt under the default assumptions,
    for a council of [N] models. *)
Lemma stage_tokens_default_zero (N : nat) :
  stage_tokens 0 (inject_Z (Z.of_nat N)) DEFAULT_ASSUMPTIONS
  = Ok {| st_base_tokens := 512;
          st_stage1_input_tokens_per_model := 512;
          st_stage1_output_tokens_per_model := 461;
          st_stage2_input_tokens_per_model :=
            inject_Z (512 + 461 * Z.of_nat N);
          st_stage2_output_tokens_per_model := 256;
          st_stage3_input_tokens := inject_Z (512 + 717 * Z.of_nat N);
          st_stage3_output_tokens := 410 |}.
Proof.
  unfold stage_tokens.
  change (subscript DEFAULT_ASSUMPTIONS "chars_per_token") with (Ok 4%Q).
  change (stage1_output_ratio_of DEFAULT_ASSUMPTIONS) with (9#10)%Q.
  change (stage2_output_ratio_of DEFAULT_ASSUMPTIONS) with (35#100)%Q.
  change (stage3_output_ratio_of DEFAULT_ASSUMPTIONS) with (8#10)%Q.
  change (get DEFAULT_ASSUMPTIONS "min_stage1_tokens" 0) with 512%Q.
  change (get DEFAULT_ASSUMPTIONS "min_stage2_tokens" 0) with 256%Q.
  change (get DEFAULT_ASSUMPTIONS "min_stage3_tokens" 0) with 256%Q.
  cbn [rbind tokens_from_chars Z.leb Z.compare].
  change (PyNum.max (inject_Z 0) 512) with 512%Q.
  change (PyNum.max (PyNum.ceil (512 * (9 # 10))) (PyNum.int (512 * (1 # 2))))
    with 461%Q.
  change (PyNum.max (PyNum.ceil (512 * (35 # 100))) 256) with 256%Q.
  change (PyNum.max (PyNum.ceil (512 * (8 # 10))) 256) with 410%Q.
  set (n := Z.of_nat N). assert (0 ≤ n) as Hn by lia.
  assert (PyNum.ceil (512 + 461 * inject_Z n) = inject_Z (512 + 461 * n))
    as ->.
  { apply ceil_inject. by rewrite inject_Z_plus, inject_Z_mult. }
  assert (PyNum.ceil (512 + 461 * inject_Z n + 256 * inject_Z n)
          = inject_Z (512 + 717 * n)) as ->.
  { apply ceil_inject. rewrite inject_Z_plus, inject_Z_mult.
    change (inject_Z 512) with 512%Q. change (inject_Z 717) with 717%Q.
    ring. }
  change 256%Q with (inject_Z 256).
  rewrite !max_inject_first by lia.
  reflexivity.
Qed.

Lemma estimate_council_cost_default_zero (models : list string)
    (chairman_model : string)
    (pricing : gmap string (gmap string (option Q)))
    (assumptions : option (gmap string Q)) :
  default ∅ assumptions ∪ DEFAULT_ASSUMPTIONS = DEFAULT_ASSUMPTIONS →
  ∃ r, estimate_council_cost 0 models chairman_model pricing assumptions
       = Ok r
       ∧ cc_base_tokens r = 512%Q
       ∧ cc_assumptions r
         = <["stage1_output_ratio" := (9#10)%Q]>
           (<["stage2_output_ratio" := (35#100)%Q]>
           (<["stage3_output_ratio" := (8#10)%Q]>
           (<["stage1_input_tokens_per_model" := 512%Q]>
           (<["stage1_output_tokens_per_model" := 461%Q]>
           (<["stage2_input_tokens_per_model" :=
                inject_Z (512 + 461 * Z.of_nat (length models))]>
           (<["stage2_output_tokens_per_model" := 256%Q]>
           (<["stage3_input_tokens" :=
                inject_Z (512 + 717 * Z.of_nat (length models))]>
           (<["stage3_output_tokens" := 410%Q]>
           (<["num_models" := inject_Z (Z.of_nat (length models))]>
              DEFAULT_ASSUMPTIONS))))))))).
Proof.
  intros Hdefault. unfold estimate_council_cost. rewrite Hdefault.
  rewrite stage_tokens_default_zero. simpl.
  eexists. split; [reflexivity|]. split; reflexivity.
Qed.


(** C6 (as amended). For an empty prompt under the default assumptions
    and a council of [N] models, [base_tokens] and the stage-1 input fall
    back to [min_stage1_tokens] (512) and the stage-2 output falls back to
    [min_stage2_tokens] (256); the other counts are derived from that
    base: stage-1 output 461, stage-2 input [512 + 461 N], stage-3 input
    [512 + 717 N], stage-3 output 410. No derived token count is zero. *)
Theorem zero_length_token_counts (models : list string)
    (chairman_model : string)
    (pricing : gmap string (gmap string (option Q))) :
  ∃ r, estimate_council_cost 0 models chairman_model pricing None = Ok r
       ∧ reports r "min_stage1_tokens" 512
       ∧ reports r "min_stage2_tokens" 256
       ∧ reports r "min_stage3_tokens" 256
       ∧ (cc_base_tokens r == 512)%Q
       ∧ reports r "stage1_input_tokens_per_model" 512
       ∧ reports r "stage1_output_tokens_per_model" 461
       ∧ reports r "stage2_input_tokens_per_model"
           (512 + 461 * inject_Z (Z.of_nat (length models)))
       ∧ reports r "stage2_output_tokens_per_model" 256
       ∧ reports r "stage3_input_tokens"
           (512 + 717 * inject_Z (Z.of_nat (length models)))
       ∧ reports r "stage3_output_tokens" 410
       ∧ no_zero_count r.
Proof.
  destruct (estimate_council_cost_default_zero models chairman_model pricing
              None (left_id_L ∅ (∪) DEFAULT_ASSUMPTIONS))
    as (r & Hr & Hbase & Hmap).
  exists r. split; [exact Hr|].
  assert (0 ≤ Z.of_nat (length models)) as Hn by lia.
  unfold no_zero_count, reports, token_keys. rewrite Hbase, Hmap.
  repeat match goal with
         | |- _ ∧ _ => split
         | |- Forall _ (_ :: _) => apply Forall_cons
         | |- Forall _ [] => by apply Forall_nil
         | |- ∃ v, _ !! _ = Some v ∧ _ =>
             eexists; split; [lookup_chain|]
         end;
    try reflexivity;
    try (by rewrite inject_Z_plus, inject_Z_mult);
    change 0%Q with (inject_Z 0); rewrite <- Zlt_Qlt; lia.
Qed.

(** C6 as stated fails: the estimate for a request of length zero with
    no overrides reports 461 stage-1 output tokens, which is not
    [min_stage1_tokens] (512). *)
Lemma zero_length_not_all_minimum :
  ∃ r,
    Main.estimate_cost
      {| Main.message_length_chars := 0;
         Main.attachment_length_chars := Some 0;
         Main.chars_per_token := None;
         Main.stage1_output_multiplier := None;
         Main.stage2_input_multiplier := None;
         Main.stage2_output_multiplier := None;
         Main.stage3_input_multiplier := None;
         Main.stage3_output_multiplier := None;
         Main.models := None;
         Main.chairman_model := None |} = Ok r
    ∧ reports r "min_stage1_tokens" 512
    ∧ reports r "stage1_output_tokens_per_model" 461
    ∧ ¬ all_at_minimum r.
Proof.
  assert (default ∅ (Some ((∅ : gmap string Q) ∪ DEFAULT_ASSUMPTIONS))
          ∪ DEFAULT_ASSUMPTIONS = DEFAULT_ASSUMPTIONS) as Hdefault.
  { simpl. rewrite (left_id_L ∅ (∪) DEFAULT_ASSUMPTIONS).
    apply (idemp_L (∪)). }
  destruct (estimate_council_cost_default_zero Config.COUNCIL_MODELS
              Config.CHAIRMAN_MODEL Config.MODEL_PRICING _ Hdefault)
    as (r & Hr & Hbase & Hmap).
  exists r. split; [exact Hr|].
  assert (cc_assumptions r !! "min_stage1_tokens" = Some 512%Q) as L1
    by (rewrite Hmap; lookup_chain).
  assert (cc_assumptions r !! "stage1_output_tokens_per_model" = Some 461%Q)
    as L2 by (rewrite Hmap; lookup_chain).
  split; [exists 512%Q; split; [exact L1|reflexivity]|].
  split; [exists 461%Q; split; [exact L2|reflexivity]|].
  intros (m1 & m2 & m3 & (v1 & L1' & E1) & _ & _ & _ & _ & (v2 & L2' & E2) & _).
  rewrite L1 in L1'. rewrite L2 in L2'.
  injection L1' as <-. injection L2' as <-.
  rewrite <- E2 in E1. discriminate E1.
Qed.

End ZeroLength.

Section Doubling.

Import Pricing PricingSpec.













Lemma twice_mult_l (x x' r : Q) : twice x x' → twice (r * x) (r * x').
Proof. unfold twice. intros ->. ring. Qed.











End Doubling.

(** ** The model gateway *)

Section Gateway.

Import Openrouter OpenrouterSpec.

(** What the block does once the disconnect check has let it through. *)
Lemma query_model_try_connected (post : Network) (model : string)
    (messages : list Message) (request : option Request) :
  connected request →
  query_model_try post model messages request
  = obind (post model messages) (λ response, sync (extraction response)).
Proof.
  unfold query_model_try. intros [->|(rq & -> & ->)]; reflexivity.
Qed.

(** The disconnect check has four outcomes. *)
Lemma disconnect_check_cases (request : option Request) :
  connected request
  ∨ (∃ rq, request = Some rq ∧ is_disconnected rq = Returned true)
  ∨ (∃ rq e, request = Some rq ∧ is_disconnected rq = Raised e)
  ∨ (∃ rq, request = Some rq ∧ is_disconnected rq = Cancelled).
Proof.
  unfold connected. destruct request as [rq|]; [|by left; left].
  destruct (is_disconnected rq) as [[|]|e|] eqn:E; eauto 8.
Qed.

Lemma raise_for_status_bad (response : Response) :
  ¬ (200 ≤ status_code response < 300) →
  raise_for_status response = Raise (HTTPStatusError (status_code response)).
Proof.
  intros H. unfold raise_for_status.
  destruct (200 <=? status_code response) eqn:E1;
    destruct (status_code response <? 300) eqn:E2; try reflexivity.
  apply Z.leb_le in E1. apply Z.ltb_lt in E2. lia.
Qed.

(** A payload of the wrong shape makes the extraction raise. *)
Lemma malformed_payload_raises (data : json) :
  (∀ fields, ¬ well_formed data fields) →
  ∃ e, rbind (getitem data "choices") (λ choices,
       rbind (getitem0 choices) (λ choice,
       rbind (getitem choice "message") (λ message,
       rbind (get message "content") (λ c,
       rbind (get message "reasoning_details") (λ r,
         Ok (Some {| reply_content := c; reasoning_details := r |}))))))
       = Raise e.
Proof.
  intros Hmal.
  destruct data as [| | | |items|top]; simpl; eauto.
  destruct (top !! "choices") as [choices|] eqn:Hc; simpl; eauto.
  destruct choices as [| | |[|c s]|[|choice rest]|inner0]; simpl; eauto.
  destruct choice as [| | | | |inner]; simpl; eauto.
  destruct (inner !! "message") as [message|] eqn:Hm; simpl; eauto.
  destruct message as [| | | | |fields]; simpl; eauto.
  exfalso. apply (Hmal fields). by exists top, (JObj inner), rest, inner.
Qed.

(** The block is cancelled exactly when one of its two waits is. *)
Lemma query_model_try_cancelled (post : Network) (model : string)
    (messages : list Message) (request : option Request) :
  query_model_try post model messages request = Cancelled
  ↔ cancelled_while_waiting post model messages request.
Proof.
  unfold cancelled_while_waiting.
  destruct (disconnect_check_cases request)
    as [Hconn|[(rq & -> & Hrq)|[(rq & e & -> & Hrq)|(rq & -> & Hrq)]]].
  - rewrite (query_model_try_connected _ _ _ _ Hconn). split.
    + intros H. right. split; [exact Hconn|].
      destruct (post model messages) as [response|e|]; simpl in H;
        [|done|done].
      by destruct (extraction response).
    + intros [(rq & -> & Hrq)|[_ ->]]; [|done].
      destruct Hconn as [?|(rq' & [= <-] & Hrq')]; congruence.
  - unfold query_model_try. rewrite Hrq. simpl. split; [done|].
    intros [(rq' & [= <-] & ?)|[[?|(rq' & [= <-] & ?)] _]]; congruence.
  - unfold query_model_try. rewrite Hrq. simpl. split; [done|].
    intros [(rq' & [= <-] & ?)|[[?|(rq' & [= <-] & ?)] _]]; congruence.
  - unfold query_model_try. rewrite Hrq. simpl. split; [eauto|done].
Qed.

(** A failure cause makes the block raise or return [None], unless the
    task is cancelled. *)
Lemma query_model_try_failure (post : Network) (model : string)
    (messages : list Message) (request : option Request) :
  failure_cause post model messages request →
  query_model_try post model messages request = Returned None
  ∨ (∃ e, query_model_try post model messages request = Raised e)
  ∨ query_model_try post model messages request = Cancelled.
Proof.
  intros Hcause.
  destruct (disconnect_check_cases request)
    as [Hconn|[(rq & -> & Hrq)|[(rq & e & -> & Hrq)|(rq & -> & Hrq)]]].
  - rewrite (query_model_try_connected _ _ _ _ Hconn). right. left.
    unfold extraction.
    destruct Hcause as [rq e Hreq Hrq|rq Hreq Hrq|e Hpost|response Hpost Hst
                       |response Hpost Hbody|response data Hpost Hbody Hmal].
    + destruct Hconn as [->|(rq' & -> & Hrq')]; [done|].
      injection Hreq as <-. congruence.
    + destruct Hconn as [->|(rq' & -> & Hrq')]; [done|].
      injection Hreq as <-. congruence.
    + rewrite Hpost. simpl. eauto.
    + rewrite Hpost. simpl. rewrite (raise_for_status_bad _ Hst). simpl. eauto.
    + rewrite Hpost. simpl. unfold response_json. rewrite Hbody.
      destruct (raise_for_status response); simpl; eauto.
    + rewrite Hpost. simpl. unfold response_json. rewrite Hbody.
      destruct (raise_for_status response); simpl; eauto.
      destruct (malformed_payload_raises _ Hmal) as [e ->]. simpl. eauto.
  - left. unfold query_model_try. by rewrite Hrq.
  - right. left. unfold query_model_try. rewrite Hrq. simpl. eauto.
  - right. right. unfold query_model_try. by rewrite Hrq.
Qed.

(** C2. [query_model] never lets an [Exception] reach its caller, but it
    does let the cancellation of its task through: the call ends with
    [CancelledErrorInstance] exactly when the task is cancelled at one of its two
    waits (the disconnect check, the response). In every other case it
    returns a value, and that value is [None] whenever a failure cause is
    present (the disconnect check raises or reports a disconnected client,
    the transport fails, the status is not 2xx, the body is not JSON, or
    the payload has the wrong shape). *)
Theorem query_model_raises_only_cancellation (post : Network)
    (model : string) (messages : list Message) (request : option Request) :
  (∀ e, query_model post model messages request ≠ Raised e)
  ∧ (query_model post model messages request = Cancelled
     ↔ cancelled_while_waiting post model messages request)
  ∧ (¬ cancelled_while_waiting post model messages request →
     ∃ reply,
       query_model post model messages request = Returned reply
       ∧ (failure_cause post model messages request → reply = None)).
Proof.
  pose proof (query_model_try_cancelled post model messages request) as Hc.
  pose proof (query_model_try_failure post model messages request) as Hf.
  unfold query_model.
  destruct (query_model_try post model messages request) as [reply|e|] eqn:E.
  - split; [done|]. split; [by rewrite <- Hc|].
    intros _. exists reply. split; [done|]. intros Hcause.
    destruct (Hf Hcause) as [H|[[e H]|H]]; congruence.
  - split; [done|]. split; [by rewrite <- Hc|].
    intros _. by exists None.
  - split; [done|]. split; [by rewrite <- Hc|].
    intros Hn. exfalso. apply Hn. by apply Hc.
Qed.

End Gateway.

Section GatewayExamples.

Import Openrouter OpenrouterSpec.

(** A task cancelled while the response is awaited: [query_model] does not
    return [None], the [CancelledErrorInstance] reaches the caller. *)
Lemma query_model_propagates_cancellation :
  query_model (λ _ _, Cancelled) "openai/gpt-5.1" [] None = Cancelled
  ∧ ¬ ∃ reply,
        query_model (λ _ _, Cancelled) "openai/gpt-5.1" [] None
        = Returned reply.
Proof. split; [reflexivity|]. by intros [reply H]. Qed.

Lemma query_model_raises_only_cancellation_witness :
  ¬ cancelled_while_waiting (λ _ _, Raised TransportError) "openai/gpt-5.1"
      [] None
  ∧ failure_cause (λ _ _, Raised TransportError) "openai/gpt-5.1" [] None
  ∧ query_model (λ _ _, Raised TransportError) "openai/gpt-5.1" [] None
    = Returned None.
Proof.
  assert (¬ cancelled_while_waiting (λ _ _, Raised TransportError)
              "openai/gpt-5.1" [] None) as Hn.
  { by intros [(rq & ? & _)|[_ ?]]. }
  assert (failure_cause (λ _ _, Raised TransportError) "openai/gpt-5.1" []
            None) as Hcause by (by apply (network_error _ _ _ _ TransportError)).
  split; [exact Hn|]. split; [exact Hcause|].
  destruct (proj2 (proj2 (query_model_raises_only_cancellation
              (λ _ _, Raised TransportError) "openai/gpt-5.1" [] None)) Hn)
    as (reply & Hreply & Hnone).
  rewrite Hreply. f_equal. exact (Hnone Hcause).
Defined.

(** A well-formed 2xx answer is passed on: the gateway is not constantly
    [None]. *)
Lemma query_model_success (post : Network) (model : string)
    (messages : list Message) (response : Response) (data : json)
    (fields : gmap string json) :
  post model messages = Returned response →
  200 ≤ status_code response < 300 →
  body response = Some data →
  well_formed data fields →
  query_model post model messages None
  = Returned (Some {| reply_content := default JNull (fields !! "content");
                      reasoning_details :=
                        default JNull (fields !! "reasoning_details") |}).
Proof.
  intros Hpost Hst Hbody (top & choice & rest & inner & -> & Hc & -> & Hm).
  unfold query_model.
  rewrite query_model_try_connected by (by left).
  rewrite Hpost. simpl. unfold extraction, raise_for_status, response_json.
  destruct Hst as [H1 H2]. apply Z.leb_le in H1. apply Z.ltb_lt in H2.
  rewrite H1, H2, Hbody. simpl. rewrite Hc. simpl. rewrite Hm. reflexivity.
Qed.

End GatewayExamples.

(** ** The fan-out dispatcher *)

Section Dispatcher.

Import Openrouter OpenrouterSpec.

Context (gateway : Gateway) (messages : list Message)
        (request : option Request).

Lemma query_models_parallel_returns (models : list string) :
  query_models_parallel gateway false models messages request
  = Returned (mapping gateway messages request models).
Proof.
  unfold query_models_parallel, gather_return_exceptions, mapping. simpl.
  f_equal. generalize (∅ : gmap string entry).
  induction models as [|m models IH]; intros acc; [reflexivity|].
  simpl. rewrite <- IH. f_equal.
  by destruct (gateway m messages request).
Qed.

Lemma query_models_parallel_cancelled (models : list string) :
  query_models_parallel gateway true models messages request = Cancelled.
Proof. reflexivity. Qed.

(** One more model at the end of the list adds one insertion. *)
Lemma mapping_snoc (models : list string) (m : string) :
  mapping gateway messages request (models ++ [m])
  = <[m := entry_of (gateway m messages request)]> (mapping gateway messages request models).
Proof. unfold mapping. by rewrite foldl_app. Qed.

Lemma mapping_nil : mapping gateway messages request [] = ∅.
Proof. reflexivity. Qed.






End Dispatcher.

Section DispatcherTheorem.

Import Openrouter OpenrouterSpec.




End DispatcherTheorem.

(** ** The streaming coordinator *)

Section Streaming.

Import Openrouter Stream StreamSpec.

(** Case analysis on every outcome the generator looks at. *)
Ltac no_match_inside x :=
  lazymatch x with
  | context [match _ with _ => _ end] => fail
  | _ => idtac
  end.



Example complete_round :
  event_generator all_succeed true
  = ([ add_user_message; create_title_task; Yield stage1_start;
       call_stage1_collect_responses; Yield (stage1_complete (JArr []));
       Yield stage2_start; call_stage2_collect_rankings (JArr []);
       Yield (stage2_complete (JArr []) (JObj ∅) (JArr []));
       Yield stage3_start;
       call_stage3_synthesize_final (JArr []) (JArr []);
       Yield (stage3_complete JNull);
       update_conversation_title "Title"; Yield (title_complete "Title");
       add_assistant_message (JArr []) (JArr []) JNull (JObj ∅) (JArr []);
       Yield complete ], Completed).
Proof. reflexivity. Qed.

Example stage1_failure_reported :
  event_types
    (event_generator
       {| disconnected_before_start := Returned false;
          add_user_message_result := Ok tt;
          disconnected_before_stage1 := Returned false;
          stage1_collect_responses := Raised (RuntimeError "boom");
          disconnected_before_stage2 := Returned false;
          stage2_collect_rankings := λ _, Returned (JArr [], JObj ∅);
          calculate_aggregate_rankings := λ _ _, Ok (JArr []);
          disconnected_before_stage3 := Returned false;
          stage3_synthesize_final := λ _ _, Returned JNull;
          title_task_result := Returned "Title"%string;
          update_conversation_title_result := λ _, Ok tt;
          add_assistant_message_result := Ok tt;
          json_dumps := λ _, Ok tt;
          consumer_resumes := λ _, true |} false)
  = [ "stage1_start"; "error" ]%string.
Proof. reflexivity. Qed.








(** The same case analysis, once the poll before stage 2 is known to
    report a disconnected client. *)
Lemma cancel_after_stage1_decided (w : World) (is_first_message : bool) :
  disconnected_before_stage2 w = Returned true →
  bool_decide
    (Forall (λ eff, further_work eff = false)
       (event_generator w is_first_message).1
     ∧ Forall (λ t, t ∈ [ "stage1_start"; "stage1_complete"; "error" ]%string)
         (event_types (event_generator w is_first_message))
     ∧ ("stage1_complete"%string
          ∈ event_types (event_generator w is_first_message) →
        event_types (event_generator w is_first_message)
        = [ "stage1_start"; "stage1_complete" ]%string
        ∧ ((event_generator w is_first_message).2 = StoppedOnDisconnect
           ∨ (event_generator w is_first_message).2 = ClosedByConsumer)))
  = true.
Proof.
  intros Hpoll.
  pattern (event_generator w is_first_message).
  match goal with |- ?P _ => remember P as check eqn:Hcheck end.
  unfold event_generator, event_generator_try, cancel_title,
    bind, await, call, act, compute, yield, pure, ret.
  rewrite Hpoll.
  destruct is_first_message;
    repeat (cbn -[String.eqb];
            match goal with
            | |- context [match ?x with _ => _ end] =>
                no_match_inside x; destruct x eqn:?
            end);
    subst check; vm_compute; reflexivity.
Qed.

(** C3. When the poll that follows [stage1_complete] reports a
    disconnected client, the run issues no stage-2 or stage-3 call and no
    assistant-message write, it emits no [stage2_start] nor any later
    event, and once [stage1_complete] has been emitted the events are
    exactly [stage1_start], [stage1_complete] and the run stops there. *)
Theorem cancel_after_stage1 (w : World) (is_first_message : bool) :
  disconnected_before_stage2 w = Returned true →
  Forall (λ eff, further_work eff = false)
    (event_generator w is_first_message).1
  ∧ Forall (λ t, t ∈ [ "stage1_start"; "stage1_complete"; "error" ]%string)
      (event_types (event_generator w is_first_message))
  ∧ ("stage1_complete"%string
       ∈ event_types (event_generator w is_first_message) →
     event_types (event_generator w is_first_message)
     = [ "stage1_start"; "stage1_complete" ]%string
     ∧ ((event_generator w is_first_message).2 = StoppedOnDisconnect
        ∨ (event_generator w is_first_message).2 = ClosedByConsumer)).
Proof.
  intros Hpoll.
  exact (bool_decide_eq_true_1 _
           (cancel_after_stage1_decided w is_first_message Hpoll)).
Qed.

Lemma cancel_after_stage1_witness :
  disconnected_before_stage2 disconnect_after_stage1 = Returned true
  ∧ event_types (event_generator disconnect_after_stage1 true)
    = [ "stage1_start"; "stage1_complete" ]%string
  ∧ Forall (λ eff, further_work eff = false)
      (event_generator disconnect_after_stage1 true).1.
Proof.
  assert (disconnected_before_stage2 disconnect_after_stage1 = Returned true)
    as Hpoll by reflexivity.
  split; [exact Hpoll|]. split; [reflexivity|].
  exact (proj1 (cancel_after_stage1 disconnect_after_stage1 true Hpoll)).
Defined.

End Streaming.

(** ** The aggregation engine *)

Section Aggregation.

Import Council.
























End Aggregation.
(** * Further properties *)

(** ** The cost estimator *)

Section TokenBounds.

Import Pricing PricingSpec PricingMore.










End TokenBounds.

Section EstimateShape.

Import Pricing PricingSpec PricingMore.




End EstimateShape.

Section EstimateMonotone.

Import Pricing PricingSpec PricingMore.






End EstimateMonotone.

(** ** The estimate-cost endpoint *)

Section EstimateCostEndpoint.

Import Pricing PricingSpec PricingMore Main.









End EstimateCostEndpoint.

(** ** The model gateway, further *)

Section GatewayMore.

Import Openrouter OpenrouterSpec.

(** The extraction of the reply from a payload: it succeeds on the
    payloads of the right shape, with the fields of the message, and raises
    on all others. *)
Lemma payload_extraction (data : json) :
  (∃ fields,
     well_formed data fields
     ∧ rbind (getitem data "choices") (λ choices,
       rbind (getitem0 choices) (λ choice,
       rbind (getitem choice "message") (λ message,
       rbind (get message "content") (λ c,
       rbind (get message "reasoning_details") (λ r,
         Ok (Some {| reply_content := c; reasoning_details := r |}))))))
       = Ok (Some {| reply_content := default JNull (fields !! "content");
                     reasoning_details :=
                       default JNull (fields !! "reasoning_details") |}))
  ∨ (∃ e,
       rbind (getitem data "choices") (λ choices,
       rbind (getitem0 choices) (λ choice,
       rbind (getitem choice "message") (λ message,
       rbind (get message "content") (λ c,
       rbind (get message "reasoning_details") (λ r,
         Ok (Some {| reply_content := c; reasoning_details := r |}))))))
       = Raise e).
Proof.
  destruct data as [| | | |items|top]; simpl; eauto.
  destruct (top !! "choices") as [choices|] eqn:Hc; simpl; eauto.
  destruct choices as [| | |[|c s]|[|choice rest]|inner0]; simpl; eauto.
  destruct choice as [| | | | |inner]; simpl; eauto.
  destruct (inner !! "message") as [message|] eqn:Hm; simpl; eauto.
  destruct message as [| | | | |fields]; simpl; eauto.
  left. exists fields. split; [|done].
  by exists top, (JObj inner), rest, inner.
Qed.

Lemma well_formed_unique (data : json) (fields fields' : gmap string json) :
  well_formed data fields → well_formed data fields' → fields = fields'.
Proof.
  intros (top & choice & rest & inner & -> & Hc & -> & Hm)
         (top' & choice' & rest' & inner' & [= <-] & Hc' & -> & Hm').
  rewrite Hc in Hc'. injection Hc' as <- _.
  rewrite Hm in Hm'. by injection Hm'.
Qed.

(** X7. [query_model] returns a reply in one situation only: the client
    is not reported disconnected, the endpoint answers with a 2xx status
    and a JSON body of the shape [{"choices": [{"message": {...}}]}]; the
    reply then carries the message's [content] and [reasoning_details],
    [None] standing for a key that is absent. *)
Theorem query_model_reply_iff (post : Network) (model : string)
    (messages : list Message) (request : option Request) (reply : Reply) :
  query_model post model messages request = Returned (Some reply)
  ↔ (request = None
     ∨ ∃ rq, request = Some rq ∧ is_disconnected rq = Returned false)
    ∧ ∃ response data fields,
        post model messages = Returned response
        ∧ 200 ≤ status_code response < 300
        ∧ body response = Some data
        ∧ well_formed data fields
        ∧ reply = {| reply_content := default JNull (fields !! "content");
                     reasoning_details :=
                       default JNull (fields !! "reasoning_details") |}.
Proof.
  unfold query_model. split.
  - intros H.
    destruct (disconnect_check_cases request)
      as [Hconn|[(rq & -> & Hrq)|[(rq & e & -> & Hrq)|(rq & -> & Hrq)]]].
    + split; [exact Hconn|].
      rewrite (query_model_try_connected _ _ _ _ Hconn) in H.
      destruct (post model messages) as [response|e|] eqn:Hpost;
        [|done|done].
      simpl in H. unfold extraction, raise_for_status, response_json in H.
      destruct (200 <=? status_code response) eqn:E1; [|done].
      destruct (status_code response <? 300) eqn:E2; [|done].
      simpl in H. destruct (body response) as [data|] eqn:Hbody; [|done].
      simpl in H. exists response, data.
      destruct (payload_extraction data) as [(fields & Hwf & Hx)|[e Hx]];
        rewrite Hx in H; [|done].
      exists fields. apply Z.leb_le in E1. apply Z.ltb_lt in E2.
      repeat split; try done. by injection H as <-.
    + unfold query_model_try in H. by rewrite Hrq in H.
    + unfold query_model_try in H. by rewrite Hrq in H.
    + unfold query_model_try in H. by rewrite Hrq in H.
  - intros (Hconn & response & data & fields & Hpost & [H1 H2] & Hbody & Hwf
            & ->).
    rewrite (query_model_try_connected _ _ _ _ Hconn), Hpost. simpl.
    unfold extraction, raise_for_status, response_json.
    apply Z.leb_le in H1. apply Z.ltb_lt in H2. rewrite H1, H2, Hbody. simpl.
    destruct (payload_extraction data) as [(fields' & Hwf' & Hx)|[e Hx]].
    + rewrite Hx. by rewrite (well_formed_unique _ _ _ Hwf Hwf').
    + destruct Hwf as (top & choice & rest & inner & -> & Hc & -> & Hm).
      simpl in Hx. rewrite Hc in Hx. simpl in Hx. rewrite Hm in Hx. done.
Qed.

End GatewayMore.

Section DispatcherMore.

Import Openrouter OpenrouterSpec.

Lemma query_model_disconnected (post : Network) (model : string)
    (messages : list Message) (rq : Request) :
  is_disconnected rq = Returned true →
  query_model post model messages (Some rq) = Returned None.
Proof.
  intros H. unfold query_model, query_model_try. by rewrite H.
Qed.

Lemma dispatch_disconnected_lookup (post : Network) (models : list string)
    (messages : list Message) (rq : Request) (m : string) :
  is_disconnected rq = Returned true →
  mapping (query_model post) messages (Some rq) models !! m
  = if decide (m ∈ models) then Some (Stored None) else None.
Proof.
  intros H. induction models as [|x models IH] using rev_ind.
  - rewrite mapping_nil, lookup_empty.
    by rewrite decide_False by apply not_elem_of_nil.
  - rewrite mapping_snoc, query_model_disconnected by done.
    simpl. destruct (decide (m = x)) as [->|Hne].
    + rewrite lookup_insert_eq.
      rewrite decide_True; [done|]. apply elem_of_app. right. by left.
    + rewrite lookup_insert_ne by done. rewrite IH.
      destruct (decide (m ∈ models)) as [Hin|Hnin].
      * rewrite decide_True; [done|]. apply elem_of_app. by left.
      * rewrite decide_False; [done|]. rewrite elem_of_app.
        intros [?|Hx]; [done|]. by apply list_elem_of_singleton in Hx.
Qed.

(** X8. Once the client is reported disconnected, the dispatcher over
    [query_model] answers without regard to the network: it returns a
    mapping in which every model of the list (distinct or not) is mapped to
    [None], and two networks give the same outcome, whether or not the
    dispatcher's own task is cancelled. *)
Theorem dispatch_disconnected (post post' : Network) (models : list string)
    (messages : list Message) (rq : Request) :
  is_disconnected rq = Returned true →
  (∃ result,
     query_models_parallel (query_model post) false models messages (Some rq)
     = Returned result
     ∧ ∀ m, m ∈ models → result !! m = Some (Stored None))
  ∧ ∀ cancelled,
      query_models_parallel (query_model post) cancelled models messages
        (Some rq)
      = query_models_parallel (query_model post') cancelled models messages
          (Some rq).
Proof.
  intros H. split.
  - eexists. split; [apply query_models_parallel_returns|].
    intros m Hm. rewrite dispatch_disconnected_lookup by done.
    by rewrite decide_True.
  - intros [|]; [reflexivity|].
    rewrite !query_models_parallel_returns. f_equal.
    apply map_eq. intros m. by rewrite !dispatch_disconnected_lookup.
Qed.

Lemma dispatch_disconnected_witness :
  query_models_parallel (query_model (λ _ _, Raised TransportError)) false
    Config.COUNCIL_MODELS [] (Some {| is_disconnected := Returned true |})
  = query_models_parallel
      (query_model (λ _ _, Returned {| status_code := 200; body := None |}))
      false Config.COUNCIL_MODELS []
      (Some {| is_disconnected := Returned true |}).
Proof.
  apply (proj2 (dispatch_disconnected (λ _ _, Raised TransportError)
           (λ _ _, Returned {| status_code := 200; body := None |})
           Config.COUNCIL_MODELS [] {| is_disconnected := Returned true |}
           eq_refl) false).
Defined.

End DispatcherMore.

(** ** The streaming coordinator, further *)

Section StreamingMore.

Import Openrouter Stream StreamSpec StreamMore.

(** X9. At most one assistant message is written in a run, and what is
    written is what was streamed: its stage-1, stage-2 and stage-3 parts
    and its metadata are the data of the one [stage1_complete],
    [stage2_complete] and [stage3_complete] events of the run. *)
Theorem stored_is_streamed (w : World) (is_first_message : bool) :
  stored_assistant (event_generator w is_first_message).1 = []
  ∨ ∃ s1 s2 s3 l a,
      stored_assistant (event_generator w is_first_message).1
      = [(s1, s2, s3, l, a)]
      ∧ stage1_data (event_generator w is_first_message).1 = [s1]
      ∧ stage2_data (event_generator w is_first_message).1 = [(s2, l, a)]
      ∧ stage3_data (event_generator w is_first_message).1 = [s3].
Proof. for_every_run w is_first_message settle. Qed.

(** X10. A run that stops on a disconnect has emitted whole stages only
    (none, stage 1, or stages 1 and 2), has not called stage 3, has written
    no assistant message, and has cancelled the title task if it had
    created one. *)
Theorem stopped_on_disconnect (w : World) (is_first_message : bool) :
  (event_generator w is_first_message).2 = StoppedOnDisconnect →
  (event_types (event_generator w is_first_message) = []
   ∨ event_types (event_generator w is_first_message)
     = [ "stage1_start"; "stage1_complete" ]%string
   ∨ event_types (event_generator w is_first_message)
     = [ "stage1_start"; "stage1_complete"; "stage2_start";
         "stage2_complete" ]%string)
  ∧ count is_stage3_call (event_generator w is_first_message).1 = 0%nat
  ∧ count is_assistant_write (event_generator w is_first_message).1 = 0%nat
  ∧ count is_title_cancel (event_generator w is_first_message).1
    = count is_title_create (event_generator w is_first_message).1.
Proof. for_every_run w is_first_message settle. Qed.

Lemma stopped_on_disconnect_witness :
  (event_generator disconnect_after_stage1 true).2 = StoppedOnDisconnect
  ∧ count is_title_cancel (event_generator disconnect_after_stage1 true).1
    = count is_title_create (event_generator disconnect_after_stage1 true).1.
Proof.
  assert ((event_generator disconnect_after_stage1 true).2
          = StoppedOnDisconnect) as H by reflexivity.
  split; [exact H|].
  exact (proj2 (proj2 (proj2
    (stopped_on_disconnect disconnect_after_stage1 true H)))).
Defined.

(** X11. When the poll that follows [stage2_complete] reports a
    disconnected client, the run calls no stage 3 and writes no assistant
    message, it emits no [stage3_start] nor any later event, and once
    [stage2_complete] has been emitted the events are exactly the four of
    stages 1 and 2 and the run stops there. *)
Theorem cancel_after_stage2 (w : World) (is_first_message : bool) :
  disconnected_before_stage3 w = Returned true →
  count is_stage3_call (event_generator w is_first_message).1 = 0%nat
  ∧ count is_assistant_write (event_generator w is_first_message).1 = 0%nat
  ∧ Forall (λ t, t ∈ [ "stage1_start"; "stage1_complete"; "stage2_start";
                       "stage2_complete"; "error" ]%string)
      (event_types (event_generator w is_first_message))
  ∧ ("stage2_complete"%string
       ∈ event_types (event_generator w is_first_message) →
     event_types (event_generator w is_first_message)
     = [ "stage1_start"; "stage1_complete"; "stage2_start";
         "stage2_complete" ]%string
     ∧ ((event_generator w is_first_message).2 = StoppedOnDisconnect
        ∨ (event_generator w is_first_message).2 = ClosedByConsumer)).
Proof.
  intros Hpoll. apply (bool_decide_eq_true_1 _).
  pattern (event_generator w is_first_message).
  match goal with |- ?P _ => remember P as property eqn:Hproperty end.
  unfold event_generator, event_generator_try, cancel_title,
    bind, await, call, act, compute, yield, pure, ret.
  rewrite Hpoll.
  destruct is_first_message;
    repeat (cbn -[String.eqb];
            match goal with
            | |- context [match ?x with _ => _ end] =>
                atomic_scrutinee x; destruct x eqn:?
            end);
    subst property; vm_compute; reflexivity.
Qed.

Lemma cancel_after_stage2_witness :
  count is_stage3_call
    (event_generator
       {| disconnected_before_start := Returned false;
          add_user_message_result := Ok tt;
          disconnected_before_stage1 := Returned false;
          stage1_collect_responses := Returned (JArr []);
          disconnected_before_stage2 := Returned false;
          stage2_collect_rankings := λ _, Returned (JArr [], JObj ∅);
          calculate_aggregate_rankings := λ _ _, Ok (JArr []);
          disconnected_before_stage3 := Returned true;
          stage3_synthesize_final := λ _ _, Returned JNull;
          title_task_result := Returned "Title"%string;
          update_conversation_title_result := λ _, Ok tt;
          add_assistant_message_result := Ok tt;
          json_dumps := λ _, Ok tt;
          consumer_resumes := λ _, true |} true).1 = 0%nat.
Proof.
  refine (proj1 (cancel_after_stage2 _ true _)). reflexivity.
Defined.

(** X12. When the [complete] event is emitted the round has been stored
    and every stage has run: the trace holds exactly one user-message
    write, one call of each stage and one assistant-message write, the
    title was stored exactly for a first message, and the assistant write
    is the last effect before the [complete] event. *)
Theorem complete_means_stored (w : World) (is_first_message : bool) :
  "complete"%string ∈ event_types (event_generator w is_first_message) →
  count is_user_write (event_generator w is_first_message).1 = 1%nat
  ∧ count is_stage1_call (event_generator w is_first_message).1 = 1%nat
  ∧ count is_stage2_call (event_generator w is_first_message).1 = 1%nat
  ∧ count is_stage3_call (event_generator w is_first_message).1 = 1%nat
  ∧ count is_assistant_write (event_generator w is_first_message).1 = 1%nat
  ∧ length (titles_stored (event_generator w is_first_message).1)
    = (if is_first_message then 1 else 0)%nat
  ∧ ∃ s1 s2 s3 l a rest,
      reverse (event_generator w is_first_message).1
      = Yield complete :: add_assistant_message s1 s2 s3 l a :: rest.
Proof.
  for_every_run w is_first_message
    ltac:(let H := fresh in
          intros H; apply (bool_decide_eq_true_2 _) in H;
          vm_compute in H; first [discriminate H | clear H; settle]).
Qed.

Lemma complete_means_stored_witness :
  "complete"%string ∈ event_types (event_generator all_succeed true)
  ∧ count is_assistant_write (event_generator all_succeed true).1 = 1%nat.
Proof.
  assert ("complete"%string ∈ event_types (event_generator all_succeed true))
    as H by (apply (bool_decide_unpack _); vm_compute; exact I).
  split; [exact H|].
  exact (proj1 (proj2 (proj2 (proj2 (proj2
    (complete_means_stored all_succeed true H)))))).
Defined.

(** X13. Only the first message of a conversation touches the title: for
    a later message no title task is created, no title is stored and no
    [title_complete] is emitted. In every run at most one title task is
    created, and a title that is streamed has been stored. *)
Theorem title_only_for_first_message (w : World) (is_first_message : bool) :
  (is_first_message = false →
   count is_title_create (event_generator w is_first_message).1 = 0%nat
   ∧ titles_stored (event_generator w is_first_message).1 = []
   ∧ titles_streamed (event_generator w is_first_message).1 = [])
  ∧ (count is_title_create (event_generator w is_first_message).1 = 0%nat
     ∨ count is_title_create (event_generator w is_first_message).1 = 1%nat)
  ∧ (titles_streamed (event_generator w is_first_message).1 = []
     ∨ ∃ t, titles_streamed (event_generator w is_first_message).1 = [t]
            ∧ titles_stored (event_generator w is_first_message).1 = [t]).
Proof. for_every_run w is_first_message settle. Qed.

(** X14. Nothing of a round is streamed before the user's message is
    stored: unless the run emits no event at all or the [error] event
    alone, its first effect is the user-message write, which happens
    once. *)
Theorem user_message_stored_first (w : World) (is_first_message : bool) :
  event_types (event_generator w is_first_message) = []
  ∨ event_types (event_generator w is_first_message) = [ "error"%string ]
  ∨ (head (event_generator w is_first_message).1 = Some add_user_message
     ∧ count is_user_write (event_generator w is_first_message).1 = 1%nat).
Proof. for_every_run w is_first_message settle. Qed.

End StreamingMore.

(** ** The conversation store *)

Section StoreFacts.

Import Openrouter Storage StorageMore.

Variable os : OS.

Local Open Scope string_scope.

Lemma bind_returns {A B} (m : Store A) (k : A → Store B)
    (fs fs' : gmap string file) (a : A) :
  m fs = (fs', Returns a) → bind m k fs = k a fs'.
Proof. intros H. unfold bind. by rewrite H. Qed.

Lemma bind_raises {A B} (m : Store A) (k : A → Store B)
    (fs fs' : gmap string file) (e : error) :
  m fs = (fs', Raises e) → bind m k fs = (fs', Raises e).
Proof. intros H. unfold bind. by rewrite H. Qed.

Lemma get_conversation_eq (id : string) (fs : gmap string file) :
  get_conversation os id fs
  = match fs !! location os id with
    | None => (fs, Returns JNull)
    | Some f =>
        if readable os (get_conversation_path os (JStr id)) then
          match f with
          | Document doc => (fs, Returns doc)
          | Garbage => (fs, Raises (Builtin JSONDecodeError))
          end
        else (fs, Raises OSError)
    end.
Proof.
  unfold get_conversation, location, bind, exists_, load, ret.
  destruct (fs !! _) as [f|] eqn:Hf.
  - rewrite bool_decide_eq_true_2 by eauto. cbn. by rewrite Hf.
  - rewrite bool_decide_eq_false_2; [done|]. by intros [? ?].
Qed.

Lemma get_conversation_pure (id : string) (fs : gmap string file) :
  (get_conversation os id fs).1 = fs.
Proof.
  rewrite get_conversation_eq.
  by repeat case_match.
Qed.

Lemma get_conversation_held (id : string) (fs : gmap string file)
    (fields : gmap string json) :
  fs !! location os id = Some (Document (JObj fields)) →
  can_read os id →
  get_conversation os id fs = (fs, Returns (JObj fields)).
Proof.
  intros Hfs Hread. rewrite get_conversation_eq, Hfs.
  unfold can_read in Hread. by rewrite Hread.
Qed.

Lemma get_conversation_missing (id : string) (fs : gmap string file) :
  fs !! location os id = None →
  get_conversation os id fs = (fs, Returns JNull).
Proof. intros Hfs. by rewrite get_conversation_eq, Hfs. Qed.

Lemma save_conversation_eq (fields : gmap string json) (id : string)
    (fs : gmap string file) :
  fields !! "id" = Some (JStr id) →
  save_conversation os (JObj fields) fs
  = if mkdir_ok os then
      if writable os (get_conversation_path os (JStr id)) then
        match write_fails os (get_conversation_path os (JStr id)) with
        | None => (<[location os id := Document (JObj fields)]> fs, Returns tt)
        | Some remains => (<[location os id := remains]> fs, Raises OSError)
        end
      else (fs, Raises OSError)
    else (fs, Raises OSError).
Proof.
  intros Hid.
  unfold save_conversation, ensure_data_dir, bind, lift, dump, ret, raise,
    location.
  destruct (mkdir_ok os); [|done]. cbn. rewrite Hid. cbn.
  by destruct (writable os _).
Qed.

Lemma save_conversation_held (fields : gmap string json) (id : string)
    (fs : gmap string file) :
  fields !! "id" = Some (JStr id) →
  can_write os id →
  save_conversation os (JObj fields) fs
  = (<[location os id := Document (JObj fields)]> fs, Returns tt).
Proof.
  intros Hid (Hm & Hw & Hf). rewrite (save_conversation_eq _ id) by done.
  by rewrite Hm, Hw, Hf.
Qed.

Lemma unchanged (fs : gmap string file) : unchanged_or_spoiled os fs fs.
Proof. by left. Qed.

Lemma dump_confined (doc : json) (path : string) :
  confined os (dump os doc path).
Proof.
  intros fs fs' e. unfold dump.
  destruct (writable os path) eqn:Hw; [|intros [= <- _]; by left].
  destruct (write_fails os path) as [remains|] eqn:Hf; [|done].
  intros [= <- _]. right. by exists path, remains.
Qed.

Lemma save_conversation_confined (doc : json) :
  confined os (save_conversation os doc).
Proof.
  intros fs fs' e.
  unfold save_conversation, ensure_data_dir, bind, lift, ret, raise.
  destruct (mkdir_ok os); cbn; [|intros [= <- _]; by left].
  destruct (getitem doc "id"); cbn; [|intros [= <- _]; by left].
  apply dump_confined.
Qed.

Lemma read_only_get_conversation (id : string) :
  read_only (get_conversation os id).
Proof. intros fs. apply get_conversation_pure. Qed.

Lemma read_only_lift {A} (r : result A) : read_only (lift r).
Proof. intros fs. by destruct r. Qed.

Lemma read_only_ret {A} (a : A) : read_only (ret a).
Proof. done. Qed.

Lemma read_only_raise {A} (e : error) : read_only (@raise A e).
Proof. done. Qed.

Lemma read_only_confined {A} (m : Store A) : read_only m → confined os m.
Proof.
  intros Hm fs fs' e Hrun. specialize (Hm fs). rewrite Hrun in Hm.
  left. exact Hm.
Qed.

Lemma confined_after_read {A B} (m : Store A) (k : A → Store B) :
  read_only m → (∀ a, confined os (k a)) → confined os (bind m k).
Proof.
  intros Hm Hk fs fs' e. unfold bind. specialize (Hm fs).
  destruct (m fs) as [fs1 [a|e1]]; cbn in Hm; subst fs1.
  - apply Hk.
  - intros [= <- _]. by left.
Qed.

Lemma confined_before_read {A B} (m : Store A) (k : A → Store B) :
  confined os m → (∀ a, read_only (k a)) →
  (∀ a fs e, k a fs ≠ (fs, Raises e)) →
  confined os (bind m k).
Proof.
  intros Hm Hk Hnever fs fs' e. unfold bind.
  destruct (m fs) as [fs1 [a|e1]] eqn:Hrun.
  - intros Hka. pose proof (Hk a fs1) as Hpure. rewrite Hka in Hpure.
    cbn in Hpure. subst fs1. by destruct (Hnever a fs' e).
  - intros [= <- <-]. by apply (Hm fs fs1 e1).
Qed.

Lemma remove_confined (path : string) : confined os (remove os path).
Proof.
  intros fs fs' e. unfold remove.
  repeat case_match; intros [= <- _]; by left.
Qed.

Lemma ensure_data_dir_read_only : read_only (ensure_data_dir os).
Proof. intros fs. unfold ensure_data_dir. by case_match. Qed.

Lemma exists_read_only (path : string) : read_only (exists_ os path).
Proof. done. Qed.

(** Load, change the document, save. *)
Lemma change_and_save_confined (r : result json) :
  confined os (bind (lift r) (save_conversation os)).
Proof.
  apply confined_after_read; [apply read_only_lift|].
  apply save_conversation_confined.
Qed.

Create HintDb store.

#[local] Hint Resolve read_only_get_conversation read_only_lift read_only_ret
  read_only_raise read_only_confined confined_after_read dump_confined
  remove_confined ensure_data_dir_read_only exists_read_only
  save_conversation_confined change_and_save_confined : store.

Lemma create_conversation_confined (id : string) :
  confined os (create_conversation os id).
Proof.
  unfold create_conversation.
  apply confined_after_read; [auto with store|]. intros _.
  apply confined_before_read; [auto with store|auto with store|done].
Qed.

Lemma add_user_message_confined (id : string) (c a s : json) :
  confined os (add_user_message os id c a s).
Proof.
  unfold add_user_message.
  apply confined_after_read; [auto with store|].
  intros []; auto with store.
Qed.

Lemma add_assistant_message_confined (id : string) (s1 s2 s3 md : json) :
  confined os (add_assistant_message os id s1 s2 s3 md).
Proof.
  unfold add_assistant_message.
  apply confined_after_read; [auto with store|].
  intros []; auto with store.
Qed.

Lemma update_conversation_title_confined (id title : string) :
  confined os (update_conversation_title os id title).
Proof.
  unfold update_conversation_title.
  apply confined_after_read; [auto with store|].
  intros []; auto with store.
Qed.

Lemma update_conversation_work_mode_confined (id : string)
    (work_mode : option string) :
  confined os (update_conversation_work_mode os id work_mode).
Proof.
  unfold update_conversation_work_mode.
  apply confined_after_read; [auto with store|].
  intros []; destruct work_mode; try case_match; auto with store.
Qed.

Lemma delete_conversation_confined (id : string) :
  confined os (delete_conversation os id).
Proof.
  unfold delete_conversation.
  apply confined_after_read; [auto with store|].
  intros []; auto with store.
Qed.

Lemma assign_all_or_nothing (id : string) (project_id : json) :
  all_or_nothing os (assign_conversation_to_project os id project_id).
Proof.
  intros fs fs' c. unfold assign_conversation_to_project, bind at 1.
  pose proof (get_conversation_pure id fs) as Hget.
  destruct (get_conversation os id fs) as [fs1 [doc|e1]]; cbn in Hget;
    subst fs1; [|intros [= <- _] _; by left].
  destruct (truthy doc); cbn; [|unfold ret; intros [= <- _] _; by left].
  unfold bind at 1.
  pose proof (read_only_lift (setitem doc "project_id" project_id) fs) as Hl.
  destruct (lift _ fs) as [fs1 [doc'|e1]]; cbn in Hl; subst fs1;
    [|intros [= <- _] _; by left].
  unfold bind.
  destruct (save_conversation os doc' fs) as [fs1 [[]|e1]] eqn:Hsave.
  - intros [= <- <-]. done.
  - intros [= <- <-] _. by apply (save_conversation_confined doc' fs fs1 e1).
Qed.

Lemma unchanged_when_writes_complete (fs fs' : gmap string file) :
  writes_complete os → unchanged_or_spoiled os fs fs' → fs' = fs.
Proof.
  intros Hc [->|(path & remains & _ & Hf & _)]; [done|].
  by rewrite Hc in Hf.
Qed.

(** X15. A store operation that fails has changed nothing, unless a
    write failed after [open] had truncated the file: creating a
    conversation, appending a user or an assistant message, setting the
    title or the work mode and deleting either succeed, or leave every file
    as it was, or leave every file but one as it was, that one having been
    opened for writing and holding what the failed write left. This holds
    whatever the files hold and whatever the operating system refuses.
    Assigning a project does the same unless it answers [True], and loading
    a conversation never writes. Where no write fails once the file is
    open, a failed operation has changed nothing. *)
Theorem failure_spoils_one_file_at_most (id : string) :
  confined os (create_conversation os id)
  ∧ (∀ content attachments case_settings,
       confined os
         (add_user_message os id content attachments case_settings))
  ∧ (∀ stage1 stage2 stage3 metadata,
       confined os
         (add_assistant_message os id stage1 stage2 stage3 metadata))
  ∧ (∀ title, confined os (update_conversation_title os id title))
  ∧ (∀ work_mode,
       confined os (update_conversation_work_mode os id work_mode))
  ∧ confined os (delete_conversation os id)
  ∧ (∀ project_id,
       all_or_nothing os (assign_conversation_to_project os id project_id))
  ∧ read_only (get_conversation os id)
  ∧ (writes_complete os →
     ∀ fs fs', unchanged_or_spoiled os fs fs' → fs' = fs).
Proof.
  split; [apply create_conversation_confined|].
  split; [intros; apply add_user_message_confined|].
  split; [intros; apply add_assistant_message_confined|].
  split; [intros; apply update_conversation_title_confined|].
  split; [intros; apply update_conversation_work_mode_confined|].
  split; [apply delete_conversation_confined|].
  split; [intros; apply assign_all_or_nothing|].
  split; [apply read_only_get_conversation|].
  intros Hc fs fs'. by apply unchanged_when_writes_complete.
Qed.

(** X16. Creating and loading round-trip: when the operating system lets
    the file be written and read, [create_conversation] returns a document
    with the given id, the title "New Conversation", no messages, no
    project and no work mode, [get_conversation] then returns that very
    document, and no other file has changed. A conversation that was
    stored under the id before is replaced. *)
Theorem create_then_get (id : string) (fs : gmap string file) :
  can_write os id → can_read os id →
  ∃ conversation fs',
    create_conversation os id fs = (fs', Returns conversation)
    ∧ get_conversation os id fs' = (fs', Returns conversation)
    ∧ getitem conversation "id" = Ok (JStr id)
    ∧ getitem conversation "created_at" = Ok (JStr (utcnow_isoformat os))
    ∧ getitem conversation "title" = Ok (JStr "New Conversation")
    ∧ getitem conversation "messages" = Ok (JArr [])
    ∧ getitem conversation "project_id" = Ok JNull
    ∧ getitem conversation "work_mode" = Ok JNull
    ∧ ∀ l, l ≠ location os id → fs' !! l = fs !! l.
Proof.
  intros (Hm & Hw & Hf) Hr. eexists _, _.
  split.
  { unfold create_conversation, ensure_data_dir, bind, dump, ret.
    rewrite Hm, Hw, Hf. reflexivity. }
  split.
  { apply get_conversation_held; [|done].
    unfold location. apply lookup_insert_eq. }
  do 6 (split; [unfold getitem; by lookup_inserted|]).
  intros l Hl. by apply lookup_insert_ne.
Qed.

(** X17. Updating a conversation that has no file fails cleanly: the two
    message appends and the title and work-mode updates raise
    [ValueError("Conversation <id> not found")] (before the work mode is
    validated), assigning a project answers [False], deleting returns, and
    loading returns [None]; none of them creates a file or changes one,
    whatever the operating system permits. *)
Theorem missing_conversation (id : string) (fs : gmap string file) :
  fs !! location os id = None →
  get_conversation os id fs = (fs, Returns JNull)
  ∧ (∀ content attachments case_settings,
       add_user_message os id content attachments case_settings fs
       = (fs, Raises (ValueError ("Conversation " ++ id ++ " not found"))))
  ∧ (∀ stage1 stage2 stage3 metadata,
       add_assistant_message os id stage1 stage2 stage3 metadata fs
       = (fs, Raises (ValueError ("Conversation " ++ id ++ " not found"))))
  ∧ (∀ title,
       update_conversation_title os id title fs
       = (fs, Raises (ValueError ("Conversation " ++ id ++ " not found"))))
  ∧ (∀ work_mode,
       update_conversation_work_mode os id work_mode fs
       = (fs, Raises (ValueError ("Conversation " ++ id ++ " not found"))))
  ∧ (∀ project_id,
       assign_conversation_to_project os id project_id fs
       = (fs, Returns false))
  ∧ delete_conversation os id fs = (fs, Returns tt).
Proof.
  intros Hfs. pose proof (get_conversation_missing id fs Hfs) as Hget.
  split; [done|].
  unfold add_user_message, add_assistant_message, update_conversation_title,
    update_conversation_work_mode, assign_conversation_to_project, bind.
  rewrite Hget. repeat split.
  unfold delete_conversation, bind, exists_. fold (location os id).
  rewrite Hfs. rewrite bool_decide_eq_false_2; [done|]. by intros [? ?].
Qed.

Lemma append_message_held (fields : gmap string json) (messages : list json)
    (message : json) :
  fields !! "messages" = Some (JArr messages) →
  append_message (JObj fields) message
  = Ok (JObj (<["messages" := JArr (messages ++ [message])]> fields)).
Proof. intros Hm. unfold append_message. cbn. by rewrite Hm. Qed.

(** Load, change one key, save. *)
Lemma change_held (id : string) (fs : gmap string file)
    (fields : gmap string json) (key : string) (value : json)
    (change : json → result json) :
  holds os fs id fields → can_read os id → can_write os id →
  key ≠ "id" →
  change (JObj fields) = Ok (JObj (<[key := value]> fields)) →
  bind (get_conversation os id)
    (λ doc, match doc with
            | JNull => raise (not_found id)
            | _ => bind (lift (change doc)) (save_conversation os)
            end) fs
  = (<[location os id := Document (JObj (<[key := value]> fields))]> fs,
     Returns tt).
Proof.
  intros [Hfs Hid] Hr Hw Hkey Hchange. unfold bind at 1.
  rewrite (get_conversation_held id fs fields) by done.
  unfold bind. rewrite Hchange. cbn.
  apply save_conversation_held; [|done].
  by rewrite lookup_insert_ne.
Qed.

Lemma held_after (id : string) (fs : gmap string file)
    (fields : gmap string json) :
  can_read os id →
  get_conversation os id (<[location os id := Document (JObj fields)]> fs)
  = (<[location os id := Document (JObj fields)]> fs, Returns (JObj fields)).
Proof. intros Hr. apply get_conversation_held; [apply lookup_insert_eq|done]. Qed.

Lemma add_user_message_held (id : string) (fs : gmap string file)
    (fields : gmap string json) (messages : list json)
    (content attachments case_settings : json) :
  holds os fs id fields → can_read os id → can_write os id →
  fields !! "messages" = Some (JArr messages) →
  add_user_message os id content attachments case_settings fs
  = (<[location os id :=
         Document
           (JObj (<["messages" :=
                     JArr (messages
                           ++ [user_message content attachments
                                 case_settings])]> fields))]> fs,
     Returns tt).
Proof.
  intros Hheld Hr Hw Hm. unfold add_user_message.
  apply (change_held id fs fields "messages" _
           (λ doc, append_message doc _)); try done.
  by apply append_message_held.
Qed.

Lemma add_assistant_message_held (id : string) (fs : gmap string file)
    (fields : gmap string json) (messages : list json)
    (stage1 stage2 stage3 metadata : json) :
  holds os fs id fields → can_read os id → can_write os id →
  fields !! "messages" = Some (JArr messages) →
  add_assistant_message os id stage1 stage2 stage3 metadata fs
  = (<[location os id :=
         Document
           (JObj (<["messages" :=
                     JArr (messages
                           ++ [assistant_message stage1 stage2 stage3
                                 metadata])]> fields))]> fs,
     Returns tt).
Proof.
  intros Hheld Hr Hw Hm. unfold add_assistant_message.
  apply (change_held id fs fields "messages" _
           (λ doc, append_message doc _)); try done.
  by apply append_message_held.
Qed.

Lemma update_conversation_title_held (id : string) (fs : gmap string file)
    (fields : gmap string json) (title : string) :
  holds os fs id fields → can_read os id → can_write os id →
  update_conversation_title os id title fs
  = (<[location os id :=
         Document (JObj (<["title" := JStr title]> fields))]> fs,
     Returns tt).
Proof.
  intros Hheld Hr Hw. unfold update_conversation_title.
  by apply (change_held id fs fields "title" _
              (λ doc, setitem doc "title" _)).
Qed.

Lemma holds_after (id : string) (fs : gmap string file)
    (fields : gmap string json) (key : string) (value : json) :
  fields !! "id" = Some (JStr id) → key ≠ "id" →
  holds os (<[location os id := Document (JObj (<[key := value]> fields))]> fs)
    id (<[key := value]> fields).
Proof.
  intros Hid Hkey. split; [apply lookup_insert_eq|].
  by rewrite lookup_insert_ne.
Qed.

(** X18. Appending a user message to a stored conversation (a dictionary
    that carries its own id and a list of messages, in a file that can be
    read and written) succeeds; the conversation loaded afterwards is the
    former one with the message
    [{"role": "user", "content": ..., "attachments": attachments or [],
      "case_settings": case_settings or {}}]
    added at the end of its messages: the earlier messages and every other
    key are kept, and no other file changes. *)
Theorem add_user_message_appends (id : string) (fs : gmap string file)
    (fields : gmap string json) (messages : list json)
    (content attachments case_settings : json) :
  holds os fs id fields → can_read os id → can_write os id →
  fields !! "messages" = Some (JArr messages) →
  ∃ fs' fields',
    add_user_message os id content attachments case_settings fs
    = (fs', Returns tt)
    ∧ get_conversation os id fs' = (fs', Returns (JObj fields'))
    ∧ fields' !! "messages"
      = Some (JArr (messages
                    ++ [JObj (<["role" := JStr "user"]>
                              (<["content" := content]>
                              (<["attachments" :=
                                  if truthy attachments then attachments
                                  else JArr []]>
                              (<["case_settings" :=
                                  if truthy case_settings then case_settings
                                  else JObj ∅]> ∅))))]))
    ∧ (∀ key, key ≠ "messages" → fields' !! key = fields !! key)
    ∧ (∀ l, l ≠ location os id → fs' !! l = fs !! l).
Proof.
  intros Hheld Hr Hw Hm. eexists _, _.
  split; [by apply add_user_message_held|].
  split; [by apply held_after|].
  split; [apply lookup_insert_eq|].
  split; [intros key Hkey; by apply lookup_insert_ne|].
  intros l Hl. by apply lookup_insert_ne.
Qed.

(** X19. A round composes: appending the user message and then the
    assistant message to a stored conversation leaves a conversation whose
    messages are the earlier ones followed by exactly these two, in that
    order, every other key and every other file being as before. *)
Theorem round_appends_two (id : string) (fs : gmap string file)
    (fields : gmap string json) (messages : list json)
    (content attachments case_settings stage1 stage2 stage3 metadata : json) :
  holds os fs id fields → can_read os id → can_write os id →
  fields !! "messages" = Some (JArr messages) →
  ∃ fs' fields',
    bind (add_user_message os id content attachments case_settings)
      (λ _, add_assistant_message os id stage1 stage2 stage3 metadata) fs
    = (fs', Returns tt)
    ∧ get_conversation os id fs' = (fs', Returns (JObj fields'))
    ∧ fields' !! "messages"
      = Some (JArr (messages
                    ++ [user_message content attachments case_settings;
                        assistant_message stage1 stage2 stage3 metadata]))
    ∧ (∀ key, key ≠ "messages" → fields' !! key = fields !! key)
    ∧ (∀ l, l ≠ location os id → fs' !! l = fs !! l).
Proof.
  intros Hheld Hr Hw Hm. pose proof Hheld as [_ Hid].
  set (u := user_message content attachments case_settings).
  set (a := assistant_message stage1 stage2 stage3 metadata).
  set (fields1 := <["messages" := JArr (messages ++ [u])]> fields).
  set (fs1 := <[location os id := Document (JObj fields1)]> fs).
  assert (add_user_message os id content attachments case_settings fs
          = (fs1, Returns tt)) as Huser
    by (by apply add_user_message_held).
  assert (add_assistant_message os id stage1 stage2 stage3 metadata fs1
          = (<[location os id :=
                 Document
                   (JObj (<["messages" := JArr ((messages ++ [u]) ++ [a])]>
                            fields1))]> fs1,
             Returns tt)) as Hassistant.
  { apply add_assistant_message_held; try done.
    - by apply holds_after.
    - apply lookup_insert_eq. }
  eexists _, _.
  split; [unfold bind; rewrite Huser; exact Hassistant|].
  split; [by apply held_after|].
  split; [rewrite lookup_insert_eq; by rewrite <- app_assoc|].
  split.
  { intros key Hkey. unfold fields1. by rewrite !lookup_insert_ne. }
  intros l Hl. unfold fs1. by rewrite !lookup_insert_ne.
Qed.

Lemma update_conversation_work_mode_held (id : string)
    (fs : gmap string file) (fields : gmap string json)
    (work_mode : option string) :
  holds os fs id fields → can_read os id → can_write os id →
  (∀ mode, work_mode = Some mode →
           mode = "case-study" ∨ mode = "meeting-minutes") →
  update_conversation_work_mode os id work_mode fs
  = (<[location os id :=
         Document
           (JObj (<["work_mode" := from_option JStr JNull work_mode]>
                    fields))]> fs,
     Returns tt).
Proof.
  intros Hheld Hr Hw Hvalid. unfold update_conversation_work_mode.
  destruct work_mode as [mode|]; cbn.
  - rewrite bool_decide_eq_true_2; cbn.
    + by apply (change_held id fs fields "work_mode" _
                  (λ doc, setitem doc "work_mode" _)).
    + destruct (Hvalid mode eq_refl) as [-> | ->].
      * apply elem_of_cons. by left.
      * apply elem_of_cons. right. apply elem_of_cons. by left.
  - by apply (change_held id fs fields "work_mode" _
                (λ doc, setitem doc "work_mode" _)).
Qed.

Lemma assign_conversation_to_project_held (id : string)
    (fs : gmap string file) (fields : gmap string json) (project_id : json) :
  holds os fs id fields → can_read os id → can_write os id →
  assign_conversation_to_project os id project_id fs
  = (<[location os id :=
         Document (JObj (<["project_id" := project_id]> fields))]> fs,
     Returns true).
Proof.
  intros [Hfs Hid] Hr Hw. unfold assign_conversation_to_project, bind at 1.
  rewrite (get_conversation_held id fs fields) by done.
  assert (truthy (JObj fields) = true) as ->.
  { cbn. rewrite bool_decide_eq_false_2; [done|].
    intros ->. by rewrite lookup_empty in Hid. }
  cbn. unfold bind, lift, ret.
  rewrite (save_conversation_held _ id); [done| |done].
  by rewrite lookup_insert_ne.
Qed.

(** X20. The three metadata updates of a stored conversation (title, work
    mode, project) each set one key and nothing else: the conversation
    loaded afterwards has the new value under "title", "work_mode" (the
    string, or null for [None]) or "project_id", its messages and every
    other key are as before, and no other file changes. The work mode must
    be [None], "case-study" or "meeting-minutes". *)
Theorem metadata_updates (id : string) (fs : gmap string file)
    (fields : gmap string json) :
  holds os fs id fields → can_read os id → can_write os id →
  (∀ title, ∃ fs',
     update_conversation_title os id title fs = (fs', Returns tt)
     ∧ get_conversation os id fs'
       = (fs', Returns (JObj (<["title" := JStr title]> fields)))
     ∧ ∀ l, l ≠ location os id → fs' !! l = fs !! l)
  ∧ (∀ work_mode,
       work_mode ∈ [None; Some "case-study"; Some "meeting-minutes"] →
       ∃ fs',
         update_conversation_work_mode os id work_mode fs = (fs', Returns tt)
         ∧ get_conversation os id fs'
           = (fs', Returns
                     (JObj (<["work_mode" := from_option JStr JNull work_mode]>
                              fields)))
         ∧ ∀ l, l ≠ location os id → fs' !! l = fs !! l)
  ∧ (∀ project_id, ∃ fs',
       assign_conversation_to_project os id project_id fs
       = (fs', Returns true)
       ∧ get_conversation os id fs'
         = (fs', Returns (JObj (<["project_id" := project_id]> fields)))
       ∧ ∀ l, l ≠ location os id → fs' !! l = fs !! l).
Proof.
  intros Hheld Hr Hw. split; [|split].
  - intros title. eexists.
    split; [by apply update_conversation_title_held|].
    split; [by apply held_after|].
    intros l Hl. by apply lookup_insert_ne.
  - intros work_mode Hvalid. eexists.
    split.
    { apply update_conversation_work_mode_held; try done.
      intros mode ->.
      apply elem_of_cons in Hvalid as [?|Hvalid]; [done|].
      apply elem_of_cons in Hvalid as [[= ->]|Hvalid]; [by left|].
      apply elem_of_cons in Hvalid as [[= ->]|Hvalid]; [by right|].
      by apply elem_of_nil in Hvalid. }
    split; [by apply held_after|].
    intros l Hl. by apply lookup_insert_ne.
  - intros project_id. eexists.
    split; [by apply assign_conversation_to_project_held|].
    split; [by apply held_after|].
    intros l Hl. by apply lookup_insert_ne.
Qed.

Lemma update_conversation_work_mode_invalid (id : string)
    (fs : gmap string file) (doc : json) (mode : string) :
  fs !! location os id = Some (Document doc) → doc ≠ JNull →
  can_read os id →
  mode ≠ "case-study" → mode ≠ "meeting-minutes" →
  update_conversation_work_mode os id (Some mode) fs
  = (fs, Raises (ValueError ("Invalid work_mode: " ++ mode))).
Proof.
  intros Hfs Hdoc Hr Hm1 Hm2. unfold update_conversation_work_mode, bind.
  rewrite get_conversation_eq, Hfs. unfold can_read in Hr. rewrite Hr.
  rewrite bool_decide_eq_false_2.
  - by destruct doc.
  - intros Hin.
    apply elem_of_cons in Hin as [?|Hin]; [done|].
    apply elem_of_cons in Hin as [?|Hin]; [done|].
    by apply elem_of_nil in Hin.
Qed.

(** X21. A work mode other than "case-study" and "meeting-minutes" is
    refused for every conversation that can be loaded (whatever JSON value
    its file holds, null excepted): the update raises
    [ValueError("Invalid work_mode: <mode>")] and no file changes. *)
Theorem invalid_work_mode (id : string) (fs : gmap string file) (doc : json)
    (mode : string) :
  fs !! location os id = Some (Document doc) → doc ≠ JNull →
  can_read os id →
  mode ≠ "case-study" → mode ≠ "meeting-minutes" →
  update_conversation_work_mode os id (Some mode) fs
  = (fs, Raises (ValueError ("Invalid work_mode: " ++ mode))).
Proof. apply update_conversation_work_mode_invalid. Qed.

(** X22. Deleting a conversation whose file exists and may be removed
    removes that file only: loading the conversation afterwards gives
    [None], every other file is as before, and deleting once more returns
    without a change. *)
Theorem delete_then_get (id : string) (fs : gmap string file) :
  is_Some (fs !! location os id) →
  removable os (get_conversation_path os (JStr id)) = true →
  ∃ fs',
    delete_conversation os id fs = (fs', Returns tt)
    ∧ get_conversation os id fs' = (fs', Returns JNull)
    ∧ (∀ l, l ≠ location os id → fs' !! l = fs !! l)
    ∧ delete_conversation os id fs' = (fs', Returns tt).
Proof.
  intros [f Hfs] Hrm. exists (delete (location os id) fs).
  assert (delete (location os id) fs !! location os id = None) as Hgone
    by apply lookup_delete_eq.
  split.
  { unfold delete_conversation, bind, exists_. fold (location os id).
    rewrite bool_decide_eq_true_2 by eauto. cbn.
    unfold remove. fold (location os id). by rewrite Hrm, Hfs. }
  split; [by apply get_conversation_missing|].
  split; [intros l Hl; by apply lookup_delete_ne|].
  unfold delete_conversation, bind, exists_. fold (location os id).
  rewrite Hgone. rewrite bool_decide_eq_false_2; [done|]. by intros [? ?].
Qed.

(** X23. A conversation is saved under the id that its document carries,
    not under the id it was loaded by: when the file of conversation [id]
    holds a dictionary whose "id" is [other], a title update of [id]
    succeeds, leaves the file of [id] untouched (its title is not updated)
    and replaces the file of [other] by the retitled copy. *)
Theorem saved_under_own_id (id other : string) (fs : gmap string file)
    (fields : gmap string json) (title : string) :
  fs !! location os id = Some (Document (JObj fields)) →
  fields !! "id" = Some (JStr other) →
  location os other ≠ location os id →
  can_read os id → can_write os other →
  ∃ fs',
    update_conversation_title os id title fs = (fs', Returns tt)
    ∧ fs' !! location os id = Some (Document (JObj fields))
    ∧ fs' !! location os other
      = Some (Document (JObj (<["title" := JStr title]> fields)))
    ∧ ∀ l, l ≠ location os other → fs' !! l = fs !! l.
Proof.
  intros Hfs Hid Hother Hr Hw. eexists.
  split.
  { unfold update_conversation_title, bind at 1.
    rewrite (get_conversation_held id fs fields) by done.
    unfold bind. cbn.
    apply (save_conversation_held _ other); [|done].
    by rewrite lookup_insert_ne. }
  split; [by rewrite lookup_insert_ne|].
  split; [apply lookup_insert_eq|].
  intros l Hl. by apply lookup_insert_ne.
Qed.

Lemma ensure_projects_file_eq (fs : gmap string file) :
  can_use_projects os →
  ensure_projects_file os fs
  = (match fs !! projects_location os with
     | None => <[projects_location os := Document (JArr [])]> fs
     | Some _ => fs
     end, Returns tt).
Proof.
  intros (Hm & Hr & Hw & Hf).
  unfold ensure_projects_file, ensure_data_dir, bind, exists_, dump, ret.
  rewrite Hm. fold (projects_location os).
  destruct (fs !! projects_location os) as [f|] eqn:Hfs.
  - by rewrite bool_decide_eq_true_2 by eauto.
  - rewrite bool_decide_eq_false_2 by (by intros [? ?]). cbn [negb].
    by rewrite Hw, Hf.
Qed.

Lemma get_all_projects_eq (fs : gmap string file) (projects : list json) :
  can_use_projects os →
  projects_of os fs = Some projects →
  get_all_projects os fs
  = (<[projects_location os := Document (JArr projects)]> fs,
     Returns (JArr projects)).
Proof.
  intros Huse Hprojects. pose proof Huse as (Hm & Hr & Hw & Hf).
  unfold get_all_projects.
  rewrite (bind_returns _ _ _ _ _ (ensure_projects_file_eq fs Huse)).
  unfold load. rewrite Hr. fold (projects_location os).
  unfold projects_of in Hprojects.
  destruct (fs !! projects_location os) as [[[| | | |items|]|]|] eqn:Hfs;
    try discriminate; injection Hprojects as <-.
  - rewrite Hfs. by rewrite insert_id.
  - by rewrite lookup_insert_eq.
Qed.

Lemma save_projects_eq (fs : gmap string file) (projects : json) :
  can_use_projects os →
  save_projects os projects fs
  = (<[projects_location os := Document projects]> fs, Returns tt).
Proof.
  intros Huse. pose proof Huse as (Hm & Hr & Hw & Hf).
  unfold save_projects.
  rewrite (bind_returns _ _ _ _ _ (ensure_projects_file_eq fs Huse)).
  unfold dump. rewrite Hw, Hf. fold (projects_location os).
  destruct (fs !! projects_location os); [done|].
  by rewrite insert_insert_eq.
Qed.

Lemma projects_of_saved (fs : gmap string file) (projects : list json) :
  projects_of os (<[projects_location os := Document (JArr projects)]> fs)
  = Some projects.
Proof. unfold projects_of. by rewrite lookup_insert_eq. Qed.

(** X24. Projects are kept as one list, which a missing file stands for
    as the empty list: when the projects file can be read and written,
    [create_project] returns the project
    [{"id", "name", "color", "created_at"}] made of its arguments and the
    clock, [get_all_projects] afterwards returns the former projects
    followed by it (ids are not checked for duplicates), and no other file
    changes. *)
Theorem create_project_appends (project_id : string) (name color : json)
    (fs : gmap string file) (projects : list json) :
  can_use_projects os →
  projects_of os fs = Some projects →
  ∃ fs' project,
    create_project os project_id name color fs = (fs', Returns project)
    ∧ project
      = JObj (<["id" := JStr project_id]>
              (<["name" := name]>
              (<["color" := color]>
              (<["created_at" := JStr (utcnow_isoformat os)]> ∅))))
    ∧ get_all_projects os fs' = (fs', Returns (JArr (projects ++ [project])))
    ∧ (∀ l, l ≠ projects_location os → fs' !! l = fs !! l).
Proof.
  intros Huse Hprojects. eexists _, _.
  split.
  { unfold create_project.
    rewrite (bind_returns _ _ _ _ _
               (get_all_projects_eq fs projects Huse Hprojects)).
    cbn [append lift].
    rewrite (bind_returns _ _ _ _ _ (eq_refl : ret _ _ = (_, Returns _))).
    rewrite (bind_returns _ _ _ _ _ (save_projects_eq _ _ Huse)).
    reflexivity. }
  split; [reflexivity|].
  split.
  { rewrite insert_insert_eq.
    rewrite (get_all_projects_eq _ _ Huse (projects_of_saved _ _)).
    by rewrite insert_insert_eq. }
  intros l Hl. by rewrite !lookup_insert_ne.
Qed.

Lemma update_first_other (before rest : list json) (project_id : string)
    (name color : json) :
  Forall (other_project project_id) before →
  update_first (before ++ rest) project_id name color
  = match update_first rest project_id name color with
    | Ok (Some (changed, rest')) => Ok (Some (changed, (before ++ rest')%list))
    | other => other
    end.
Proof.
  induction 1 as [|project before (fields & id & -> & Hid & Hne) _ IH].
  - cbn [app]. by destruct (update_first rest _ _ _) as [[[? ?]|]|].
  - cbn [app update_first getitem]. rewrite Hid. cbn [rbind]. rewrite Hne.
    rewrite IH. by destruct (update_first rest _ _ _) as [[[? ?]|]|].
Qed.

Lemma update_first_match (fields : gmap string json) (rest : list json)
    (project_id : string) (name color : json) :
  fields !! "id" = Some (JStr project_id) →
  update_first (JObj fields :: rest) project_id name color
  = Ok (Some (JObj (set_unless_None "color" color
                      (set_unless_None "name" name fields)),
              JObj (set_unless_None "color" color
                      (set_unless_None "name" name fields)) :: rest)).
Proof.
  intros Hid. cbn [update_first getitem]. rewrite Hid. cbn [rbind eq_str].
  rewrite String.eqb_refl. by destruct name, color.
Qed.

(** X25. [update_project] changes the first project of the list that
    carries the id, and only it: the projects before it (which carry other
    ids) and everything after it (a later project with the same id
    included) are kept, the name and the colour are replaced where one is
    given and kept where [None] is given, and the changed project is
    returned. When no project carries the id, the answer is [None] and the
    list is as before. *)
Theorem update_project_first_match (project_id : string) (name color : json)
    (fs : gmap string file) (before after : list json)
    (fields : gmap string json) :
  can_use_projects os →
  Forall (other_project project_id) before →
  fields !! "id" = Some (JStr project_id) →
  (projects_of os fs = Some (before ++ JObj fields :: after)%list →
   ∃ fs',
     update_project os project_id name color fs
     = (fs', Returns (JObj (set_unless_None "color" color
                              (set_unless_None "name" name fields))))
     ∧ get_all_projects os fs'
       = (fs', Returns
                 (JArr (before
                        ++ JObj (set_unless_None "color" color
                                   (set_unless_None "name" name fields))
                           :: after)%list))
     ∧ (∀ l, l ≠ projects_location os → fs' !! l = fs !! l))
  ∧ (projects_of os fs = Some before →
     ∃ fs',
       update_project os project_id name color fs = (fs', Returns JNull)
       ∧ get_all_projects os fs' = (fs', Returns (JArr before))
       ∧ (∀ l, l ≠ projects_location os → fs' !! l = fs !! l)).
Proof.
  intros Huse Hbefore Hid. split; intros Hprojects.
  - eexists. split.
    { unfold update_project.
      rewrite (bind_returns _ _ _ _ _
                 (get_all_projects_eq fs _ Huse Hprojects)).
      cbn [iter lift].
      rewrite (bind_returns _ _ _ _ _ (eq_refl : ret _ _ = (_, Returns _))).
      rewrite (update_first_other before _ _ _ _ Hbefore).
      rewrite (update_first_match fields after _ _ _ Hid).
      cbn [lift].
      rewrite (bind_returns _ _ _ _ _ (eq_refl : ret _ _ = (_, Returns _))).
      rewrite (bind_returns _ _ _ _ _ (save_projects_eq _ _ Huse)).
      reflexivity. }
    split.
    { rewrite insert_insert_eq.
      rewrite (get_all_projects_eq _ _ Huse (projects_of_saved _ _)).
      by rewrite insert_insert_eq. }
    intros l Hl. by rewrite !lookup_insert_ne.
  - eexists. split.
    { unfold update_project.
      rewrite (bind_returns _ _ _ _ _
                 (get_all_projects_eq fs _ Huse Hprojects)).
      cbn [iter lift].
      rewrite (bind_returns _ _ _ _ _ (eq_refl : ret _ _ = (_, Returns _))).
      rewrite <- (app_nil_r before) at 1.
      rewrite (update_first_other before [] _ _ _ Hbefore).
      cbn [update_first lift].
      rewrite (bind_returns _ _ _ _ _ (eq_refl : ret _ _ = (_, Returns _))).
      reflexivity. }
    split.
    { rewrite (get_all_projects_eq _ _ Huse (projects_of_saved _ _)).
      by rewrite insert_insert_eq. }
    intros l Hl. by rewrite lookup_insert_ne.
Qed.

End StoreFacts.

(** A disk that fills up while a conversation is saved: the operation
    raises, the stored conversation is gone, and loading it fails from then
    on. *)
Example failed_write_spoils_the_file :
  Storage.update_conversation_title StorageMore.full_disk "c1" "Title"
    StorageMore.example_files
  = (<["data/conversations/c1.json"%string := Storage.Garbage]>
       StorageMore.example_files,
     Storage.Raises Storage.OSError)
  ∧ Storage.get_conversation StorageMore.full_disk "c1"
      (<["data/conversations/c1.json"%string := Storage.Garbage]>
         StorageMore.example_files)
    = (<["data/conversations/c1.json"%string := Storage.Garbage]>
         StorageMore.example_files,
       Storage.Raises (Storage.Builtin JSONDecodeError)).
Proof. split; vm_compute; reflexivity. Qed.

Lemma create_then_get_witness :
  ∃ conversation fs',
    Storage.create_conversation StorageMore.plain_os "c1" ∅
    = (fs', Storage.Returns conversation)
    ∧ Storage.get_conversation StorageMore.plain_os "c1" fs'
      = (fs', Storage.Returns conversation).
Proof.
  destruct (create_then_get StorageMore.plain_os "c1" ∅)
    as (conversation & fs' & Hcreate & Hget & _).
  - repeat split.
  - reflexivity.
  - by exists conversation, fs'.
Defined.

Lemma missing_conversation_witness :
  Storage.update_conversation_title StorageMore.plain_os "c2" "Title"
    StorageMore.example_files
  = (StorageMore.example_files,
     Storage.Raises (Storage.ValueError "Conversation c2 not found")).
Proof.
  apply (missing_conversation StorageMore.plain_os "c2"
           StorageMore.example_files).
  vm_compute. reflexivity.
Defined.

Section StoreExamples.

Import Openrouter Storage StorageMore.

Local Open Scope string_scope.

Lemma example_holds : holds plain_os example_files "c1" example_fields.
Proof. split; vm_compute; reflexivity. Defined.

Lemma example_can_read : can_read plain_os "c1".
Proof. reflexivity. Defined.

Lemma example_can_write : can_write plain_os "c1".
Proof. repeat split. Defined.

Lemma example_messages :
  example_fields !! "messages" = Some (JArr [JStr "earlier"]).
Proof. vm_compute. reflexivity. Defined.

Lemma example_can_use_projects : can_use_projects plain_os.
Proof. repeat split. Defined.

End StoreExamples.

Lemma add_user_message_appends_witness :
  ∃ fs' fields',
    Storage.add_user_message StorageMore.plain_os "c1"
      (Openrouter.JStr "Hello") Openrouter.JNull Openrouter.JNull
      StorageMore.example_files
    = (fs', Storage.Returns tt)
    ∧ Storage.get_conversation StorageMore.plain_os "c1" fs'
      = (fs', Storage.Returns (Openrouter.JObj fields')).
Proof.
  destruct (add_user_message_appends StorageMore.plain_os "c1"
              StorageMore.example_files StorageMore.example_fields
              [Openrouter.JStr "earlier"] (Openrouter.JStr "Hello")
              Openrouter.JNull Openrouter.JNull
              example_holds example_can_read example_can_write
              example_messages)
    as (fs' & fields' & Hadd & Hget & _).
  by exists fs', fields'.
Defined.

Lemma round_appends_two_witness :
  ∃ fs' fields',
    Storage.get_conversation StorageMore.plain_os "c1" fs'
    = (fs', Storage.Returns (Openrouter.JObj fields'))
    ∧ fields' !! "messages"%string
      = Some (Openrouter.JArr
                [ Openrouter.JStr "earlier";
                  Storage.user_message (Openrouter.JStr "Hello")
                    Openrouter.JNull Openrouter.JNull;
                  Storage.assistant_message Openrouter.JNull Openrouter.JNull
                    Openrouter.JNull Openrouter.JNull ]).
Proof.
  destruct (round_appends_two StorageMore.plain_os "c1"
              StorageMore.example_files StorageMore.example_fields
              [Openrouter.JStr "earlier"] (Openrouter.JStr "Hello")
              Openrouter.JNull Openrouter.JNull Openrouter.JNull
              Openrouter.JNull Openrouter.JNull Openrouter.JNull
              example_holds example_can_read example_can_write
              example_messages)
    as (fs' & fields' & _ & Hget & Hmessages & _).
  by exists fs', fields'.
Defined.

Lemma metadata_updates_witness :
  ∃ fs',
    Storage.update_conversation_work_mode StorageMore.plain_os "c1"
      (Some "case-study"%string) StorageMore.example_files
    = (fs', Storage.Returns tt)
    ∧ Storage.get_conversation StorageMore.plain_os "c1" fs'
      = (fs', Storage.Returns
                (Openrouter.JObj
                   (<["work_mode"%string := Openrouter.JStr "case-study"]>
                      StorageMore.example_fields))).
Proof.
  destruct (proj1 (proj2
              (metadata_updates StorageMore.plain_os "c1"
                 StorageMore.example_files StorageMore.example_fields
                 example_holds example_can_read example_can_write))
              (Some "case-study"%string))
    as (fs' & Hupdate & Hget & _).
  - apply elem_of_cons. right. apply elem_of_cons. by left.
  - by exists fs'.
Defined.

Lemma invalid_work_mode_witness :
  Storage.update_conversation_work_mode StorageMore.plain_os "c1"
    (Some "brainstorm"%string) StorageMore.example_files
  = (StorageMore.example_files,
     Storage.Raises (Storage.ValueError "Invalid work_mode: brainstorm")).
Proof.
  apply (invalid_work_mode StorageMore.plain_os "c1"
           StorageMore.example_files
           (Openrouter.JObj StorageMore.example_fields)).
  - vm_compute. reflexivity.
  - discriminate.
  - reflexivity.
  - discriminate.
  - discriminate.
Defined.

Lemma delete_then_get_witness :
  ∃ fs',
    Storage.delete_conversation StorageMore.plain_os "c1"
      StorageMore.example_files
    = (fs', Storage.Returns tt)
    ∧ Storage.get_conversation StorageMore.plain_os "c1" fs'
      = (fs', Storage.Returns Openrouter.JNull).
Proof.
  destruct (delete_then_get StorageMore.plain_os "c1"
              StorageMore.example_files)
    as (fs' & Hdelete & Hget & _).
  - vm_compute. eauto.
  - reflexivity.
  - by exists fs'.
Defined.

Lemma saved_under_own_id_witness :
  ∃ fs',
    Storage.update_conversation_title StorageMore.plain_os "copy" "Renamed"
      StorageMore.copied_files
    = (fs', Storage.Returns tt)
    ∧ fs' !! StorageMore.location StorageMore.plain_os "copy"
      = StorageMore.copied_files
          !! StorageMore.location StorageMore.plain_os "copy".
Proof.
  destruct (saved_under_own_id StorageMore.plain_os "copy" "c1"
              StorageMore.copied_files StorageMore.example_fields "Renamed")
    as (fs' & Hupdate & Hcopy & _).
  - vm_compute. reflexivity.
  - vm_compute. reflexivity.
  - discriminate.
  - reflexivity.
  - repeat split.
  - exists fs'. split; [exact Hupdate|]. rewrite Hcopy. vm_compute. reflexivity.
Defined.

Lemma create_project_appends_witness :
  ∃ fs' project,
    Storage.create_project StorageMore.plain_os "p1"
      (Openrouter.JStr "Alpha") (Openrouter.JStr "#10b981") ∅
    = (fs', Storage.Returns project)
    ∧ Storage.get_all_projects StorageMore.plain_os fs'
      = (fs', Storage.Returns (Openrouter.JArr [project])).
Proof.
  destruct (create_project_appends StorageMore.plain_os "p1"
              (Openrouter.JStr "Alpha") (Openrouter.JStr "#10b981") ∅ []
              example_can_use_projects)
    as (fs' & project & Hcreate & _ & Hall & _).
  - reflexivity.
  - by exists fs', project.
Defined.

Lemma update_project_first_match_witness :
  ∃ fs',
    Storage.get_all_projects StorageMore.plain_os fs'
    = (fs', Storage.Returns
              (Openrouter.JArr
                 [ StorageMore.example_project "p0" "Zero";
                   StorageMore.example_project "p1" "Renamed";
                   StorageMore.example_project "p1" "Duplicate" ])).
Proof.
  destruct (proj1
              (update_project_first_match StorageMore.plain_os "p1"
                 (Openrouter.JStr "Renamed") Openrouter.JNull
                 StorageMore.example_projects
                 [StorageMore.example_project "p0" "Zero"]
                 [StorageMore.example_project "p1" "Duplicate"]
                 (<["id"%string := Openrouter.JStr "p1"]>
                    (<["name"%string := Openrouter.JStr "Alpha"]> ∅))
                 example_can_use_projects
                 ltac:(apply Forall_cons; split;
                         [eexists _, _; repeat split; vm_compute; reflexivity
                         |by apply Forall_nil])
                 ltac:(vm_compute; reflexivity))
              ltac:(vm_compute; reflexivity))
    as (fs' & _ & Hall & _).
  exists fs'. rewrite Hall. vm_compute. reflexivity.
Defined.

(** ** The conversation endpoints *)

Section EndpointFacts.

Import Openrouter Storage StorageMore Endpoints EndpointsMore.

Variable os : OS.

Local Open Scope string_scope.

(** X26. Every conversation endpoint answers 404 for a conversation that
    has no file, and changes nothing: loading, patching (whatever the
    request carries), deleting, assigning a project and sending a message
    (no user message is stored and the council is not called). *)
Theorem endpoints_not_found (council : Council) (id : string)
    (fs : gmap string file) :
  fs !! location os id = None →
  Endpoints.get_conversation os id fs
  = (fs, Raises (Builtin (HTTPException 404)))
  ∧ (∀ request,
       Endpoints.update_conversation os id request fs
       = (fs, Raises (Builtin (HTTPException 404))))
  ∧ Endpoints.delete_conversation os id fs
    = (fs, Raises (Builtin (HTTPException 404)))
  ∧ (∀ request,
       Endpoints.assign_conversation_to_project os id request fs
       = (fs, Raises (Builtin (HTTPException 404))))
  ∧ (∀ request,
       Endpoints.send_message os council id request fs
       = (fs, Raises (Builtin (HTTPException 404)))).
Proof.
  intros Hfs. pose proof (get_conversation_missing os id fs Hfs) as Hget.
  unfold Endpoints.get_conversation, Endpoints.update_conversation,
    Endpoints.delete_conversation, Endpoints.send_message,
    Endpoints.assign_conversation_to_project,
    Storage.assign_conversation_to_project.
  repeat split; intros; unfold bind; rewrite Hget; reflexivity.
Qed.

(** X27. A patch is not all-or-nothing: for a stored conversation, a
    request that carries a title together with a work mode that is neither
    "case-study" nor "meeting-minutes" is answered with status 400, yet the
    title has been stored: the conversation loaded afterwards carries the
    new title. *)
Theorem patch_keeps_title_on_400 (id : string) (fs : gmap string file)
    (fields : gmap string json) (title mode : string) :
  holds os fs id fields → can_read os id → can_write os id →
  mode ≠ "case-study" → mode ≠ "meeting-minutes" →
  ∃ fs',
    Endpoints.update_conversation os id
      {| UpdateConversationRequest.title := Some title;
         UpdateConversationRequest.work_mode := Some mode |} fs
    = (fs', Raises (Builtin (HTTPException 400)))
    ∧ Storage.get_conversation os id fs'
      = (fs', Returns (JObj (<["title" := JStr title]> fields))).
Proof.
  intros Hheld Hr Hw Hm1 Hm2. pose proof Hheld as [Hfs Hid].
  eexists. split; [|by apply held_after].
  unfold Endpoints.update_conversation.
  rewrite (bind_returns _ _ _ _ _ (get_conversation_held os id fs fields Hfs Hr)).
  cbn [UpdateConversationRequest.title UpdateConversationRequest.work_mode].
  rewrite (bind_returns _ _ _ _ _
             (update_conversation_title_held os id fs fields title
                Hheld Hr Hw)).
  rewrite orb_true_r.
  apply bind_raises. unfold except_ValueError.
  rewrite (update_conversation_work_mode_invalid os id _
             (JObj (<["title" := JStr title]> fields)) mode); try done.
  apply lookup_insert_eq.
Qed.

(** X28. A patch always writes the work mode, because the request model
    always has the attribute: for a stored conversation and a request
    whose work mode is absent, "case-study" or "meeting-minutes", the
    endpoint returns the conversation as it is stored afterwards, whose
    "work_mode" is the request's (null when absent, whatever it was
    before), whose title is the request's when one is given and the former
    one otherwise, and whose other keys are as before. *)
Theorem patch_writes_work_mode (id : string) (fs : gmap string file)
    (fields : gmap string json) (request : UpdateConversationRequest.t) :
  holds os fs id fields → can_read os id → can_write os id →
  UpdateConversationRequest.work_mode request
    ∈ [None; Some "case-study"; Some "meeting-minutes"] →
  ∃ fs' fields',
    Endpoints.update_conversation os id request fs
    = (fs', Returns (JObj fields'))
    ∧ Storage.get_conversation os id fs' = (fs', Returns (JObj fields'))
    ∧ fields' !! "work_mode"
      = Some (from_option JStr JNull
                (UpdateConversationRequest.work_mode request))
    ∧ fields' !! "title"
      = match UpdateConversationRequest.title request with
        | Some title => Some (JStr title)
        | None => fields !! "title"
        end
    ∧ (∀ key, key ≠ "title" → key ≠ "work_mode" →
              fields' !! key = fields !! key)
    ∧ (∀ l, l ≠ location os id → fs' !! l = fs !! l).
Proof.
  intros Hheld Hr Hw Hvalid. pose proof Hheld as [Hfs Hid].
  destruct request as [title work_mode].
  cbn [UpdateConversationRequest.title UpdateConversationRequest.work_mode]
    in *.
  assert (∀ mode, work_mode = Some mode →
                  mode = "case-study" ∨ mode = "meeting-minutes") as Hmode.
  { intros mode ->.
    apply elem_of_cons in Hvalid as [?|Hvalid]; [done|].
    apply elem_of_cons in Hvalid as [[= ->]|Hvalid]; [by left|].
    apply elem_of_cons in Hvalid as [[= ->]|Hvalid]; [by right|].
    by apply elem_of_nil in Hvalid. }
  set (fields1 := match title with
                  | Some t => <["title" := JStr t]> fields
                  | None => fields
                  end).
  set (fs1 := match title with
              | Some t => <[location os id := Document (JObj fields1)]> fs
              | None => fs
              end).
  assert (holds os fs1 id fields1) as Hheld1.
  { unfold fs1, fields1. destruct title; [by apply holds_after|done]. }
  set (fields2 := <["work_mode" := from_option JStr JNull work_mode]> fields1).
  exists (<[location os id := Document (JObj fields2)]> fs1), fields2.
  split.
  { unfold Endpoints.update_conversation.
    rewrite (bind_returns _ _ _ _ _
               (get_conversation_held os id fs fields Hfs Hr)).
    cbn [UpdateConversationRequest.title UpdateConversationRequest.work_mode].
    assert (match title with
            | Some t => Storage.update_conversation_title os id t
            | None => ret tt
            end fs = (fs1, Returns tt)) as Htitle.
    { unfold fs1, fields1. destruct title; [|done].
      by apply update_conversation_title_held. }
    rewrite (bind_returns _ _ _ _ _ Htitle).
    rewrite orb_true_r.
    assert (except_ValueError
              (Storage.update_conversation_work_mode os id work_mode)
              (HTTP 400) fs1
            = (<[location os id := Document (JObj fields2)]> fs1, Returns tt))
      as Hmode'.
    { unfold except_ValueError.
      by rewrite (update_conversation_work_mode_held os id fs1 fields1). }
    rewrite (bind_returns _ _ _ _ _ Hmode').
    by apply held_after. }
  split; [by apply held_after|].
  split; [apply lookup_insert_eq|].
  split.
  { unfold fields2, fields1. rewrite lookup_insert_ne by done.
    destruct title; [apply lookup_insert_eq|done]. }
  split.
  { intros key Hk1 Hk2. unfold fields2, fields1.
    rewrite lookup_insert_ne by done.
    destruct title; [by rewrite lookup_insert_ne|done]. }
  intros l Hl. rewrite lookup_insert_ne by done.
  unfold fs1. destruct title; [by rewrite lookup_insert_ne|done].
Qed.

(** [send_message] up to the call of the council, and after it. *)
Lemma send_message_eq (council : Council) (id : string)
    (fs : gmap string file) (fields : gmap string json)
    (messages : list json) (request : SendMessageRequest.t)
    (title : string) :
  holds os fs id fields → can_read os id → can_write os id →
  fields !! "messages" = Some (JArr messages) →
  (messages = [] →
   generate_conversation_title council (SendMessageRequest.content request)
   = Ok title) →
  ∃ fs2 fields2,
    Storage.get_conversation os id fs2 = (fs2, Returns (JObj fields2))
    ∧ holds os fs2 id fields2
    ∧ fields2 !! "messages"
      = Some (JArr (messages ++ [stored_user_message request]))
    ∧ fields2 !! "title" = title_after messages title fields
    ∧ (∀ key, key ≠ "messages" → key ≠ "title" →
              fields2 !! key = fields !! key)
    ∧ (∀ l, l ≠ location os id → fs2 !! l = fs !! l)
    ∧ Endpoints.send_message os council id request fs
      = match run_full_council council (prompt_of request) with
        | Ok (stage1, stage2, stage3, metadata) =>
            bind (Storage.add_assistant_message os id stage1 stage2 stage3
                    metadata)
              (λ _, ret (JObj (<["stage1" := stage1]>
                               (<["stage2" := stage2]>
                               (<["stage3" := stage3]>
                               (<["metadata" := metadata]> ∅)))))) fs2
        | Raise e => (fs2, Raises (Builtin e))
        end.
Proof.
  intros Hheld Hr Hw Hm Htitle. pose proof Hheld as [Hfs Hid].
  set (u := stored_user_message request).
  set (fields1 := <["messages" := JArr (messages ++ [u])]> fields).
  set (fs1 := <[location os id := Document (JObj fields1)]> fs).
  assert (holds os fs1 id fields1) as Hheld1 by (by apply holds_after).
  set (fields2 := match messages with
                  | [] => <["title" := JStr title]> fields1
                  | _ => fields1
                  end).
  set (fs2 := match messages with
              | [] => <[location os id := Document (JObj fields2)]> fs1
              | _ => fs1
              end).
  assert (holds os fs2 id fields2) as Hheld2.
  { unfold fs2, fields2.
    destruct messages; [apply holds_after; [apply Hheld1|done]|done]. }
  exists fs2, fields2.
  split; [apply get_conversation_held; [apply Hheld2|done]|].
  split; [done|].
  split.
  { unfold fields2. destruct messages; [rewrite lookup_insert_ne by done|];
      apply lookup_insert_eq. }
  split.
  { unfold fields2, title_after. destruct messages; [apply lookup_insert_eq|].
    by apply lookup_insert_ne. }
  split.
  { intros key Hk1 Hk2. unfold fields2.
    destruct messages; [rewrite lookup_insert_ne by done|];
      by apply lookup_insert_ne. }
  split.
  { intros l Hl. unfold fs2.
    destruct messages; [rewrite lookup_insert_ne by done|];
      by apply lookup_insert_ne. }
  unfold Endpoints.send_message.
  rewrite (bind_returns _ _ _ _ _
             (get_conversation_held os id fs fields Hfs Hr)).
  cbn [getitem]. rewrite Hm.
  rewrite (bind_returns _ _ fs fs (JArr messages)) by done.
  rewrite (bind_returns _ _ fs fs (Z.of_nat (length messages))) by done.
  assert (Storage.add_user_message os id
            (JStr (SendMessageRequest.content request))
            (JArr (attachment_dict
                     <$> Main.or_list (SendMessageRequest.attachments request)
                           []))
            (match SendMessageRequest.case_settings request with
             | Some cs => case_settings_dict cs
             | None => JObj ∅
             end) fs
          = (fs1, Returns tt)) as Huser
    by (by apply add_user_message_held).
  rewrite (bind_returns _ _ _ _ _ Huser).
  assert ((if (Z.of_nat (length messages) =? 0)%Z
           then
             bind (lift (generate_conversation_title council
                           (SendMessageRequest.content request)))
               (λ t, Storage.update_conversation_title os id t)
           else ret tt) fs1
          = (fs2, Returns tt)) as Htitled.
  { unfold fs2, fields2. destruct messages as [|m rest]; [|done].
    change (Z.of_nat (length []) =? 0)%Z with true. cbn iota.
    rewrite (Htitle eq_refl). unfold bind at 1, lift, ret.
    by apply update_conversation_title_held. }
  rewrite (bind_returns _ _ _ _ _ Htitled).
  fold (prompt_of request).
  destruct (run_full_council council (prompt_of request))
    as [[[[stage1 stage2] stage3] metadata]|e]; [|done].
  by rewrite (bind_returns _ _ fs2 fs2 (stage1, stage2, stage3, metadata)).
Qed.

(** X29. Sending a message to a stored conversation whose council answers
    stores the whole round and returns it: the response holds the four
    results of [run_full_council] called on the formatted prompt, and the
    conversation loaded afterwards has the earlier messages followed by
    the user message and by the assistant message made of these results;
    its title is the generated one when the conversation had no message
    and the former one otherwise, and nothing else changes. *)
Theorem send_message_stores_round (council : Council) (id : string)
    (fs : gmap string file) (fields : gmap string json)
    (messages : list json) (request : SendMessageRequest.t)
    (title : string) (stage1 stage2 stage3 metadata : json) :
  holds os fs id fields → can_read os id → can_write os id →
  fields !! "messages" = Some (JArr messages) →
  (messages = [] →
   generate_conversation_title council (SendMessageRequest.content request)
   = Ok title) →
  run_full_council council (prompt_of request)
  = Ok (stage1, stage2, stage3, metadata) →
  ∃ fs' fields',
    Endpoints.send_message os council id request fs
    = (fs', Returns (JObj (<["stage1" := stage1]>
                           (<["stage2" := stage2]>
                           (<["stage3" := stage3]>
                           (<["metadata" := metadata]> ∅))))))
    ∧ Storage.get_conversation os id fs' = (fs', Returns (JObj fields'))
    ∧ fields' !! "messages"
      = Some (JArr (messages
                    ++ [ stored_user_message request;
                         assistant_message stage1 stage2 stage3 metadata ]))
    ∧ fields' !! "title" = title_after messages title fields
    ∧ (∀ key, key ≠ "messages" → key ≠ "title" →
              fields' !! key = fields !! key)
    ∧ (∀ l, l ≠ location os id → fs' !! l = fs !! l).
Proof.
  intros Hheld Hr Hw Hm Htitle Hcouncil.
  destruct (send_message_eq council id fs fields messages request title
              Hheld Hr Hw Hm Htitle)
    as (fs2 & fields2 & Hget2 & Hheld2 & Hm2 & Ht2 & Hkeys2 & Hframe2 & Hrun).
  rewrite Hcouncil in Hrun.
  eexists _, _. split.
  { rewrite Hrun.
    by rewrite (bind_returns _ _ _ _ _
                  (add_assistant_message_held os id fs2 fields2 _ stage1
                     stage2 stage3 metadata Hheld2 Hr Hw Hm2)). }
  split; [by apply held_after|].
  split; [rewrite lookup_insert_eq; by rewrite <- app_assoc|].
  split; [by rewrite lookup_insert_ne|].
  split.
  { intros key Hk1 Hk2. rewrite lookup_insert_ne by done. by apply Hkeys2. }
  intros l Hl. rewrite lookup_insert_ne by done. by apply Hframe2.
Qed.

(** X30. There is no rollback: when [run_full_council] raises, sending a
    message to a stored conversation raises the same exception, and the
    conversation loaded afterwards nevertheless ends with the user's
    message (and carries the generated title if it was the first
    message); no assistant message has been added. *)
Theorem send_message_keeps_user_message (council : Council) (id : string)
    (fs : gmap string file) (fields : gmap string json)
    (messages : list json) (request : SendMessageRequest.t)
    (title : string) (e : exn) :
  holds os fs id fields → can_read os id → can_write os id →
  fields !! "messages" = Some (JArr messages) →
  (messages = [] →
   generate_conversation_title council (SendMessageRequest.content request)
   = Ok title) →
  run_full_council council (prompt_of request) = Raise e →
  ∃ fs' fields',
    Endpoints.send_message os council id request fs
    = (fs', Raises (Builtin e))
    ∧ Storage.get_conversation os id fs' = (fs', Returns (JObj fields'))
    ∧ fields' !! "messages"
      = Some (JArr (messages ++ [stored_user_message request]))
    ∧ fields' !! "title" = title_after messages title fields.
Proof.
  intros Hheld Hr Hw Hm Htitle Hcouncil.
  destruct (send_message_eq council id fs fields messages request title
              Hheld Hr Hw Hm Htitle)
    as (fs2 & fields2 & Hget2 & Hheld2 & Hm2 & Ht2 & Hkeys2 & Hframe2 & Hrun).
  rewrite Hcouncil in Hrun. by exists fs2, fields2.
Qed.

End EndpointFacts.

Lemma endpoints_not_found_witness :
  Endpoints.send_message StorageMore.plain_os EndpointsMore.answering_council
    "c2" (EndpointsMore.plain_message "Hello") StorageMore.example_files
  = (StorageMore.example_files,
     Storage.Raises (Storage.Builtin (HTTPException 404))).
Proof.
  apply (endpoints_not_found StorageMore.plain_os
           EndpointsMore.answering_council "c2" StorageMore.example_files).
  vm_compute. reflexivity.
Defined.

Lemma patch_keeps_title_on_400_witness :
  ∃ fs',
    Endpoints.update_conversation StorageMore.plain_os "c1"
      {| UpdateConversationRequest.title := Some "Renamed"%string;
         UpdateConversationRequest.work_mode := Some "brainstorm"%string |}
      StorageMore.example_files
    = (fs', Storage.Raises (Storage.Builtin (HTTPException 400)))
    ∧ Storage.get_conversation StorageMore.plain_os "c1" fs'
      = (fs', Storage.Returns
                (Openrouter.JObj
                   (<["title"%string := Openrouter.JStr "Renamed"]>
                      StorageMore.example_fields))).
Proof.
  apply (patch_keeps_title_on_400 StorageMore.plain_os "c1"
           StorageMore.example_files StorageMore.example_fields "Renamed"
           "brainstorm" example_holds example_can_read example_can_write);
    discriminate.
Defined.

Lemma patch_writes_work_mode_witness :
  ∃ fs' fields',
    Endpoints.update_conversation StorageMore.plain_os "c1"
      {| UpdateConversationRequest.title := Some "Renamed"%string;
         UpdateConversationRequest.work_mode := None |}
      StorageMore.example_files
    = (fs', Storage.Returns (Openrouter.JObj fields'))
    ∧ fields' !! "work_mode"%string = Some Openrouter.JNull.
Proof.
  destruct (patch_writes_work_mode StorageMore.plain_os "c1"
              StorageMore.example_files StorageMore.example_fields
              {| UpdateConversationRequest.title := Some "Renamed"%string;
                 UpdateConversationRequest.work_mode := None |}
              example_holds example_can_read example_can_write)
    as (fs' & fields' & Hrun & _ & Hmode & _).
  - apply elem_of_cons. by left.
  - by exists fs', fields'.
Defined.

Lemma send_message_stores_round_witness :
  ∃ fs' fields',
    Endpoints.send_message StorageMore.plain_os
      EndpointsMore.answering_council "c1"
      (EndpointsMore.plain_message "Hello") StorageMore.example_files
    = (fs', Storage.Returns
              (Openrouter.JObj
                 (<["stage1"%string :=
                     Openrouter.JArr [Openrouter.JStr "draft"]]>
                  (<["stage2"%string :=
                      Openrouter.JArr [Openrouter.JStr "ranking"]]>
                  (<["stage3"%string := Openrouter.JStr "final"]>
                  (<["metadata"%string := Openrouter.JObj ∅]> ∅))))))
    ∧ Storage.get_conversation StorageMore.plain_os "c1" fs'
      = (fs', Storage.Returns (Openrouter.JObj fields')).
Proof.
  destruct (send_message_stores_round StorageMore.plain_os
              EndpointsMore.answering_council "c1" StorageMore.example_files
              StorageMore.example_fields [Openrouter.JStr "earlier"]
              (EndpointsMore.plain_message "Hello") "A title"
              (Openrouter.JArr [Openrouter.JStr "draft"])
              (Openrouter.JArr [Openrouter.JStr "ranking"])
              (Openrouter.JStr "final") (Openrouter.JObj ∅)
              example_holds example_can_read example_can_write
              example_messages)
    as (fs' & fields' & Hrun & Hget & _).
  - reflexivity.
  - reflexivity.
  - by exists fs', fields'.
Defined.

Lemma send_message_keeps_user_message_witness :
  ∃ fs' (fields' : gmap string Openrouter.json),
    Endpoints.send_message StorageMore.plain_os
      EndpointsMore.failing_council "c1"
      (EndpointsMore.plain_message "Hello") StorageMore.example_files
    = (fs', Storage.Raises
              (Storage.Builtin (RuntimeError "stage 1 failed")))
    ∧ fields' !! "messages"%string
      = Some (Openrouter.JArr
                [ Openrouter.JStr "earlier";
                  EndpointsMore.stored_user_message
                    (EndpointsMore.plain_message "Hello") ]).
Proof.
  destruct (send_message_keeps_user_message StorageMore.plain_os
              EndpointsMore.failing_council "c1" StorageMore.example_files
              StorageMore.example_fields [Openrouter.JStr "earlier"]
              (EndpointsMore.plain_message "Hello") "A title"
              (RuntimeError "stage 1 failed")
              example_holds example_can_read example_can_write
              example_messages)
    as (fs' & fields' & Hrun & _ & Hmessages & _).
  - reflexivity.
  - reflexivity.
  - by exists fs', fields'.
Defined.
